(** * Hijab Marriage Bureau: profile lifecycle, payment verification, browsing

    A shallow embedding of the Express route handlers and Mongoose schemas of
    the repository, and the properties of the profile lifecycle proved on it.

    Source files embedded here:
    - [models/Payment.js]        (src/unnamed/part_000): the payment schema;
    - [models/RishtaProfile.js]  (src/unnamed/part_001): the profile schema;
    - [routes/profiles.js]       (src/unnamed/part_002): create, edit, delete
      photo, set primary photo;
    - [routes/admin.js]          (src/unnamed/part_003): review, publish toggle;
    - payments and main routes   (src/routes/auth.js, from line 249 on):
      verify, cancel, browse;
    - [middleware/auth.js]: isAuthenticated, isAdmin, hasPaid.

    Beside the lifecycle, from the same files: the home page, the public
    profile page and the dashboard redirect (main router), the payment
    page, the submission and the history (payments router), the two form
    pages ([routes/profiles.js]), the administrator's profile listing and
    the counts of the dashboard ([routes/admin.js]), the guards
    [hasProfile] and [isOwnerOrAdmin], and the virtual [calculatedAge] of
    the profile schema.

    Conventions.
    - A collection is the list of its documents in natural order; [save]
      rewrites the document that carries the same [_id].
    - A handler is a function from the request and the store to the response
      and the store after it.  A [catch] block of a route is the branch taken
      when the modelled body fails: a [TypeError] on a missing nested object,
      a Mongoose validation or cast error, a [SyntaxError] of [new RegExp].
    - What the middleware before a handler leaves on the request is a field
      of the request: [req.session.user], [req.files] (multer), the outcome
      of the express-validator chain read by [validationResult(req)], and the
      route parameter after its cast to an ObjectId.
    - [new Date()] and the ObjectIds Mongoose generates are supplied with the
      request.
    - Of the two stamps that [timestamps: true] maintains, [createdAt] is a
      path of the records (the listings sort by it); [updatedAt] and the
      version key, which no route reads, are not.
    - The Cloudinary calls ([deleteMultipleImages]) swallow their own errors
      and touch no document; they are not part of the store modelled here. *)

From Stdlib Require Import String Ascii ZArith NArith Lia.
From stdpp Require Import base decidable option list numbers sorting.

#[local] Open Scope string_scope.
#[local] Open Scope list_scope.

(** ** ECMAScript strings

    A string is its sequence of UTF-16 code units. *)

Abbreviation jsstring := (list N).

(** The string of an ASCII literal of the source. *)
Definition js (s : string) : jsstring :=
  (λ a, N_of_ascii a) <$> list_ascii_of_string s.

Arguments js : simpl never.

(** WhiteSpace and LineTerminator code points, which [String.prototype.trim]
    strips: TAB, LF, VT, FF, CR, SP, NBSP, U+1680, U+2000..U+200A, LS, PS,
    U+202F, U+205F, U+3000, BOM. *)
Definition isWhiteSpace (c : N) : bool :=
  ((c =? 9) || (c =? 10) || (c =? 11) || (c =? 12) || (c =? 13) || (c =? 32)
   || (c =? 160) || (c =? 5760) || ((8192 <=? c) && (c <=? 8202))
   || (c =? 8232) || (c =? 8233) || (c =? 8239) || (c =? 8287)
   || (c =? 12288) || (c =? 65279))%N.

Fixpoint trimStart (s : jsstring) : jsstring :=
  match s with
  | c :: s' => if isWhiteSpace c then trimStart s' else s
  | [] => []
  end.

Definition trimEnd (s : jsstring) : jsstring :=
  reverse (trimStart (reverse s)).

(** [s.trim()] *)
Definition trim (s : jsstring) : jsstring := trimEnd (trimStart s).

(** [s.split(',')] for a one-unit separator. *)
Fixpoint split (sep : N) (s : jsstring) : list jsstring :=
  match s with
  | [] => [[]]
  | c :: s' =>
      if (c =? sep)%N then [] :: split sep s'
      else match split sep s' with
           | w :: ws => (c :: w) :: ws
           | [] => [[c]]
           end
  end.

(** A value read from a form, a query string or a JSON body is [undefined]
    or a string. *)
Abbreviation jsvalue := (option (list N)).

(** ToBoolean: [undefined] and the empty string are falsy. *)
Definition truthy (v : jsvalue) : bool :=
  match v with
  | Some (_ :: _) => true
  | _ => false
  end.

(** [v || d] *)
Definition orElse (v : jsvalue) (d : jsstring) : jsvalue :=
  if truthy v then v else Some d.

(** [`${v}`] *)
Definition toString (v : jsvalue) : jsstring :=
  default (js "undefined") v.

(** [arr.includes(v)] on an array of string literals. *)
Definition includes (arr : list string) (v : jsvalue) : bool :=
  match v with
  | Some s => bool_decide (s ∈ js <$> arr)
  | None => false
  end.

(** A Number that [parseInt] returns: an integer or NaN. *)
Inductive JsNumber :=
| NaN
| Int (z : Z).

#[global] Instance JsNumber_eq_dec : EqDecision JsNumber.
Proof. solve_decision. Defined.

(** ObjectIds, and dates as milliseconds since the epoch. *)
Abbreviation ObjectId := N.
Abbreviation Date := Z.

(** ** Mongoose schema types

    A [String] path declared with [trim: true] trims what is assigned to it
    (the setter Mongoose installs for the option); [undefined] stays
    [undefined]. *)
Definition setTrimmed (v : jsvalue) : jsvalue := trim <$> v.

(** The [required] validator of a String path: a non-empty string. *)
Definition requiredString (v : jsvalue) : bool := truthy v.

(** The [enum] validator: [undefined] passes, a string must be listed. *)
Definition inEnum (values : list string) (v : jsvalue) : bool :=
  match v with
  | Some s => bool_decide (s ∈ js <$> values)
  | None => true
  end.

(** The [maxlength] validator. *)
Definition maxLength (n : nat) (v : jsvalue) : bool :=
  match v with
  | Some s => bool_decide (length s ≤ n)
  | None => true
  end.

(** A Number path: NaN does not cast; [min] and [max] bound the value. *)
Definition numberBetween (lo : Z) (hi : option Z) (v : JsNumber) : bool :=
  match v with
  | NaN => false
  | Int z => bool_decide (lo ≤ z)%Z && from_option (λ h, bool_decide (z ≤ h)%Z) true hi
  end.

Definition optionalNumber (lo : Z) (hi : option Z) (v : option JsNumber) : bool :=
  from_option (numberBetween lo hi) true v.

(** ** The profile schema ([models/RishtaProfile.js]) *)

(** An element of [photos]; Mongoose gives each subdocument an [_id]. *)
Module Photo.
Record t := mk {
  _id : ObjectId;
  url : jsstring;
  publicId : jsstring;
  isPrimary : bool
}.

#[global] Instance eq_dec : EqDecision t.
Proof. solve_decision. Defined.

Definition setPrimary (b : bool) (ph : t) : t :=
  mk (_id ph) (url ph) (publicId ph) b.

(** [url] and [publicId] are required. *)
Definition validate (ph : t) : bool :=
  requiredString (Some (url ph)) && requiredString (Some (publicId ph)).
End Photo.

Module RishtaProfile.

Record Location := mkLocation {
  city : jsvalue;
  country : jsvalue
}.

Record PersonalInfo := mkPersonalInfo {
  name : jsvalue;
  age : JsNumber;
  gender : jsvalue;
  dateOfBirth : option Date;          (* [None]: an Invalid Date *)
  height : option JsNumber;
  maritalStatus : jsvalue;
  location : Location;
  nationality : jsvalue
}.

Record Education := mkEducation {
  level : jsvalue;
  field : jsvalue;
  institution : jsvalue
}.

Record Occupation := mkOccupation {
  profession : jsvalue;
  company : jsvalue;
  income : jsvalue
}.

Record FamilyInfo := mkFamilyInfo {
  familyType : jsvalue;
  familyStatus : jsvalue;
  siblings : option JsNumber;
  fatherName : jsvalue;
  motherName : jsvalue
}.

Record ReligiousInfo := mkReligiousInfo {
  sect : jsvalue;
  religiousness : jsvalue;
  hijab : jsvalue;
  beard : jsvalue
}.

Record Preferences := mkPreferences {
  ageRangeMin : option JsNumber;      (* preferences.ageRange.min *)
  ageRangeMax : option JsNumber;      (* preferences.ageRange.max *)
  prefLocation : list jsstring;       (* preferences.location *)
  prefEducation : list jsstring;      (* preferences.education *)
  prefMaritalStatus : list jsstring;  (* preferences.maritalStatus *)
  prefReligiousness : list jsstring   (* preferences.religiousness *)
}.

Record ContactInfo := mkContactInfo {
  guardianName : jsvalue;
  guardianPhone : jsvalue;
  guardianRelation : jsvalue
}.

(** The descriptive paths, which the create and edit forms fill. *)
Record Details := mkDetails {
  personalInfo : PersonalInfo;
  education : Education;
  occupation : Occupation;
  familyInfo : FamilyInfo;
  religiousInfo : ReligiousInfo;
  preferences : Preferences;
  about : jsvalue;
  expectations : jsvalue;
  contactInfo : ContactInfo
}.

(** [status]: enum ['draft', 'submitted', 'approved', 'rejected',
    'published'], default 'draft'. *)
Inductive Status := draft | submitted | approved | rejected | publishedStatus.

Record t := mk {
  _id : ObjectId;
  userId : ObjectId;
  details : Details;
  photos : list Photo.t;
  status : Status;
  published : bool;
  approvedBy : option ObjectId;
  approvedAt : option Date;
  rejectionReason : jsvalue;
  views : Z;
  lastViewed : option Date;
  createdAt : Date                    (* timestamps: true *)
}.

#[global] Instance Location_eq_dec : EqDecision Location.
Proof. solve_decision. Defined.
#[global] Instance PersonalInfo_eq_dec : EqDecision PersonalInfo.
Proof. solve_decision. Defined.
#[global] Instance Education_eq_dec : EqDecision Education.
Proof. solve_decision. Defined.
#[global] Instance Occupation_eq_dec : EqDecision Occupation.
Proof. solve_decision. Defined.
#[global] Instance FamilyInfo_eq_dec : EqDecision FamilyInfo.
Proof. solve_decision. Defined.
#[global] Instance ReligiousInfo_eq_dec : EqDecision ReligiousInfo.
Proof. solve_decision. Defined.
#[global] Instance Preferences_eq_dec : EqDecision Preferences.
Proof. solve_decision. Defined.
#[global] Instance ContactInfo_eq_dec : EqDecision ContactInfo.
Proof. solve_decision. Defined.
#[global] Instance Details_eq_dec : EqDecision Details.
Proof. solve_decision. Defined.
#[global] Instance Status_eq_dec : EqDecision Status.
Proof. solve_decision. Defined.
#[global] Instance eq_dec : EqDecision t.
Proof. solve_decision. Defined.

(** Assignments to the paths the routes write. *)
Definition setDetails (d : Details) (p : t) : t :=
  mk (_id p) (userId p) d (photos p) (status p) (published p)
     (approvedBy p) (approvedAt p) (rejectionReason p) (views p)
     (lastViewed p) (createdAt p).

Definition setPhotos (phs : list Photo.t) (p : t) : t :=
  mk (_id p) (userId p) (details p) phs (status p) (published p)
     (approvedBy p) (approvedAt p) (rejectionReason p) (views p)
     (lastViewed p) (createdAt p).

Definition setStatus (s : Status) (p : t) : t :=
  mk (_id p) (userId p) (details p) (photos p) s (published p)
     (approvedBy p) (approvedAt p) (rejectionReason p) (views p)
     (lastViewed p) (createdAt p).

Definition setPublished (b : bool) (p : t) : t :=
  mk (_id p) (userId p) (details p) (photos p) (status p) b
     (approvedBy p) (approvedAt p) (rejectionReason p) (views p)
     (lastViewed p) (createdAt p).

Definition setApprovedBy (u : option ObjectId) (p : t) : t :=
  mk (_id p) (userId p) (details p) (photos p) (status p) (published p)
     u (approvedAt p) (rejectionReason p) (views p)
     (lastViewed p) (createdAt p).

Definition setApprovedAt (d : option Date) (p : t) : t :=
  mk (_id p) (userId p) (details p) (photos p) (status p) (published p)
     (approvedBy p) d (rejectionReason p) (views p)
     (lastViewed p) (createdAt p).

(** [rejectionReason: { type: String, trim: true }] *)
Definition setRejectionReason (r : jsvalue) (p : t) : t :=
  mk (_id p) (userId p) (details p) (photos p) (status p) (published p)
     (approvedBy p) (approvedAt p) (setTrimmed r) (views p)
     (lastViewed p) (createdAt p).

(** The validators of the schema, path by path. *)
Definition validatePersonalInfo (i : PersonalInfo) : bool :=
  requiredString (name i)
  && numberBetween 18 (Some 80%Z) (age i)
  && requiredString (gender i) && inEnum ["male"; "female"] (gender i)
  && bool_decide (is_Some (dateOfBirth i))
  && optionalNumber 120 (Some 220%Z) (height i)
  && requiredString (maritalStatus i)
  && inEnum ["never-married"; "divorced"; "widowed"] (maritalStatus i)
  && requiredString (city (location i))
  && requiredString (country (location i)).

Definition validateEducation (e : Education) : bool :=
  requiredString (level e)
  && inEnum ["primary"; "secondary"; "bachelor"; "master"; "phd"; "other"]
            (level e).

Definition validateOccupation (o : Occupation) : bool :=
  requiredString (profession o)
  && inEnum ["below-50k"; "50k-100k"; "100k-200k"; "200k-500k";
             "above-500k"; "prefer-not-to-say"] (income o).

Definition validateFamilyInfo (f : FamilyInfo) : bool :=
  inEnum ["joint"; "nuclear"; "extended"] (familyType f)
  && inEnum ["middle-class"; "upper-middle"; "upper-class";
             "prefer-not-to-say"] (familyStatus f)
  && optionalNumber 0 None (siblings f).

Definition validateReligiousInfo (r : ReligiousInfo) : bool :=
  inEnum ["sunni"; "shia"; "other"] (sect r)
  && inEnum ["very-religious"; "moderately-religious";
             "somewhat-religious"; "not-very-religious"] (religiousness r)
  && inEnum ["yes"; "no"; "sometimes"] (hijab r)
  && inEnum ["yes"; "no"; "sometimes"] (beard r).

Definition validatePreferences (q : Preferences) : bool :=
  optionalNumber 18 (Some 80%Z) (ageRangeMin q)
  && optionalNumber 18 (Some 80%Z) (ageRangeMax q)
  && forallb (λ s, inEnum ["primary"; "secondary"; "bachelor"; "master";
                           "phd"; "any"] (Some s)) (prefEducation q)
  && forallb (λ s, inEnum ["never-married"; "divorced"; "widowed"; "any"]
                          (Some s)) (prefMaritalStatus q)
  && forallb (λ s, inEnum ["very-religious"; "moderately-religious";
                           "somewhat-religious"; "not-very-religious";
                           "any"] (Some s)) (prefReligiousness q).

Definition validateDetails (d : Details) : bool :=
  validatePersonalInfo (personalInfo d)
  && validateEducation (education d)
  && validateOccupation (occupation d)
  && validateFamilyInfo (familyInfo d)
  && validateReligiousInfo (religiousInfo d)
  && validatePreferences (preferences d)
  && maxLength 1000 (about d)
  && maxLength 500 (expectations d).

(** What [save] validates before it writes; [status] is an enum path and
    holds one of its values by its type. *)
Definition validate (p : t) : bool :=
  validateDetails (details p) && forallb Photo.validate (photos p).

End RishtaProfile.

(** ** The payment schema ([models/Payment.js]) *)

Module Payment.

(** [status]: enum ['pending', 'completed', 'failed', 'cancelled'],
    default 'pending'. *)
Inductive Status := pending | completed | failed | cancelled.

Record ReceiptImage := mkReceiptImage {
  url : jsvalue;
  publicId : jsvalue
}.

Record t := mk {
  _id : ObjectId;
  userId : ObjectId;
  amount : JsNumber;
  currency : jsvalue;
  paymentMethod : jsvalue;
  paymentType : jsvalue;
  status : Status;
  transactionId : jsvalue;
  referenceNumber : jsvalue;
  senderNumber : jsvalue;
  senderName : jsvalue;
  receiptImage : option ReceiptImage;
  notes : jsvalue;
  verifiedBy : option ObjectId;
  verifiedAt : option Date;
  verificationNotes : jsvalue;
  createdAt : Date                    (* timestamps: true *)
}.

#[global] Instance Status_eq_dec : EqDecision Status.
Proof. solve_decision. Defined.
#[global] Instance ReceiptImage_eq_dec : EqDecision ReceiptImage.
Proof. solve_decision. Defined.
#[global] Instance eq_dec : EqDecision t.
Proof. solve_decision. Defined.

Definition setStatus (s : Status) (p : t) : t :=
  mk (_id p) (userId p) (amount p) (currency p) (paymentMethod p)
     (paymentType p) s (transactionId p) (referenceNumber p)
     (senderNumber p) (senderName p) (receiptImage p) (notes p)
     (verifiedBy p) (verifiedAt p) (verificationNotes p) (createdAt p).

Definition setVerifiedBy (u : option ObjectId) (p : t) : t :=
  mk (_id p) (userId p) (amount p) (currency p) (paymentMethod p)
     (paymentType p) (status p) (transactionId p) (referenceNumber p)
     (senderNumber p) (senderName p) (receiptImage p) (notes p)
     u (verifiedAt p) (verificationNotes p) (createdAt p).

Definition setVerifiedAt (d : option Date) (p : t) : t :=
  mk (_id p) (userId p) (amount p) (currency p) (paymentMethod p)
     (paymentType p) (status p) (transactionId p) (referenceNumber p)
     (senderNumber p) (senderName p) (receiptImage p) (notes p)
     (verifiedBy p) d (verificationNotes p) (createdAt p).

(** [verificationNotes: { type: String, trim: true }] *)
Definition setVerificationNotes (n : jsvalue) (p : t) : t :=
  mk (_id p) (userId p) (amount p) (currency p) (paymentMethod p)
     (paymentType p) (status p) (transactionId p) (referenceNumber p)
     (senderNumber p) (senderName p) (receiptImage p) (notes p)
     (verifiedBy p) (verifiedAt p) (setTrimmed n) (createdAt p).

(** The validators of the schema. *)
Definition validate (p : t) : bool :=
  numberBetween 0 None (amount p)
  && requiredString (paymentMethod p)
  && inEnum ["easypaisa"; "jazzcash"; "bank-transfer"; "cash"]
            (paymentMethod p)
  && requiredString (paymentType p)
  && inEnum ["registration"; "international"; "premium"; "other"]
            (paymentType p)
  && maxLength 500 (notes p).

(** The status a request body names, when it is one of the enum. *)
Definition statusOfString (s : jsstring) : option Status :=
  if decide (s = js "pending") then Some pending
  else if decide (s = js "completed") then Some completed
  else if decide (s = js "failed") then Some failed
  else if decide (s = js "cancelled") then Some cancelled
  else None.

End Payment.

(** ** Users

    Modelled from the spec: [models/User.js] is not among the sources.  The
    spec gives the account its flags: active, paid, role ([user] or [admin])
    and profile-completed; the routes read and write them as [isActive],
    [isPaid], [role] and [profileCompleted]. *)

Module User.

Inductive Role := user | admin.

Record t := mk {
  _id : ObjectId;
  isActive : bool;
  isPaid : bool;
  role : Role;
  profileCompleted : bool
}.

#[global] Instance Role_eq_dec : EqDecision Role.
Proof. solve_decision. Defined.
#[global] Instance eq_dec : EqDecision t.
Proof. solve_decision. Defined.

Definition setIsPaid (b : bool) (u : t) : t :=
  mk (_id u) (isActive u) b (role u) (profileCompleted u).

Definition setProfileCompleted (b : bool) (u : t) : t :=
  mk (_id u) (isActive u) (isPaid u) (role u) b.

End User.

(** [req.session.user], as the login route fills it. *)
Module Session.
Record t := mk {
  _id : ObjectId;
  role : User.Role;
  isPaid : bool;
  profileCompleted : bool
}.
End Session.

(** ** The document store *)

Class Model (A : Type) := modelId : A → ObjectId.

#[global] Instance RishtaProfile_Model : Model RishtaProfile.t := RishtaProfile._id.
#[global] Instance Payment_Model : Model Payment.t := Payment._id.
#[global] Instance User_Model : Model User.t := User._id.

Section Collection.
Context {A : Type} `{Model A}.

(** [Model.findOne(filter)]: the first document the filter accepts. *)
Definition findOne (P : A → Prop) `{∀ d, Decision (P d)}
    (c : list A) : option A :=
  snd <$> list_find P c.

(** [Model.findById(id)] *)
Definition findById (id : ObjectId) (c : list A) : option A :=
  findOne (λ d, modelId d = id) c.

(** [doc.save()] of a document read from the collection: the document
    stored under the same [_id] is replaced. *)
Definition updateOne (d : A) (c : list A) : list A :=
  match list_find (λ x, modelId x = modelId d) c with
  | Some (i, _) => <[i := d]> c
  | None => c
  end.

(** [doc.save()] of a document made with [new Model(..)]. *)
Definition insertOne (d : A) (c : list A) : list A := c ++ [d].
End Collection.

Record Store := mkStore {
  users : list User.t;
  profiles : list RishtaProfile.t;
  payments : list Payment.t
}.

Definition withUsers (us : list User.t) (st : Store) : Store :=
  mkStore us (profiles st) (payments st).
Definition withProfiles (ps : list RishtaProfile.t) (st : Store) : Store :=
  mkStore (users st) ps (payments st).
Definition withPayments (ps : list Payment.t) (st : Store) : Store :=
  mkStore (users st) (profiles st) ps.

(** [profile.save()]: validation first; a validation error is thrown. *)
Definition saveProfile (p : RishtaProfile.t) (st : Store) : option Store :=
  if RishtaProfile.validate p
  then Some (withProfiles (updateOne p (profiles st)) st)
  else None.

Definition savePayment (p : Payment.t) (st : Store) : option Store :=
  if Payment.validate p
  then Some (withPayments (updateOne p (payments st)) st)
  else None.

Definition saveUser (u : User.t) (st : Store) : Store :=
  withUsers (updateOne u (users st)) st.

(** ** Responses *)

Inductive FlashKind := error_msg | success_msg.

(** What a JSON answer carries besides [success] and [message]. *)
Inductive Payload :=
| NoPayload
| ProfilePayload (profile : RishtaProfile.t)
| PublishedPayload (published : bool)
| PaymentPayload (payment : Payment.t).

(** The locals of the browse page. *)
Record BrowsePage := mkBrowsePage {
  pageProfiles : list RishtaProfile.t;
  currentPage : Z;
  totalPages : Z;
  hasNextPage : bool;
  hasPrevPage : bool
}.

Inductive Response :=
| Json (code : nat) (success : bool) (message : jsstring) (payload : Payload)
| Redirect (flash : option (FlashKind * jsstring)) (url : string)
| RenderForm (view : string) (errors : list jsstring)
| RenderBrowse (page : BrowsePage).

(** [res.status(500).json({ success: false, message: 'An error occurred' })] *)
Definition serverError : Response :=
  Json 500 false (js "An error occurred") NoPayload.

(** ** Middleware ([middleware/auth.js]) *)

Definition loginRedirect : Response :=
  Redirect (Some (error_msg, js "Please log in to access this page")) "/auth/login".

(** [isAuthenticated], then the handler. *)
Definition isAuthenticated {S : Type} (session : option Session.t) (st : S)
    (next : Session.t → Response * S) : Response * S :=
  match session with
  | Some u => next u
  | None => (loginRedirect, st)
  end.

(** [isAdmin], then the handler. *)
Definition isAdmin {S : Type} (session : option Session.t) (st : S)
    (next : Session.t → Response * S) : Response * S :=
  match session with
  | Some u =>
      if decide (Session.role u = User.admin) then next u
      else (Redirect (Some (error_msg,
                            js "Access denied. Admin privileges required.")) "/",
            st)
  | None =>
      (Redirect (Some (error_msg,
                       js "Access denied. Admin privileges required.")) "/",
       st)
  end.

(** [hasPaid], then the handler: the user is read from the store. *)
Definition hasPaid (session : option Session.t) (st : Store)
    (next : Session.t → Response * Store) : Response * Store :=
  match session with
  | None => (loginRedirect, st)
  | Some u =>
      match findById (Session._id u) (users st) with
      | None => (Redirect (Some (error_msg, js "User not found")) "/auth/login", st)
      | Some user =>
          if User.isPaid user then next u
          else (Redirect (Some (error_msg,
                  js "Please complete payment to access this feature"))
                  "/payments", st)
      end
  end.

(** Assignments in the order the source writes them: [d |> f |> g]. *)
Notation "x |> f" := (f x) (at level 45, left associativity, only parsing).

(** ** Administrator routes ([routes/admin.js]) *)

Module Admin.

Record ReviewRequest := mkReviewRequest {
  reviewSession : option Session.t;
  reviewId : option ObjectId;         (* req.params.id, cast *)
  action : jsvalue;                   (* req.body.action *)
  rejectionReason : jsvalue;          (* req.body.rejectionReason *)
  reviewNow : Date                    (* new Date() *)
}.

(** The two branches on [action]; any other action assigns nothing. *)
Definition review (req : ReviewRequest) (admin : Session.t)
    (profile : RishtaProfile.t) : RishtaProfile.t :=
  if decide (action req = Some (js "approve")) then
    profile
      |> RishtaProfile.setStatus RishtaProfile.approved
      |> RishtaProfile.setPublished true
      |> RishtaProfile.setApprovedBy (Some (Session._id admin))
      |> RishtaProfile.setApprovedAt (Some (reviewNow req))
      |> RishtaProfile.setRejectionReason None
  else if decide (action req = Some (js "reject")) then
    profile
      |> RishtaProfile.setStatus RishtaProfile.rejected
      |> RishtaProfile.setPublished false
      |> RishtaProfile.setRejectionReason (rejectionReason req)
      |> RishtaProfile.setApprovedBy (Some (Session._id admin))
      |> RishtaProfile.setApprovedAt (Some (reviewNow req))
  else profile.

(** POST /admin/profiles/:id/review *)
Definition reviewProfile (req : ReviewRequest) (st : Store)
    : Response * Store :=
  isAuthenticated (reviewSession req) st (λ _,
  isAdmin (reviewSession req) st (λ admin,
    match reviewId req with
    | None => (serverError, st)
    | Some id =>
        match findById id (profiles st) with
        | None => (Json 404 false (js "Profile not found") NoPayload, st)
        | Some profile =>
            let profile := review req admin profile in
            match saveProfile profile st with
            | None => (serverError, st)
            | Some st' =>
                (Json 200 true
                   (js "Profile " ++ toString (action req)
                      ++ js "d successfully")
                   (ProfilePayload profile),
                 st')
            end
        end
    end)).

Record PublishRequest := mkPublishRequest {
  publishSession : option Session.t;
  publishId : option ObjectId         (* req.params.id, cast *)
}.

(** POST /admin/profiles/:id/publish *)
Definition togglePublish (req : PublishRequest) (st : Store)
    : Response * Store :=
  isAuthenticated (publishSession req) st (λ _,
  isAdmin (publishSession req) st (λ _,
    match publishId req with
    | None => (serverError, st)
    | Some id =>
        match findById id (profiles st) with
        | None => (Json 404 false (js "Profile not found") NoPayload, st)
        | Some profile =>
            if decide (RishtaProfile.status profile ≠ RishtaProfile.approved)
            then (Json 400 false
                    (js "Only approved profiles can be published")
                    NoPayload, st)
            else
              let profile :=
                profile |> RishtaProfile.setPublished
                             (negb (RishtaProfile.published profile)) in
              match saveProfile profile st with
              | None => (serverError, st)
              | Some st' =>
                  (Json 200 true
                     (js "Profile "
                        ++ (if RishtaProfile.published profile
                            then js "published" else js "unpublished")
                        ++ js " successfully")
                     (PublishedPayload (RishtaProfile.published profile)),
                   st')
              end
        end
    end)).

End Admin.

(** ** Payment routes (payments router of src/routes/auth.js) *)

Module Payments.

Record VerifyRequest := mkVerifyRequest {
  verifySession : option Session.t;
  verifyId : option ObjectId;         (* req.params.id, cast *)
  status : jsvalue;                   (* req.body.status *)
  verificationNotes : jsvalue;        (* req.body.verificationNotes *)
  verifyNow : Date                    (* new Date() *)
}.

(** POST /payments/admin/verify/:id.  The user is saved before the
    payment: two writes, the first of which stays when the second
    fails. *)
Definition verifyPayment (req : VerifyRequest) (st : Store)
    : Response * Store :=
  isAuthenticated (verifySession req) st (λ _,
  isAdmin (verifySession req) st (λ admin,
    match verifyId req with
    | None => (serverError, st)
    | Some id =>
        match findById id (payments st) with
        | None => (Json 404 false (js "Payment not found") NoPayload, st)
        | Some payment =>
            if negb (includes ["completed"; "failed"; "cancelled"]
                              (status req))
            then (Json 400 false (js "Invalid status") NoPayload, st)
            else
              match status req ≫= Payment.statusOfString with
              | None => (serverError, st)
              | Some s =>
                  let payment :=
                    payment
                      |> Payment.setStatus s
                      |> Payment.setVerifiedBy (Some (Session._id admin))
                      |> Payment.setVerifiedAt (Some (verifyNow req))
                      |> Payment.setVerificationNotes (verificationNotes req) in
                  let st1 :=
                    if decide (status req = Some (js "completed")) then
                      match findById (Payment.userId payment) (users st) with
                      | Some user => saveUser (User.setIsPaid true user) st
                      | None => st
                      end
                    else st in
                  match savePayment payment st1 with
                  | None => (serverError, st1)
                  | Some st2 =>
                      (Json 200 true
                         (js "Payment " ++ toString (status req)
                            ++ js " successfully")
                         (PaymentPayload payment),
                       st2)
                  end
              end
        end
    end)).

Record CancelRequest := mkCancelRequest {
  cancelSession : option Session.t;
  cancelId : option ObjectId          (* req.params.id, cast *)
}.

(** POST /payments/cancel/:id *)
Definition cancelPayment (req : CancelRequest) (st : Store)
    : Response * Store :=
  isAuthenticated (cancelSession req) st (λ u,
    match cancelId req with
    | None => (serverError, st)
    | Some id =>
        match findOne (λ p, Payment._id p = id
                            ∧ Payment.userId p = Session._id u
                            ∧ Payment.status p = Payment.pending)
                      (payments st) with
        | None =>
            (Json 404 false
               (js "Payment not found or cannot be cancelled") NoPayload,
             st)
        | Some payment =>
            let payment := payment |> Payment.setStatus Payment.cancelled in
            match savePayment payment st with
            | None => (serverError, st)
            | Some st' =>
                (Json 200 true (js "Payment cancelled successfully")
                   NoPayload, st')
            end
        end
    end).

End Payments.

(** ** The services of the platform

    [parseInt] and [new Date(string)] of ECMAScript, and the regular
    expressions: [new RegExp(source, 'i')] throws a [SyntaxError] ([None])
    or gives the pattern MongoDB tests a string against. *)

Class Runtime := mkRuntime {
  parseInt : jsstring → JsNumber;
  newDate : jsstring → option Date;
  newRegExp_i : jsstring → option (jsstring → bool)
}.

(** [parseInt(v)] and [new Date(v)] of a value that may be [undefined]. *)
Definition parseIntOf `{Runtime} (v : jsvalue) : JsNumber :=
  from_option parseInt NaN v.

Definition newDateOf `{Runtime} (v : jsvalue) : option Date :=
  v ≫= newDate.

(** ** Profile routes ([routes/profiles.js]) *)

(** [req.body] of the create and edit forms.  A nested object that the form
    did not send is [undefined], and reading a field of it throws. *)
Module Form.

Record Location := mkLocation {
  city : jsvalue;
  country : jsvalue
}.

Record PersonalInfo := mkPersonalInfo {
  name : jsvalue;
  age : jsvalue;
  gender : jsvalue;
  dateOfBirth : jsvalue;
  height : jsvalue;
  maritalStatus : jsvalue;
  location : option Location;
  nationality : jsvalue
}.

Record Education := mkEducation {
  level : jsvalue;
  field : jsvalue;
  institution : jsvalue
}.

Record Occupation := mkOccupation {
  profession : jsvalue;
  company : jsvalue;
  income : jsvalue
}.

Record FamilyInfo := mkFamilyInfo {
  familyType : jsvalue;
  familyStatus : jsvalue;
  siblings : jsvalue;
  fatherName : jsvalue;
  motherName : jsvalue
}.

Record ReligiousInfo := mkReligiousInfo {
  sect : jsvalue;
  religiousness : jsvalue;
  hijab : jsvalue;
  beard : jsvalue
}.

Record Preferences := mkPreferences {
  ageRangeMin : jsvalue;
  ageRangeMax : jsvalue;
  prefLocation : jsvalue;             (* preferences.location *)
  prefEducation : jsvalue;            (* preferences.education *)
  prefMaritalStatus : jsvalue;        (* preferences.maritalStatus *)
  prefReligiousness : jsvalue         (* preferences.religiousness *)
}.

Record ContactInfo := mkContactInfo {
  guardianName : jsvalue;
  guardianPhone : jsvalue;
  guardianRelation : jsvalue
}.

Record t := mk {
  personalInfo : option PersonalInfo;
  education : option Education;
  occupation : option Occupation;
  familyInfo : option FamilyInfo;
  religiousInfo : option ReligiousInfo;
  preferences : option Preferences;
  about : jsvalue;
  expectations : jsvalue;
  contactInfo : option ContactInfo
}.

End Form.

Module Profiles.

(** An uploaded file, as multer's Cloudinary storage describes it. *)
Record File := mkFile {
  path : jsstring;
  filename : jsstring
}.

Record FormRequest := mkFormRequest {
  formSession : option Session.t;
  files : list File;                  (* req.files *)
  validationErrors : list jsstring;   (* validationResult(req).array() *)
  body : Form.t;
  newProfileId : ObjectId;            (* the _id of new RishtaProfile(..) *)
  newPhotoId : nat → ObjectId;        (* the _id of the photo at an index *)
  formNow : Date
}.

Section WithRuntime.
Context `{Runtime}.

(** [v ? parseInt(v) : undefined] *)
Definition optionalInt (v : jsvalue) : option JsNumber :=
  if truthy v then Some (parseIntOf v) else None.

(** [v ? v.split(',') : []] *)
Definition optionalList (v : jsvalue) : list jsstring :=
  if truthy v then split 44 (default [] v) else [].

(** The descriptive paths as both forms build them from [req.body];
    the Strings that the schema declares with [trim: true] are trimmed
    on assignment.  [None]: a nested object is missing and the read
    throws a [TypeError]. *)
Definition personalInfoOf (body : Form.t) : option RishtaProfile.PersonalInfo :=
  i ← Form.personalInfo body;
  l ← Form.location i;
  Some (RishtaProfile.mkPersonalInfo
          (setTrimmed (Form.name i))
          (parseIntOf (Form.age i))
          (Form.gender i)
          (newDateOf (Form.dateOfBirth i))
          (optionalInt (Form.height i))
          (Form.maritalStatus i)
          (RishtaProfile.mkLocation
             (Form.city l)
             (orElse (Form.country l) (js "Pakistan")))
          (orElse (Form.nationality i) (js "Pakistani"))).

Definition educationOf (body : Form.t) : option RishtaProfile.Education :=
  e ← Form.education body;
  Some (RishtaProfile.mkEducation
          (Form.level e)
          (setTrimmed (Form.field e))
          (setTrimmed (Form.institution e))).

Definition occupationOf (body : Form.t) : option RishtaProfile.Occupation :=
  o ← Form.occupation body;
  Some (RishtaProfile.mkOccupation
          (setTrimmed (Form.profession o))
          (setTrimmed (Form.company o))
          (Form.income o)).

Definition familyInfoOf (body : Form.t) : option RishtaProfile.FamilyInfo :=
  f ← Form.familyInfo body;
  Some (RishtaProfile.mkFamilyInfo
          (Form.familyType f)
          (Form.familyStatus f)
          (optionalInt (Form.siblings f))
          (setTrimmed (Form.fatherName f))
          (setTrimmed (Form.motherName f))).

Definition religiousInfoOf (body : Form.t) : option RishtaProfile.ReligiousInfo :=
  r ← Form.religiousInfo body;
  Some (RishtaProfile.mkReligiousInfo
          (Form.sect r) (Form.religiousness r)
          (Form.hijab r) (Form.beard r)).

Definition preferencesOf (body : Form.t) : option RishtaProfile.Preferences :=
  q ← Form.preferences body;
  Some (RishtaProfile.mkPreferences
          (optionalInt (Form.ageRangeMin q))
          (optionalInt (Form.ageRangeMax q))
          (trim <$> (trim <$> optionalList (Form.prefLocation q)))
          (optionalList (Form.prefEducation q))
          (optionalList (Form.prefMaritalStatus q))
          (optionalList (Form.prefReligiousness q))).

Definition contactInfoOf (body : Form.t) : option RishtaProfile.ContactInfo :=
  c ← Form.contactInfo body;
  Some (RishtaProfile.mkContactInfo
          (setTrimmed (Form.guardianName c))
          (setTrimmed (Form.guardianPhone c))
          (setTrimmed (Form.guardianRelation c))).

Definition detailsOf (body : Form.t) : option RishtaProfile.Details :=
  personalInfo ← personalInfoOf body;
  education ← educationOf body;
  occupation ← occupationOf body;
  familyInfo ← familyInfoOf body;
  religiousInfo ← religiousInfoOf body;
  preferences ← preferencesOf body;
  contactInfo ← contactInfoOf body;
  Some (RishtaProfile.mkDetails personalInfo education occupation
          familyInfo religiousInfo preferences
          (setTrimmed (Form.about body))
          (setTrimmed (Form.expectations body))
          contactInfo).

(** The photos of a new profile: the first file is the primary one. *)
Definition createPhotos (req : FormRequest) : list Photo.t :=
  imap (λ index file,
          Photo.mk (newPhotoId req index) (path file) (filename file)
                   (bool_decide (index = 0)))
       (files req).

(** The photos an edit adds: the first is primary when the profile had
    none. *)
Definition editPhotos (req : FormRequest) (profile : RishtaProfile.t)
    : list Photo.t :=
  imap (λ index file,
          Photo.mk (newPhotoId req index) (path file) (filename file)
                   (bool_decide (length (RishtaProfile.photos profile) = 0)
                    && bool_decide (index = 0)))
       (files req).

(** [new RishtaProfile(profileData).save()]: a new document; an [_id]
    already in the collection is a duplicate key. *)
Definition saveNewProfile (p : RishtaProfile.t) (st : Store)
    : option Store :=
  if RishtaProfile.validate p
  then match findById (RishtaProfile._id p) (profiles st) with
       | Some _ => None
       | None => Some (withProfiles (insertOne p (profiles st)) st)
       end
  else None.

(** [User.findByIdAndUpdate(id, { profileCompleted: true })] *)
Definition markProfileCompleted (id : ObjectId) (st : Store) : Store :=
  match findById id (users st) with
  | Some user => saveUser (User.setProfileCompleted true user) st
  | None => st
  end.

(** POST /profiles/create *)
Definition createProfile (req : FormRequest) (st : Store)
    : Response * Store :=
  isAuthenticated (formSession req) st (λ _,
  hasPaid (formSession req) st (λ u,
    if negb (bool_decide (validationErrors req = [])) then
      (RenderForm "profiles/create" (validationErrors req), st)
    else
      match findOne (λ p, RishtaProfile.userId p = Session._id u)
                    (profiles st) with
      | Some _ =>
          (Redirect (Some (error_msg,
             js "You already have a profile. You can edit it instead."))
             "/profiles/edit", st)
      | None =>
          let failed :=
            (RenderForm "profiles/create"
               [js "An error occurred while creating your profile. Please try again."],
             st) in
          match detailsOf (body req) with
          | None => failed
          | Some details =>
              let profile :=
                RishtaProfile.mk (newProfileId req) (Session._id u)
                  details (createPhotos req) RishtaProfile.submitted
                  false None None None 0 None (formNow req) in
              match saveNewProfile profile st with
              | None => failed
              | Some st' =>
                  (Redirect (Some (success_msg,
                     js "Profile created successfully! It will be reviewed by our team before publishing."))
                     "/profiles/dashboard",
                   markProfileCompleted (Session._id u) st')
              end
          end
      end)).

(** POST /profiles/edit *)
Definition editProfile (req : FormRequest) (st : Store)
    : Response * Store :=
  isAuthenticated (formSession req) st (λ _,
  hasPaid (formSession req) st (λ u,
    if negb (bool_decide (validationErrors req = [])) then
      (RenderForm "profiles/edit" (validationErrors req), st)
    else
      match findOne (λ p, RishtaProfile.userId p = Session._id u)
                    (profiles st) with
      | None =>
          (Redirect (Some (error_msg,
             js "No profile found. Please create a profile first."))
             "/profiles/create", st)
      | Some profile =>
          let failed :=
            (RenderForm "profiles/edit"
               [js "An error occurred while updating your profile. Please try again."],
             st) in
          let newPhotos := editPhotos req profile in
          match detailsOf (body req) with
          | None => failed
          | Some details =>
              let profile := profile |> RishtaProfile.setDetails details in
              let profile :=
                if bool_decide (0 < length newPhotos) then
                  profile |> RishtaProfile.setPhotos
                               (RishtaProfile.photos profile ++ newPhotos)
                else profile in
              let profile :=
                profile
                  |> RishtaProfile.setStatus RishtaProfile.submitted
                  |> RishtaProfile.setPublished false in
              match saveProfile profile st with
              | None => failed
              | Some st' =>
                  (Redirect (Some (success_msg,
                     js "Profile updated successfully! It will be reviewed by our team before publishing."))
                     "/profiles/dashboard", st')
              end
          end
      end)).

End WithRuntime.

Record PhotoRequest := mkPhotoRequest {
  photoSession : option Session.t;
  photoId : option ObjectId           (* req.params.photoId, cast *)
}.

(** [photos.id(id)]: the first subdocument with this [_id], and where
    it stands. *)
Definition photoById (id : option ObjectId) (photos : list Photo.t)
    : option (nat * Photo.t) :=
  id ≫= λ i, list_find (λ ph, Photo._id ph = i) photos.

(** [photos.pull(id)]: the subdocuments with this [_id] are removed. *)
Definition pull (id : option ObjectId) (photos : list Photo.t)
    : list Photo.t :=
  match id with
  | Some i => filter (λ ph, Photo._id ph ≠ i) photos
  | None => photos
  end.

(** DELETE /profiles/photo/:photoId *)
Definition deletePhoto (req : PhotoRequest) (st : Store)
    : Response * Store :=
  isAuthenticated (photoSession req) st (λ _,
  hasPaid (photoSession req) st (λ u,
    match findOne (λ p, RishtaProfile.userId p = Session._id u)
                  (profiles st) with
    | None => (Json 404 false (js "Profile not found") NoPayload, st)
    | Some profile =>
        match photoById (photoId req) (RishtaProfile.photos profile) with
        | None => (Json 404 false (js "Photo not found") NoPayload, st)
        | Some _ =>
            let profile :=
              profile |> RishtaProfile.setPhotos
                           (pull (photoId req)
                                 (RishtaProfile.photos profile)) in
            match saveProfile profile st with
            | None => (serverError, st)
            | Some st' =>
                (Json 200 true (js "Photo deleted successfully") NoPayload,
                 st')
            end
        end
    end)).

(** The two steps of the set-primary route on the photo array: every
    photo is reset, then the photo found by [id], if any, is marked. *)
Definition resetPrimary (photos : list Photo.t) : list Photo.t :=
  Photo.setPrimary false <$> photos.

Definition markPrimary (id : option ObjectId) (photos : list Photo.t)
    : list Photo.t :=
  match photoById id photos with
  | Some (i, photo) => <[i := Photo.setPrimary true photo]> photos
  | None => photos
  end.

(** PUT /profiles/photo/:photoId/primary *)
Definition setPrimaryPhoto (req : PhotoRequest) (st : Store)
    : Response * Store :=
  isAuthenticated (photoSession req) st (λ _,
  hasPaid (photoSession req) st (λ u,
    match findOne (λ p, RishtaProfile.userId p = Session._id u)
                  (profiles st) with
    | None => (Json 404 false (js "Profile not found") NoPayload, st)
    | Some profile =>
        let profile :=
          profile |> RishtaProfile.setPhotos
                       (markPrimary (photoId req)
                          (resetPrimary (RishtaProfile.photos profile))) in
        match saveProfile profile st with
        | None => (serverError, st)
        | Some st' =>
            (Json 200 true (js "Primary photo updated successfully")
               NoPayload, st')
        end
    end)).

End Profiles.

(** ** The public browse page (main router of src/routes/auth.js) *)

Module Main.

(** [req.query] *)
Record Query := mkQuery {
  page : jsvalue;
  gender : jsvalue;
  city : jsvalue;
  minAge : jsvalue;
  maxAge : jsvalue
}.

(** The filter object of the route: [published: true] and
    [status: 'approved'] always, the other conditions when the query
    names them. *)
Record Filter := mkFilter {
  genderIs : option jsstring;          (* 'personalInfo.gender' *)
  cityMatches : option (jsstring → bool);  (* 'personalInfo.location.city' *)
  ageGte : option JsNumber;            (* 'personalInfo.age'.$gte *)
  ageLte : option JsNumber             (* 'personalInfo.age'.$lte *)
}.

Definition limit : Z := 12.

Section WithRuntime.
Context `{Runtime}.

(** [None]: [new RegExp] throws. *)
Definition buildFilter (q : Query) : option Filter :=
  let genderIs := if truthy (gender q) then gender q else None in
  cityMatches ←
    (if truthy (city q)
     then Some <$> newRegExp_i (default [] (city q))
     else Some None);
  let age := truthy (minAge q) || truthy (maxAge q) in
  let ageGte :=
    if age && truthy (minAge q) then Some (parseIntOf (minAge q))
    else None in
  let ageLte :=
    if age && truthy (maxAge q) then Some (parseIntOf (maxAge q))
    else None in
  Some (mkFilter genderIs cityMatches ageGte ageLte).

(** Mongoose casts the filter before it queries: a NaN bound on a
    Number path is a cast error. [None]: the query throws. *)
Definition castBound (b : option JsNumber) : option (option Z) :=
  match b with
  | None => Some None
  | Some NaN => None
  | Some (Int z) => Some (Some z)
  end.

(** A document against a filter with the bounds [lo] and [hi]. *)
Definition matches (f : Filter) (lo hi : option Z)
    (p : RishtaProfile.t) : bool :=
  let i := RishtaProfile.personalInfo (RishtaProfile.details p) in
  RishtaProfile.published p
  && bool_decide (RishtaProfile.status p = RishtaProfile.approved)
  && from_option (λ g, bool_decide (RishtaProfile.gender i = Some g))
                 true (genderIs f)
  && from_option (λ m, from_option m false
                         (RishtaProfile.city (RishtaProfile.location i)))
                 true (cityMatches f)
  && from_option (λ l, match RishtaProfile.age i with
                       | Int a => bool_decide (l ≤ a)%Z
                       | NaN => false
                       end) true lo
  && from_option (λ h, match RishtaProfile.age i with
                       | Int a => bool_decide (a ≤ h)%Z
                       | NaN => false
                       end) true hi.

(** [.sort({ createdAt: -1 })].  Documents created at the same instant
    come in the order the merge leaves them; the server promises none. *)
Definition newerFirst (p q : RishtaProfile.t) : Prop :=
  (RishtaProfile.createdAt q ≤ RishtaProfile.createdAt p)%Z.

#[global] Instance newerFirst_dec p q : Decision (newerFirst p q).
Proof. unfold newerFirst. apply _. Defined.

Definition sortNewestFirst (ps : list RishtaProfile.t)
    : list RishtaProfile.t :=
  merge_sort newerFirst ps.

(** [parseInt(req.query.page) || 1]: NaN and 0 are falsy. *)
Definition pageOf (q : Query) : Z :=
  match parseIntOf (page q) with
  | Int z => if decide (z = 0)%Z then 1%Z else z
  | NaN => 1%Z
  end.

(** The locals of the [catch] block. *)
Definition emptyPage : BrowsePage := mkBrowsePage [] 1 1 false false.

(** [find(filter).skip(skip).limit(limit).sort(..)]: the documents the
    filter accepts, sorted, then skipped and limited.  A negative skip
    is refused by the server. [None]: the query throws. *)
Definition findPage (f : Filter) (skip : Z) (ps : list RishtaProfile.t)
    : option (list RishtaProfile.t * nat) :=
  lo ← castBound (ageGte f);
  hi ← castBound (ageLte f);
  if decide (skip < 0)%Z then None
  else
    let found := filter (λ p, matches f lo hi p = true) ps in
    Some (take (Z.to_nat limit)
            (drop (Z.to_nat skip) (sortNewestFirst found)),
          length found).

(** GET /browse *)
Definition browse (q : Query) (st : Store) : Response :=
  let page := pageOf q in
  let skip := ((page - 1) * limit)%Z in
  match buildFilter q ≫= λ f, findPage f skip (profiles st) with
  | None => RenderBrowse emptyPage
  | Some (found, total) =>
      (* Math.ceil(total / limit) *)
      let totalPages := ((Z.of_nat total + limit - 1) / limit)%Z in
      RenderBrowse
        (mkBrowsePage found page totalPages
           (bool_decide (page < totalPages)%Z)
           (bool_decide (1 < page)%Z))
  end.

End WithRuntime.

End Main.

(** ** The operations of the lifecycle as one transition system *)

Inductive Operation :=
| CreateProfile (req : Profiles.FormRequest)
| EditProfile (req : Profiles.FormRequest)
| DeletePhoto (req : Profiles.PhotoRequest)
| SetPrimaryPhoto (req : Profiles.PhotoRequest)
| ReviewProfile (req : Admin.ReviewRequest)
| TogglePublish (req : Admin.PublishRequest)
| VerifyPayment (req : Payments.VerifyRequest)
| CancelPayment (req : Payments.CancelRequest).

Definition handle `{Runtime} (op : Operation) (st : Store)
    : Response * Store :=
  match op with
  | CreateProfile req => Profiles.createProfile req st
  | EditProfile req => Profiles.editProfile req st
  | DeletePhoto req => Profiles.deletePhoto req st
  | SetPrimaryPhoto req => Profiles.setPrimaryPhoto req st
  | ReviewProfile req => Admin.reviewProfile req st
  | TogglePublish req => Admin.togglePublish req st
  | VerifyPayment req => Payments.verifyPayment req st
  | CancelPayment req => Payments.cancelPayment req st
  end.

(** The stores a sequence of requests goes through, one per request. *)
Fixpoint trace `{Runtime} (st : Store) (ops : list Operation) : list Store :=
  match ops with
  | [] => []
  | op :: ops' => let st' := (handle op st).2 in st' :: trace st' ops'
  end.

(** ** The properties the lifecycle keeps *)

(** The photos of a collection that are flagged primary. *)
Definition primaries (photos : list Photo.t) : list Photo.t :=
  filter (λ ph, Photo.isPrimary ph = true) photos.

Definition atMostOnePrimary (photos : list Photo.t) : Prop :=
  length (primaries photos) ≤ 1.

(** Every profile of the store has at most one primary photo. *)
Definition photosInvariant (st : Store) : Prop :=
  Forall (λ p, atMostOnePrimary (RishtaProfile.photos p)) (profiles st).

(** Every stored profile passes the validators of its schema, as every
    write of the routes checks. *)
Definition profilesValid (st : Store) : Prop :=
  Forall (λ p, RishtaProfile.validate p = true) (profiles st).

(** The profiles the public pages may show. *)
Definition visible (p : RishtaProfile.t) : Prop :=
  RishtaProfile.published p = true
  ∧ RishtaProfile.status p = RishtaProfile.approved.

(** The profile an edit writes. *)
Definition edited (req : Profiles.FormRequest)
    (details : RishtaProfile.Details) (p : RishtaProfile.t) : RishtaProfile.t :=
  RishtaProfile.mk (RishtaProfile._id p) (RishtaProfile.userId p) details
    (RishtaProfile.photos p ++ Profiles.editPhotos req p)
    RishtaProfile.submitted false
    (RishtaProfile.approvedBy p) (RishtaProfile.approvedAt p)
    (RishtaProfile.rejectionReason p) (RishtaProfile.views p)
    (RishtaProfile.lastViewed p) (RishtaProfile.createdAt p).

(** The payment a verification writes. *)
Definition verified (req : Payments.VerifyRequest) (admin : Session.t)
    (s : Payment.Status) (p : Payment.t) : Payment.t :=
  Payment.mk (Payment._id p) (Payment.userId p) (Payment.amount p)
    (Payment.currency p) (Payment.paymentMethod p) (Payment.paymentType p)
    s (Payment.transactionId p) (Payment.referenceNumber p)
    (Payment.senderNumber p) (Payment.senderName p) (Payment.receiptImage p)
    (Payment.notes p)
    (Some (Session._id admin)) (Some (Payments.verifyNow req))
    (trim <$> Payments.verificationNotes req)
    (Payment.createdAt p).

(** Mongo keeps the [_id]s of a collection distinct. *)
Definition uniqueIds {A} `{Model A} (c : list A) : Prop := NoDup (modelId <$> c).

(** The payment at a slot of the collection is not pending. *)
Definition notPendingAt (i : nat) (st : Store) : Prop :=
  ∃ p, payments st !! i = Some p ∧ Payment.status p ≠ Payment.pending.

(** A filter of the browse page is supplied when its query parameter is a
    non-empty string. *)
Definition supplied (v : jsvalue) : option jsstring :=
  if truthy v then v else None.

(** The public listing in the words of its specification: the profile is
    published and approved, and it passes every supplied filter: the gender
    by equality, the city by the case-insensitive pattern built from the
    query text, the age within the inclusive bounds. *)
Definition wanted `{Runtime} (q : Main.Query) (p : RishtaProfile.t) : bool :=
  let i := RishtaProfile.personalInfo (RishtaProfile.details p) in
  RishtaProfile.published p
  && bool_decide (RishtaProfile.status p = RishtaProfile.approved)
  && from_option (λ g, bool_decide (RishtaProfile.gender i = Some g)) true
       (supplied (Main.gender q))
  && from_option
       (λ source,
          match newRegExp_i source,
                RishtaProfile.city (RishtaProfile.location i) with
          | Some pattern, Some c => pattern c
          | _, _ => false
          end) true
       (supplied (Main.city q))
  && from_option
       (λ bound,
          match parseInt bound, RishtaProfile.age i with
          | Int lo, Int a => bool_decide (lo ≤ a)%Z
          | _, _ => false
          end) true
       (supplied (Main.minAge q))
  && from_option
       (λ bound,
          match parseInt bound, RishtaProfile.age i with
          | Int hi, Int a => bool_decide (a ≤ hi)%Z
          | _, _ => false
          end) true
       (supplied (Main.maxAge q)).

(** The queries the route answers without an error: the city text is a
    pattern, the age bounds are integers, the page is positive. *)
Definition answerable `{Runtime} (q : Main.Query) : Prop :=
  (∀ source, supplied (Main.city q) = Some source →
             is_Some (newRegExp_i source))
  ∧ (∀ bound, supplied (Main.minAge q) = Some bound → parseInt bound ≠ NaN)
  ∧ (∀ bound, supplied (Main.maxAge q) = Some bound → parseInt bound ≠ NaN)
  ∧ (0 < Main.pageOf q)%Z.

(** The page the route renders out of the sorted list of all it found. *)
Definition pageOfList `{Runtime} (q : Main.Query)
    (all : list RishtaProfile.t) : BrowsePage :=
  let page := Main.pageOf q in
  let totalPages := ((Z.of_nat (length all) + 11) / 12)%Z in
  mkBrowsePage (take 12 (drop (12 * (Z.to_nat page - 1)) all))
    page totalPages
    (bool_decide (page < totalPages)%Z) (bool_decide (1 < page)%Z).

(** The queries the route answers with the locals of its [catch] block. *)
Definition unanswerable `{Runtime} (q : Main.Query) : Prop :=
  (∃ source, supplied (Main.city q) = Some source ∧ newRegExp_i source = None)
  ∨ (∃ bound, supplied (Main.minAge q) = Some bound ∧ parseInt bound = NaN)
  ∨ (∃ bound, supplied (Main.maxAge q) = Some bound ∧ parseInt bound = NaN)
  ∨ (Main.pageOf q < 0)%Z.

(** The answers the claims name. *)
Definition conflictResponse : Response :=
  Redirect (Some (error_msg,
    js "You already have a profile. You can edit it instead."))
    "/profiles/edit".

Definition editedResponse : Response :=
  Redirect (Some (success_msg,
    js "Profile updated successfully! It will be reviewed by our team before publishing."))
    "/profiles/dashboard".

Definition preconditionFailed : Response :=
  Json 400 false (js "Only approved profiles can be published") NoPayload.

Definition invalidStatus : Response :=
  Json 400 false (js "Invalid status") NoPayload.

Definition photoNotFound : Response :=
  Json 404 false (js "Photo not found") NoPayload.

Definition primaryUpdated : Response :=
  Json 200 true (js "Primary photo updated successfully") NoPayload.

(** ** Worked data

    A platform for the examples: it reads decimal integers, ISO calendar
    dates [YYYY-MM-DD] and patterns made of letters, digits and spaces, on
    which it answers as Node does.  The theorems below hold for every
    [Runtime]; this one only instantiates them. *)

Module Sample.

Definition digit (c : N) : option Z :=
  if ((48 <=? c) && (c <=? 57))%N then Some (Z.of_N c - 48)%Z else None.

(** The value of the longest prefix of decimal digits, if it is not
    empty. *)
Fixpoint digits (acc : option Z) (s : jsstring) : option Z :=
  match s with
  | c :: s' =>
      match digit c with
      | Some d => digits (Some (10 * default 0%Z acc + d)%Z) s'
      | None => acc
      end
  | [] => acc
  end.

Definition parseDecimal (s : jsstring) : JsNumber :=
  match trimStart s with
  | 45%N :: s' => from_option (λ z, Int (- z)) NaN (digits None s')
  | 43%N :: s' => from_option Int NaN (digits None s')
  | s' => from_option Int NaN (digits None s')
  end.

(** Days from 1970-01-01 to a date of the proleptic Gregorian calendar. *)
Definition daysFromCivil (y m d : Z) : Z :=
  let y := (if decide (m ≤ 2) then y - 1 else y)%Z in
  let era := (y / 400)%Z in
  let yoe := (y - era * 400)%Z in
  let mp := (if decide (2 < m) then m - 3 else m + 9)%Z in
  let doy := ((153 * mp + 2) / 5 + d - 1)%Z in
  let doe := (yoe * 365 + yoe / 4 - yoe / 100 + doy)%Z in
  (era * 146097 + doe - 719468)%Z.

Definition isoDate (s : jsstring) : option Date :=
  match s with
  | [y1; y2; y3; y4; 45%N; m1; m2; 45%N; d1; d2] =>
      y ← digits None [y1; y2; y3; y4];
      m ← digits None [m1; m2];
      d ← digits None [d1; d2];
      if forallb (λ c, bool_decide (is_Some (digit c)))
                 [y1; y2; y3; y4; m1; m2; d1; d2]
         && bool_decide (1 ≤ m ≤ 12)%Z && bool_decide (1 ≤ d ≤ 31)%Z
      then Some (daysFromCivil y m d * 86400000)%Z
      else None
  | _ => None
  end.

Definition lower (c : N) : N :=
  if ((65 <=? c) && (c <=? 90))%N then (c + 32)%N else c.

Definition plain (c : N) : bool :=
  ((48 <=? c) && (c <=? 57) || (65 <=? c) && (c <=? 90)
   || (97 <=? c) && (c <=? 122) || (c =? 32))%N.

Fixpoint startsWith (p s : jsstring) : bool :=
  match p, s with
  | [], _ => true
  | a :: p', b :: s' => (lower a =? lower b)%N && startsWith p' s'
  | _ :: _, [] => false
  end.

Fixpoint contains (p s : jsstring) : bool :=
  startsWith p s
  || match s with
     | [] => false
     | _ :: s' => contains p s'
     end.

Definition plainRegExp (source : jsstring) : option (jsstring → bool) :=
  if forallb plain source then Some (contains source) else None.

Definition runtime : Runtime := mkRuntime parseDecimal isoDate plainRegExp.

(** Accounts: an administrator, a paid member who owns a profile, and a
    paid member who owns none. *)
Definition adminUser : User.t := User.mk 1 true true User.admin false.
Definition owner : User.t := User.mk 2 true true User.user true.
Definition newcomer : User.t := User.mk 3 true true User.user false.

Definition adminSession : Session.t := Session.mk 1 User.admin true false.
Definition ownerSession : Session.t := Session.mk 2 User.user true true.
Definition newcomerSession : Session.t := Session.mk 3 User.user true false.

Definition details : RishtaProfile.Details :=
  RishtaProfile.mkDetails
    (RishtaProfile.mkPersonalInfo
       (Some (js "Ayesha Khan")) (Int 27) (Some (js "female"))
       (Some 883612800000%Z) None (Some (js "never-married"))
       (RishtaProfile.mkLocation (Some (js "Lahore")) (Some (js "Pakistan")))
       (Some (js "Pakistani")))
    (RishtaProfile.mkEducation (Some (js "master")) None None)
    (RishtaProfile.mkOccupation (Some (js "Teacher")) None None)
    (RishtaProfile.mkFamilyInfo None None None None None)
    (RishtaProfile.mkReligiousInfo None None None None)
    (RishtaProfile.mkPreferences None None [] [] [] [])
    None None
    (RishtaProfile.mkContactInfo None None None).

Definition photoA : Photo.t :=
  Photo.mk 100 (js "https://img/a.jpg") (js "a") true.
Definition photoB : Photo.t :=
  Photo.mk 101 (js "https://img/b.jpg") (js "b") false.

(** The owner's profile in a given state of the review. *)
Definition profileWith (s : RishtaProfile.Status) (pub : bool)
    : RishtaProfile.t :=
  RishtaProfile.mk 10 2 details [photoA; photoB] s pub
    None None None 0 None 1000.

Definition storeWith (p : RishtaProfile.t) (pays : list Payment.t)
    : Store :=
  mkStore [adminUser; owner; newcomer] [p] pays.

Definition submittedStore : Store :=
  storeWith (profileWith RishtaProfile.submitted false) [].

Definition approvedStore : Store :=
  storeWith (profileWith RishtaProfile.approved true) [].

(** A form that passes the validators. *)
Definition form : Form.t :=
  Form.mk
    (Some (Form.mkPersonalInfo
             (Some (js "Ayesha Khan")) (Some (js "28")) (Some (js "female"))
             (Some (js "1998-01-01")) None (Some (js "never-married"))
             (Some (Form.mkLocation (Some (js "Karachi")) None))
             None))
    (Some (Form.mkEducation (Some (js "phd")) None None))
    (Some (Form.mkOccupation (Some (js "Lecturer")) None None))
    (Some (Form.mkFamilyInfo None None None None None))
    (Some (Form.mkReligiousInfo None None None None))
    (Some (Form.mkPreferences None None None None None None))
    (Some (js "  About me  ")) None
    (Some (Form.mkContactInfo None None None)).

(** The same form with a gender outside ['male', 'female']: the validator
    chain of the routes reports 'Please select a valid gender' for it, and
    nothing else. *)
Definition badForm : Form.t :=
  Form.mk
    (Some (Form.mkPersonalInfo
             (Some (js "Ayesha Khan")) (Some (js "28")) (Some (js "unknown"))
             (Some (js "1998-01-01")) None (Some (js "never-married"))
             (Some (Form.mkLocation (Some (js "Karachi")) None))
             None))
    (Form.education form) (Form.occupation form) (Form.familyInfo form)
    (Form.religiousInfo form) (Form.preferences form)
    (Form.about form) (Form.expectations form) (Form.contactInfo form).

(** The descriptive paths the routes build from [form]. *)
Definition formDetails : RishtaProfile.Details :=
  RishtaProfile.mkDetails
    (RishtaProfile.mkPersonalInfo
       (Some (js "Ayesha Khan")) (Int 28) (Some (js "female"))
       (Some 883612800000%Z) None (Some (js "never-married"))
       (RishtaProfile.mkLocation (Some (js "Karachi")) (Some (js "Pakistan")))
       (Some (js "Pakistani")))
    (RishtaProfile.mkEducation (Some (js "phd")) None None)
    (RishtaProfile.mkOccupation (Some (js "Lecturer")) None None)
    (RishtaProfile.mkFamilyInfo None None None None None)
    (RishtaProfile.mkReligiousInfo None None None None)
    (RishtaProfile.mkPreferences None None [] [] [] [])
    (Some (js "About me")) None
    (RishtaProfile.mkContactInfo None None None).

Definition upload : Profiles.File :=
  Profiles.mkFile (js "https://img/c.jpg") (js "c").

Definition formRequest (session : Session.t) (errors : list jsstring)
    (body : Form.t) : Profiles.FormRequest :=
  Profiles.mkFormRequest (Some session) [upload] errors body 11
    (λ index, (200 + N.of_nat index)%N) 2000.

(** A payment of the owner in a given status. *)
Definition paymentWith (s : Payment.Status) : Payment.t :=
  Payment.mk 50 2 (Int 5000) (Some (js "PKR")) (Some (js "easypaisa"))
    (Some (js "registration")) s (Some (js "TXN1")) None None None None
    None None None None 500.

(** Thirteen visible profiles, created at 1, 2, .., 13. *)
Definition visibleProfile (n : nat) : RishtaProfile.t :=
  RishtaProfile.mk (N.of_nat n) (N.of_nat n) details [] RishtaProfile.approved
    true (Some 1%N) (Some 0%Z) None 0 None (Z.of_nat n).

Definition thirteen : Store :=
  mkStore [] (visibleProfile <$> seq 1 13) [].

Definition noFilter : Main.Query := Main.mkQuery None None None None None.

(** Listings for the browse page, and a query for women in Lahore. *)
Definition listing (id : N) (city : string) (s : RishtaProfile.Status)
    (pub : bool) (created : Z) : RishtaProfile.t :=
  let d := details in
  let i := RishtaProfile.personalInfo d in
  RishtaProfile.mk id id
    (RishtaProfile.mkDetails
       (RishtaProfile.mkPersonalInfo
          (RishtaProfile.name i) (RishtaProfile.age i) (RishtaProfile.gender i)
          (RishtaProfile.dateOfBirth i) (RishtaProfile.height i)
          (RishtaProfile.maritalStatus i)
          (RishtaProfile.mkLocation (Some (js city)) (Some (js "Pakistan")))
          (RishtaProfile.nationality i))
       (RishtaProfile.education d) (RishtaProfile.occupation d)
       (RishtaProfile.familyInfo d) (RishtaProfile.religiousInfo d)
       (RishtaProfile.preferences d) (RishtaProfile.about d)
       (RishtaProfile.expectations d) (RishtaProfile.contactInfo d))
    [] s pub None None None 0 None created.

Definition listings : Store :=
  mkStore []
    [listing 21 "Lahore" RishtaProfile.approved true 100;
     listing 22 "Karachi" RishtaProfile.approved true 200;
     listing 23 "Lahore" RishtaProfile.submitted false 300;
     listing 24 "LAHORE Cantt" RishtaProfile.approved true 400;
     listing 25 "Lahore" RishtaProfile.approved false 500]
    [].

Definition lahoreWomen : Main.Query :=
  Main.mkQuery None (Some (js "female")) (Some (js "lahore"))
    (Some (js "18")) (Some (js "40")).

End Sample.

(** ** The routes and guards beside the lifecycle

    What a route renders: the view and those of its locals that depend on
    the store ([title] and the echo of the form in [formData] do not). *)

Inductive Page :=
| Answer (r : Response)
| RenderHome (featuredProfiles : list RishtaProfile.t)
| RenderProfileDetail (profile : RishtaProfile.t)
| RenderPayments (pendingPayments : list Payment.t) (errors : list jsstring)
| RenderHistory (payments : list Payment.t)
| RenderAdminProfiles (page : BrowsePage)
| RenderCreateForm
| RenderEditForm (profile : RishtaProfile.t).

(** [isAuthenticated] and [isAdmin] before a handler that renders a page. *)
Definition pageIsAuthenticated (session : option Session.t)
    (next : Session.t → Page) : Page :=
  match session with
  | Some u => next u
  | None => Answer loginRedirect
  end.

Definition pageIsAdmin (session : option Session.t)
    (next : Session.t → Page) : Page :=
  match session with
  | Some u =>
      if decide (Session.role u = User.admin) then next u
      else Answer (Redirect (Some (error_msg,
                     js "Access denied. Admin privileges required.")) "/")
  | None =>
      Answer (Redirect (Some (error_msg,
                js "Access denied. Admin privileges required.")) "/")
  end.

(** [hasPaid] before a handler that renders a page. *)
Definition pageHasPaid (session : option Session.t) (st : Store)
    (next : Session.t → Page) : Page :=
  match session with
  | None => Answer loginRedirect
  | Some u =>
      match findById (Session._id u) (users st) with
      | None =>
          Answer (Redirect (Some (error_msg, js "User not found")) "/auth/login")
      | Some user =>
          if User.isPaid user then next u
          else Answer (Redirect (Some (error_msg,
                  js "Please complete payment to access this feature"))
                  "/payments")
      end
  end.

(** [parseInt(req.query.page) || 1] *)
Definition pageNumber `{Runtime} (v : jsvalue) : Z :=
  match parseIntOf v with
  | Int z => if decide (z = 0)%Z then 1%Z else z
  | NaN => 1%Z
  end.

(** *** Guards of [middleware/auth.js] *)

Module Guards.

(** [hasProfile], then the handler: the user is read from the store. *)
Definition hasProfile (session : option Session.t) (st : Store)
    (next : Session.t → Response * Store) : Response * Store :=
  match session with
  | None => (loginRedirect, st)
  | Some u =>
      match findById (Session._id u) (users st) with
      | None => (Redirect (Some (error_msg, js "User not found")) "/auth/login", st)
      | Some user =>
          if User.profileCompleted user then next u
          else (Redirect (Some (error_msg,
                  js "Please complete your profile first"))
                  "/profiles/create", st)
      end
  end.

(** The parameters [isOwnerOrAdmin] reads.  A parameter the route does not
    declare is [undefined] ([None]); one it declares is a non-empty text,
    which casts to an ObjectId or does not ([Some None]). *)
Record ResourceRequest := mkResourceRequest {
  resourceSession : option Session.t;
  paramsId : option (option ObjectId);        (* req.params.id *)
  paramsProfileId : option (option ObjectId)  (* req.params.profileId *)
}.

Definition toDashboard (message : string) : Response :=
  Redirect (Some (error_msg, js message)) "/dashboard".

(** [req.params.id || req.params.profileId] *)
Definition resourceId (req : ResourceRequest) : option (option ObjectId) :=
  match paramsId req with
  | Some id => Some id
  | None => paramsProfileId req
  end.

(** [isOwnerOrAdmin], then the handler.  The administrator passes before
    the identifier is cast; a text that does not cast makes [findById]
    throw. *)
Definition isOwnerOrAdmin (req : ResourceRequest) (st : Store)
    (next : Session.t → Response * Store) : Response * Store :=
  match resourceSession req with
  | None => (loginRedirect, st)
  | Some u =>
      match resourceId req with
      | None => (toDashboard "Resource ID not found", st)
      | Some id =>
          if decide (Session.role u = User.admin) then next u
          else
            match id with
            | None => (toDashboard "An error occurred", st)
            | Some id =>
                match findById id (profiles st) with
                | None => (toDashboard "Profile not found", st)
                | Some profile =>
                    if decide (RishtaProfile.userId profile ≠ Session._id u)
                    then (toDashboard
                            "Access denied. You can only access your own profile.",
                          st)
                    else next u
                end
            end
      end
  end.

End Guards.

(** *** The form pages of the profile routes ([routes/profiles.js]) *)

Module ProfilePages.

(** GET /profiles/create *)
Definition createPage (session : option Session.t) (st : Store) : Page :=
  pageIsAuthenticated session (λ _,
  pageHasPaid session st (λ u,
    match findOne (λ p, RishtaProfile.userId p = Session._id u)
                  (profiles st) with
    | Some _ =>
        Answer (Redirect (Some (error_msg,
          js "You already have a profile. You can edit it instead."))
          "/profiles/edit")
    | None => RenderCreateForm
    end)).

(** GET /profiles/edit *)
Definition editPage (session : option Session.t) (st : Store) : Page :=
  pageIsAuthenticated session (λ _,
  pageHasPaid session st (λ u,
    match findOne (λ p, RishtaProfile.userId p = Session._id u)
                  (profiles st) with
    | None =>
        Answer (Redirect (Some (error_msg,
          js "No profile found. Please create a profile first."))
          "/profiles/create")
    | Some profile => RenderEditForm profile
    end)).

End ProfilePages.

(** *** The home page and the public profile page (main router) *)

Module Public.

(** GET /dashboard: the session decides where the member is sent. *)
Definition dashboard (session : option Session.t) : Response :=
  match session with
  | None => Redirect None "/auth/login"
  | Some u =>
      if negb (Session.isPaid u) then Redirect None "/payments"
      else if negb (Session.profileCompleted u)
      then Redirect None "/profiles/create"
      else Redirect None "/profiles/dashboard"
  end.

(** GET /: [find({ published: true, status: 'approved' }).limit(6)
    .sort({ createdAt: -1 })]. *)
Definition home (st : Store) : Page :=
  RenderHome
    (take 6
       (Main.sortNewestFirst
          (filter (λ p, RishtaProfile.published p = true
                        ∧ RishtaProfile.status p = RishtaProfile.approved)
                  (profiles st)))).

Record ViewRequest := mkViewRequest {
  viewId : option ObjectId;           (* req.params.id, cast *)
  viewNow : Date                      (* new Date() *)
}.

Definition profileNotFound : Page :=
  Answer (Redirect (Some (error_msg, js "Profile not found")) "/browse").

(** [profile.views += 1; profile.lastViewed = new Date()] *)
Definition countView (now : Date) (p : RishtaProfile.t) : RishtaProfile.t :=
  RishtaProfile.mk (RishtaProfile._id p) (RishtaProfile.userId p)
    (RishtaProfile.details p) (RishtaProfile.photos p)
    (RishtaProfile.status p) (RishtaProfile.published p)
    (RishtaProfile.approvedBy p) (RishtaProfile.approvedAt p)
    (RishtaProfile.rejectionReason p) (RishtaProfile.views p + 1)
    (Some now) (RishtaProfile.createdAt p).

(** GET /profile/:id.  The [catch] block answers as the not-found branch
    does. *)
Definition viewProfile (req : ViewRequest) (st : Store) : Page * Store :=
  match viewId req with
  | None => (profileNotFound, st)
  | Some id =>
      match findOne (λ p, RishtaProfile._id p = id
                          ∧ RishtaProfile.published p = true
                          ∧ RishtaProfile.status p = RishtaProfile.approved)
                    (profiles st) with
      | None => (profileNotFound, st)
      | Some profile =>
          let profile := profile |> countView (viewNow req) in
          match saveProfile profile st with
          | None => (profileNotFound, st)
          | Some st' => (RenderProfileDetail profile, st')
          end
      end
  end.

End Public.

(** *** The member's payment pages (payments router) *)

Module PaymentPages.

(** [.sort({ createdAt: -1 })] on payments. *)
Definition newerFirst (p q : Payment.t) : Prop :=
  (Payment.createdAt q ≤ Payment.createdAt p)%Z.

#[global] Instance newerFirst_decision p q : Decision (newerFirst p q).
Proof. unfold newerFirst. apply _. Defined.

(** [Payment.find({ userId, status: 'pending' }).sort({ createdAt: -1 })] *)
Definition pendingPayments (u : Session.t) (st : Store) : list Payment.t :=
  merge_sort newerFirst
    (filter (λ p, Payment.userId p = Session._id u
                  ∧ Payment.status p = Payment.pending)
            (payments st)).

Definition alreadyPaid : Response :=
  Redirect (Some (error_msg, js "You have already completed payment."))
    "/dashboard".

(** GET /payments *)
Definition paymentPage (session : option Session.t) (st : Store) : Page :=
  pageIsAuthenticated session (λ u,
    if Session.isPaid u then Answer alreadyPaid
    else RenderPayments (pendingPayments u st) []).

(** GET /payments/history *)
Definition history (session : option Session.t) (st : Store) : Page :=
  pageIsAuthenticated session (λ u,
    RenderHistory
      (merge_sort newerFirst
         (filter (λ p, Payment.userId p = Session._id u) (payments st)))).

(** [req.body] as the validator chain leaves it, the receipt multer stored
    and what the handler generates. *)
Record SubmitRequest := mkSubmitRequest {
  submitSession : option Session.t;
  file : option Profiles.File;        (* req.file *)
  validationErrors : list jsstring;   (* validationResult(req).array() *)
  amount : jsvalue;
  paymentMethod : jsvalue;
  paymentType : jsvalue;
  senderName : jsvalue;
  senderNumber : jsvalue;
  referenceNumber : jsvalue;
  notes : jsvalue;
  transactionId : jsstring;           (* `TXN${Date.now()}${..}` *)
  newPaymentId : ObjectId;            (* the _id of new Payment(..) *)
  submitNow : Date
}.

(** [new Payment(paymentData)]: [currency] and [status] take their
    defaults, the Strings declared with [trim: true] are trimmed. *)
Definition paymentOf `{Runtime} (req : SubmitRequest) (u : Session.t)
    : Payment.t :=
  Payment.mk (newPaymentId req) (Session._id u)
    (parseIntOf (amount req))
    (Some (js "PKR"))
    (paymentMethod req) (paymentType req)
    Payment.pending
    (Some (transactionId req))
    (setTrimmed (referenceNumber req))
    (setTrimmed (senderNumber req))
    (setTrimmed (senderName req))
    ((λ f, Payment.mkReceiptImage (Some (Profiles.path f))
                                  (Some (Profiles.filename f))) <$> file req)
    (setTrimmed (notes req))
    None None None (submitNow req).

(** [payment.save()] of a new document: validation, then the unique
    indexes on [_id] and on [transactionId] (sparse: a document without
    the path is not indexed). *)
Definition saveNewPayment (p : Payment.t) (st : Store) : option Store :=
  if Payment.validate p
  then match findOne (λ q, Payment._id q = Payment._id p
                           ∨ (is_Some (Payment.transactionId p)
                              ∧ Payment.transactionId q = Payment.transactionId p))
                     (payments st) with
       | Some _ => None
       | None => Some (withPayments (insertOne p (payments st)) st)
       end
  else None.

Definition submitted : Response :=
  Redirect (Some (success_msg,
    js "Payment submitted successfully! We will verify it within 24 hours."))
    "/payments/history".

(** POST /payments/submit *)
Definition submitPayment `{Runtime} (req : SubmitRequest) (st : Store)
    : Page * Store :=
  match submitSession req with
  | None => (Answer loginRedirect, st)
  | Some u =>
      if negb (bool_decide (validationErrors req = [])) then
        (RenderPayments (pendingPayments u st) (validationErrors req), st)
      else if Session.isPaid u then (Answer alreadyPaid, st)
      else
        match saveNewPayment (paymentOf req u) st with
        | None =>
            (RenderPayments (pendingPayments u st)
               [js "An error occurred while submitting payment. Please try again."],
             st)
        | Some st' => (Answer submitted, st')
        end
  end.

End PaymentPages.

(** *** The administrator's profile listing ([routes/admin.js]) *)

Module AdminPages.

(** [req.query] *)
Record ListQuery := mkListQuery {
  page : jsvalue;
  status : jsvalue;
  published : jsvalue;
  gender : jsvalue;
  city : jsvalue
}.

(** The filter object: a condition for each parameter the query names.
    [published] is compared with [undefined], the others are tested for
    truth. *)
Record Filter := mkFilter {
  statusIs : option jsstring;
  publishedIs : option bool;
  genderIs : option jsstring;
  cityMatches : option (jsstring → bool)
}.

Definition limit : Z := 20.

(** The value of the [status] path as the collection stores it. *)
Definition statusName (s : RishtaProfile.Status) : jsstring :=
  match s with
  | RishtaProfile.draft => js "draft"
  | RishtaProfile.submitted => js "submitted"
  | RishtaProfile.approved => js "approved"
  | RishtaProfile.rejected => js "rejected"
  | RishtaProfile.publishedStatus => js "published"
  end.

Section WithRuntime.
Context `{Runtime}.

(** [None]: [new RegExp] throws. *)
Definition buildFilter (q : ListQuery) : option Filter :=
  let statusIs := if truthy (status q) then status q else None in
  let publishedIs :=
    (λ v, bool_decide (v = js "true")) <$> published q in
  let genderIs := if truthy (gender q) then gender q else None in
  cityMatches ←
    (if truthy (city q)
     then Some <$> newRegExp_i (default [] (city q))
     else Some None);
  Some (mkFilter statusIs publishedIs genderIs cityMatches).

Definition matches (f : Filter) (p : RishtaProfile.t) : bool :=
  let i := RishtaProfile.personalInfo (RishtaProfile.details p) in
  from_option (λ s, bool_decide (statusName (RishtaProfile.status p) = s))
              true (statusIs f)
  && from_option (λ b, bool_decide (RishtaProfile.published p = b))
                 true (publishedIs f)
  && from_option (λ g, bool_decide (RishtaProfile.gender i = Some g))
                 true (genderIs f)
  && from_option (λ m, from_option m false
                         (RishtaProfile.city (RishtaProfile.location i)))
                 true (cityMatches f).

Definition failed : Page :=
  Answer (Redirect (Some (error_msg, js "An error occurred")) "/admin").

(** GET /admin/profiles.  A negative skip is refused by the server. *)
Definition listProfiles (session : option Session.t) (q : ListQuery)
    (st : Store) : Page :=
  pageIsAuthenticated session (λ _,
  pageIsAdmin session (λ _,
    let page := pageNumber (page q) in
    let skip := ((page - 1) * limit)%Z in
    match buildFilter q with
    | None => failed
    | Some f =>
        if decide (skip < 0)%Z then failed
        else
          let found := filter (λ p, matches f p = true) (profiles st) in
          let totalPages := ((Z.of_nat (length found) + limit - 1) / limit)%Z in
          RenderAdminProfiles
            (mkBrowsePage
               (take (Z.to_nat limit)
                  (drop (Z.to_nat skip) (Main.sortNewestFirst found)))
               page totalPages
               (bool_decide (page < totalPages)%Z)
               (bool_decide (1 < page)%Z))
    end)).

End WithRuntime.

(** The [stats] local of GET /admin: six [countDocuments] queries.  (The
    page renders the most recent users, profiles and payments beside
    them; those lists are not modelled.) *)
Record Stats := mkStats {
  totalUsers : nat;
  paidUsers : nat;
  profilesSubmitted : nat;
  profilesApproved : nat;
  profilesPublished : nat;
  pendingPayments : nat
}.

Definition statistics (st : Store) : Stats :=
  mkStats
    (length (users st))
    (length (filter (λ u, User.isPaid u = true) (users st)))
    (length (filter (λ p, RishtaProfile.status p = RishtaProfile.submitted)
                    (profiles st)))
    (length (filter (λ p, RishtaProfile.status p = RishtaProfile.approved)
                    (profiles st)))
    (length (filter (λ p, RishtaProfile.published p = true) (profiles st)))
    (length (filter (λ p, Payment.status p = Payment.pending) (payments st))).

End AdminPages.

(** *** The age a profile shows ([calculatedAge] of the profile schema)

    What the virtual reads of a date: the year, the month and the day of
    the month in the time zone of the server. *)

Class Calendar := mkCalendar {
  getFullYear : Date → Z;
  getMonth : Date → Z;
  getDate : Date → Z
}.

(** The virtual, [today] being its [new Date()].  A document without a
    date of birth shows the stored [age]. *)
Definition calculatedAge `{Calendar} (today : Date) (p : RishtaProfile.t)
    : JsNumber :=
  let i := RishtaProfile.personalInfo (RishtaProfile.details p) in
  match RishtaProfile.dateOfBirth i with
  | Some birthDate =>
      let age := (getFullYear today - getFullYear birthDate)%Z in
      let monthDiff := (getMonth today - getMonth birthDate)%Z in
      if decide (monthDiff < 0
                 ∨ (monthDiff = 0 ∧ getDate today < getDate birthDate))%Z
      then Int (age - 1)
      else Int age
  | None => RishtaProfile.age i
  end.

(** ** All the writing requests as one transition system

    The lifecycle operations, the public profile page, which counts a
    view, and the submission of a payment. *)

Inductive Request :=
| Lifecycle (op : Operation)
| ViewProfile (req : Public.ViewRequest)
| SubmitPayment (req : PaymentPages.SubmitRequest).

(** The store a request leaves. *)
Definition serve `{Runtime} (r : Request) (st : Store) : Store :=
  match r with
  | Lifecycle op => (handle op st).2
  | ViewProfile req => (Public.viewProfile req st).2
  | SubmitPayment req => (PaymentPages.submitPayment req st).2
  end.

Fixpoint run `{Runtime} (st : Store) (rs : list Request) : list Store :=
  match rs with
  | [] => []
  | r :: rs' => let st' := serve r st in st' :: run st' rs'
  end.

(** ** What the further properties speak of *)

(** The session a lifecycle request carries. *)
Definition sessionOf (op : Operation) : option Session.t :=
  match op with
  | CreateProfile req | EditProfile req => Profiles.formSession req
  | DeletePhoto req | SetPrimaryPhoto req => Profiles.photoSession req
  | ReviewProfile req => Admin.reviewSession req
  | TogglePublish req => Admin.publishSession req
  | VerifyPayment req => Payments.verifySession req
  | CancelPayment req => Payments.cancelSession req
  end.

(** The routes mounted behind [isAdmin], and those behind [hasPaid]. *)
Definition behindIsAdmin (op : Operation) : bool :=
  match op with
  | ReviewProfile _ | TogglePublish _ | VerifyPayment _ => true
  | _ => false
  end.

Definition behindHasPaid (op : Operation) : bool :=
  match op with
  | CreateProfile _ | EditProfile _ | DeletePhoto _ | SetPrimaryPhoto _ => true
  | _ => false
  end.

Definition accessDenied : Response :=
  Redirect (Some (error_msg, js "Access denied. Admin privileges required.")) "/".

Definition paymentRequired : Response :=
  Redirect (Some (error_msg, js "Please complete payment to access this feature"))
    "/payments".

(** A published profile is an approved one. *)
Definition publishedApproved (st : Store) : Prop :=
  Forall (λ p, RishtaProfile.published p = true →
               RishtaProfile.status p = RishtaProfile.approved)
         (profiles st).

(** No two profiles share an [_id], and no two belong to one user. *)
Definition oneProfilePerUser (st : Store) : Prop :=
  uniqueIds (profiles st) ∧ NoDup (RishtaProfile.userId <$> profiles st).

(** How a request may change the profiles: not at all; or one stored
    document is rewritten, which keeps its [_id] and its owner and whose
    publication is kept as it was, or withdrawn, or that of an approved
    profile; or a document with a fresh [_id] and a fresh owner is
    appended, unpublished. *)
Definition profileStep (ps ps' : list RishtaProfile.t) : Prop :=
  ps' = ps
  ∨ (∃ p p',
       p ∈ ps
       ∧ RishtaProfile._id p' = RishtaProfile._id p
       ∧ RishtaProfile.userId p' = RishtaProfile.userId p
       ∧ ((RishtaProfile.published p' = RishtaProfile.published p
           ∧ RishtaProfile.status p' = RishtaProfile.status p)
          ∨ RishtaProfile.published p' = false
          ∨ RishtaProfile.status p' = RishtaProfile.approved)
       ∧ ps' = updateOne p' ps)
  ∨ (∃ p',
       findById (RishtaProfile._id p') ps = None
       ∧ findOne (λ q, RishtaProfile.userId q = RishtaProfile.userId p') ps = None
       ∧ RishtaProfile.published p' = false
       ∧ ps' = ps ++ [p']).

(** The profile a successful create writes. *)
Definition created (req : Profiles.FormRequest) (u : Session.t)
    (details : RishtaProfile.Details) : RishtaProfile.t :=
  RishtaProfile.mk (Profiles.newProfileId req) (Session._id u) details
    (Profiles.createPhotos req) RishtaProfile.submitted false
    None None None 0 None (Profiles.formNow req).

Definition createdResponse : Response :=
  Redirect (Some (success_msg,
    js "Profile created successfully! It will be reviewed by our team before publishing."))
    "/profiles/dashboard".

Definition photoDeleted : Response :=
  Json 200 true (js "Photo deleted successfully") NoPayload.

Definition paymentCancelled : Response :=
  Json 200 true (js "Payment cancelled successfully") NoPayload.

Definition paymentNotCancellable : Response :=
  Json 404 false (js "Payment not found or cannot be cancelled") NoPayload.

(** Where a page sends the browser, when it answers with a redirect. *)
Definition redirectsTo (page : Page) : option string :=
  match page with
  | Answer (Redirect _ url) => Some url
  | _ => None
  end.

(** The profiles of a page the route rendered. *)
Definition profilesOf (r : Response) : list RishtaProfile.t :=
  match r with
  | RenderBrowse page => pageProfiles page
  | _ => []
  end.

(** A query with another page parameter. *)
Definition withPage (v : jsvalue) (q : Main.Query) : Main.Query :=
  Main.mkQuery v (Main.gender q) (Main.city q) (Main.minAge q) (Main.maxAge q).

(** The calendar day of [a] is the day of [b] or an earlier one. *)
Definition notAfter `{Calendar} (a b : Date) : Prop :=
  (getFullYear a < getFullYear b
   ∨ (getFullYear a = getFullYear b
      ∧ (getMonth a < getMonth b
         ∨ (getMonth a = getMonth b ∧ getDate a ≤ getDate b))))%Z.

(** ** Further worked data *)

Module Cases.

(** The civil date of a number of days since 1970-01-01, and the calendar
    of a server that runs in UTC. *)
Definition civilFromDays (z : Z) : Z * Z * Z :=
  let z := (z + 719468)%Z in
  let era := (z / 146097)%Z in
  let doe := (z - era * 146097)%Z in
  let yoe := ((doe - doe / 1460 + doe / 36524 - doe / 146096) / 365)%Z in
  let doy := (doe - (365 * yoe + yoe / 4 - yoe / 100))%Z in
  let mp := ((5 * doy + 2) / 153)%Z in
  let d := (doy - (153 * mp + 2) / 5 + 1)%Z in
  let m := (if decide (mp < 10) then mp + 3 else mp - 9)%Z in
  let y := (yoe + era * 400)%Z in
  ((if decide (m ≤ 2) then y + 1 else y)%Z, m, d).

Definition utc : Calendar :=
  mkCalendar (λ t, (civilFromDays (t / 86400000)).1.1)
             (λ t, ((civilFromDays (t / 86400000)).1.2 - 1)%Z)
             (λ t, (civilFromDays (t / 86400000)).2).

(** A member who has not paid yet, and the store that knows her. *)
Definition unpaid : User.t := User.mk 4 true false User.user false.
Definition unpaidSession : Session.t := Session.mk 4 User.user false false.
(** The session of the owner as it was before the payment was verified. *)
Definition staleSession : Session.t := Session.mk 2 User.user false true.

Definition members (pays : list Payment.t) : Store :=
  mkStore [Sample.adminUser; Sample.owner; Sample.newcomer; unpaid]
    [Sample.profileWith RishtaProfile.approved true] pays.

Definition submission (session : Session.t) : PaymentPages.SubmitRequest :=
  PaymentPages.mkSubmitRequest (Some session)
    (Some (Profiles.mkFile (js "https://img/r.jpg") (js "r"))) []
    (Some (js "5000")) (Some (js "jazzcash")) (Some (js "registration"))
    (Some (js "Bilal Ahmed")) (Some (js "03001234567")) (Some (js "REF123"))
    (Some (js " sent today ")) (js "TXN2ABCDE") 51 6000.

(** The payment [submission unpaidSession] writes. *)
Definition submittedPayment : Payment.t :=
  Payment.mk 51 4 (Int 5000) (Some (js "PKR")) (Some (js "jazzcash"))
    (Some (js "registration")) Payment.pending (Some (js "TXN2ABCDE"))
    (Some (js "REF123")) (Some (js "03001234567")) (Some (js "Bilal Ahmed"))
    (Some (Payment.mkReceiptImage (Some (js "https://img/r.jpg"))
                                  (Some (js "r"))))
    (Some (js "sent today")) None None None 6000.

End Cases.

(** * Properties *)

(** ** Collections *)

Section CollectionFacts.
Context {A : Type} `{Model A}.
Implicit Types (c : list A) (d : A) (id : ObjectId).

Lemma findOne_Some (P : A → Prop) `{∀ d, Decision (P d)} c d :
  findOne P c = Some d ↔
  ∃ i, c !! i = Some d ∧ P d ∧ ∀ j y, c !! j = Some y → j < i → ¬ P y.
Proof.
  unfold findOne. split.
  - destruct (list_find P c) as [[i x]|] eqn:E; [|done].
    intros [= ->]. apply list_find_Some in E as (Hi & HP & Hmin).
    exists i. eauto.
  - intros (i & Hi & HP & Hmin).
    assert (list_find P c = Some (i, d)) as ->; [|done].
    apply list_find_Some. eauto.
Qed.

Lemma findOne_None (P : A → Prop) `{∀ d, Decision (P d)} c :
  findOne P c = None ↔ Forall (λ d, ¬ P d) c.
Proof.
  unfold findOne. rewrite fmap_None. apply list_find_None.
Qed.

Lemma findOne_elem (P : A → Prop) `{∀ d, Decision (P d)} c d :
  findOne P c = Some d → d ∈ c ∧ P d.
Proof.
  rewrite findOne_Some. intros (i & Hi & HP & _).
  split; [by eapply list_elem_of_lookup_2|done].
Qed.

Lemma findById_modelId id c d : findById id c = Some d → modelId d = id.
Proof. intros Hf. by apply findOne_elem in Hf as [_ ?]. Qed.

(** A save rewrites one slot of the collection: the first that holds a
    document with the [_id] of the saved one. *)
Lemma updateOne_insert d c old :
  findById (modelId d) c = Some old →
  ∃ i, c !! i = Some old ∧ updateOne d c = <[i := d]> c.
Proof.
  unfold findById, findOne, updateOne.
  destruct (list_find _ c) as [[i x]|] eqn:E; [|done].
  intros [= ->]. apply list_find_Some in E as (Hi & _ & _). eauto.
Qed.

(** Saving a document as it was read changes nothing. *)
Lemma updateOne_same c d : findById (modelId d) c = Some d → updateOne d c = c.
Proof.
  intros Hf. apply updateOne_insert in Hf as (i & Hi & ->).
  by apply list_insert_id.
Qed.

Lemma updateOne_Forall (P : A → Prop) d c :
  P d → Forall P c → Forall P (updateOne d c).
Proof.
  intros Hd Hc. unfold updateOne.
  destruct (list_find _ c) as [[i x]|]; [|done].
  by apply Forall_insert.
Qed.

Lemma updateOne_length d c : length (updateOne d c) = length c.
Proof.
  unfold updateOne. destruct (list_find _ c) as [[i x]|]; [|done].
  apply length_insert.
Qed.

(** A save keeps the [_id] at every slot. *)
Lemma updateOne_ids d c : modelId <$> updateOne d c = modelId <$> c.
Proof.
  unfold updateOne.
  destruct (list_find _ c) as [[i x]|] eqn:E; [|done].
  apply list_find_Some in E as (Hi & Hx & _).
  rewrite list_fmap_insert, <- Hx. apply list_insert_id.
  by rewrite list_lookup_fmap, Hi.
Qed.

(** Every slot after a save holds the saved document or what it held. *)
Lemma updateOne_lookup d c i x :
  updateOne d c !! i = Some x → x = d ∨ c !! i = Some x.
Proof.
  unfold updateOne. destruct (list_find _ c) as [[k y]|]; [|by right].
  destruct (decide (k = i)) as [->|Hne].
  - intros Hl. left.
    apply list_lookup_insert_Some in Hl as [(_ & -> & _)|(? & _)]; done.
  - rewrite list_lookup_insert_ne by done. by right.
Qed.

(** A document found by a filter and saved under its [_id] with the
    filter still true is what the filter finds afterwards. *)
Lemma findOne_updateOne (P : A → Prop) `{∀ d, Decision (P d)}
    (c : list A) (d d' : A) :
  findOne P c = Some d → modelId d' = modelId d → P d' →
  findOne P (updateOne d' c) = Some d'.
Proof.
  intros Hf Hid HP. apply findOne_Some in Hf as (i & Hi & Hd & Hmin).
  unfold updateOne.
  destruct (list_find (λ x, modelId x = modelId d') c) as [[k y]|] eqn:E.
  - apply list_find_Some in E as (Hk & Hy & Hkmin).
    assert (k ≤ i) as Hle.
    { destruct (decide (k ≤ i)) as [|Hgt]; [done|].
      exfalso. apply (Hkmin i d); [done|lia|done]. }
    apply findOne_Some. exists k. split; [|split; [done|]].
    + apply list_lookup_insert_eq. by eapply lookup_lt_Some.
    + intros j z Hj Hjk. rewrite list_lookup_insert_ne in Hj by lia.
      apply (Hmin j z Hj). lia.
  - apply list_find_None in E. rewrite Forall_forall in E.
    exfalso. apply (E d); [by eapply list_elem_of_lookup_2|done].
Qed.
(** A save leaves alone every slot whose document has another [_id]. *)
Lemma updateOne_lookup_ne (d : A) (c : list A) i x :
  c !! i = Some x → modelId x ≠ modelId d → updateOne d c !! i = Some x.
Proof.
  intros Hi Hne. unfold updateOne.
  destruct (list_find _ c) as [[k y]|] eqn:E; [|done].
  apply list_find_Some in E as (Hk & Hy & _).
  rewrite list_lookup_insert_ne; [done|]. intros ->. congruence.
Qed.

(** Every slot holds something after a save: the saved document or what it
    held. *)
Lemma updateOne_lookup_total (d : A) (c : list A) i x :
  c !! i = Some x → ∃ y, updateOne d c !! i = Some y ∧ (y = d ∨ y = x).
Proof.
  intros Hi.
  destruct (updateOne d c !! i) as [y|] eqn:E.
  - exists y. split; [done|].
    apply updateOne_lookup in E as [->|E]; [by left|right; congruence].
  - apply lookup_ge_None in E. rewrite updateOne_length in E.
    apply lookup_lt_Some in Hi. lia.
Qed.

(** Distinct [_id]s: two slots with the same [_id] are one slot. *)
Lemma uniqueIds_lookup (c : list A) i j x y :
  uniqueIds c → c !! i = Some x → c !! j = Some y →
  modelId x = modelId y → i = j.
Proof.
  unfold uniqueIds. intros Hnd Hi Hj Hxy.
  eapply NoDup_lookup; [exact Hnd| |].
  - by rewrite list_lookup_fmap, Hi.
  - rewrite list_lookup_fmap, Hj. simpl. by rewrite Hxy.
Qed.
End CollectionFacts.

(** ** Middleware *)

Lemma isAdmin_admin {S : Type} (u : Session.t) (st : S) next :
  Session.role u = User.admin → isAdmin (Some u) st next = next u.
Proof. intros Hr. unfold isAdmin. by rewrite decide_True. Qed.

Lemma hasPaid_paid (u : Session.t) (user : User.t) (st : Store) next :
  findById (Session._id u) (users st) = Some user →
  User.isPaid user = true →
  hasPaid (Some u) st next = next u.
Proof. intros Hf Hp. unfold hasPaid. by rewrite Hf, Hp. Qed.

(** ** Review and publication *)

(** The validators read the descriptive paths and the photos only. *)
Lemma validate_review req admin p :
  RishtaProfile.validate (Admin.review req admin p) = RishtaProfile.validate p.
Proof. unfold Admin.review. repeat case_decide; done. Qed.

Lemma saveProfile_insert p' p st :
  RishtaProfile.validate p' = true →
  findById (RishtaProfile._id p') (profiles st) = Some p →
  ∃ i, profiles st !! i = Some p
       ∧ saveProfile p' st = Some (withProfiles (<[i := p']> (profiles st)) st).
Proof.
  intros Hv Hf. unfold saveProfile. rewrite Hv.
  apply (updateOne_insert p') in Hf as (i & Hi & ->). eauto.
Qed.

(** C1 (amended).  For every stored profile that passes its schema and
    every administrator, [reviewProfile] is applied whatever the status of
    the profile was.  With action 'approve' the profile gets status
    [approved], [published = true], the administrator as [approvedBy], the
    time of the request as [approvedAt] and no rejection reason.  With
    action 'reject' and reason [r] it gets status [rejected],
    [published = false], the same reviewer and time, and as rejection
    reason [r] with the white space at both ends removed.  No other path of
    the profile and no other document changes. *)
Theorem reviewProfile_applies req st admin id p :
  Admin.reviewSession req = Some admin →
  Session.role admin = User.admin →
  Admin.reviewId req = Some id →
  findById id (profiles st) = Some p →
  RishtaProfile.validate p = true →
  (Admin.action req = Some (js "approve") →
   let p' :=
     RishtaProfile.mk (RishtaProfile._id p) (RishtaProfile.userId p)
       (RishtaProfile.details p) (RishtaProfile.photos p)
       RishtaProfile.approved true
       (Some (Session._id admin)) (Some (Admin.reviewNow req)) None
       (RishtaProfile.views p) (RishtaProfile.lastViewed p)
       (RishtaProfile.createdAt p) in
   ∃ i, profiles st !! i = Some p
        ∧ Admin.reviewProfile req st
          = (Json 200 true (js "Profile approved successfully")
               (ProfilePayload p'),
             withProfiles (<[i := p']> (profiles st)) st))
  ∧ (Admin.action req = Some (js "reject") →
     let p' :=
       RishtaProfile.mk (RishtaProfile._id p) (RishtaProfile.userId p)
         (RishtaProfile.details p) (RishtaProfile.photos p)
         RishtaProfile.rejected false
         (Some (Session._id admin)) (Some (Admin.reviewNow req))
         (trim <$> Admin.rejectionReason req)
         (RishtaProfile.views p) (RishtaProfile.lastViewed p)
         (RishtaProfile.createdAt p) in
     ∃ i, profiles st !! i = Some p
          ∧ Admin.reviewProfile req st
            = (Json 200 true (js "Profile rejectd successfully")
                 (ProfilePayload p'),
               withProfiles (<[i := p']> (profiles st)) st)).
Proof.
  intros Hs Hr Hid Hf Hv.
  pose proof (findById_modelId _ _ _ Hf) as Hm.
  assert (∀ p', RishtaProfile._id p' = RishtaProfile._id p →
            RishtaProfile.validate p' = true →
            Admin.review req admin p = p' →
            ∃ i, profiles st !! i = Some p
              ∧ Admin.reviewProfile req st
                = (Json 200 true
                     (js "Profile " ++ toString (Admin.action req)
                        ++ js "d successfully") (ProfilePayload p'),
                   withProfiles (<[i := p']> (profiles st)) st)) as Hgen.
  { intros p' Hid' Hv' Hp'.
    unfold Admin.reviewProfile, isAuthenticated. rewrite Hs.
    rewrite isAdmin_admin by done. rewrite Hid, Hf, Hp'.
    destruct (saveProfile_insert p' p st) as (i & Hi & ->); [done| |eauto].
    rewrite Hid'. by rewrite <- Hm in Hf. }
  split; intros Ha; simpl.
  - destruct (Hgen (Admin.review req admin p)) as (i & Hi & Heq);
      [unfold Admin.review; repeat case_decide; done
      |by rewrite validate_review|done|].
    exists i. split; [done|]. rewrite Heq.
    unfold Admin.review. rewrite Ha. rewrite decide_True by done. done.
  - destruct (Hgen (Admin.review req admin p)) as (i & Hi & Heq);
      [unfold Admin.review; repeat case_decide; done
      |by rewrite validate_review|done|].
    exists i. split; [done|]. rewrite Heq.
    unfold Admin.review. rewrite Ha. rewrite decide_False by done.
    rewrite decide_True by done. done.
Qed.

(** C1, witness: a rejection of the submitted sample profile. *)
Lemma reviewProfile_applies_witness :
  let req :=
    Admin.mkReviewRequest (Some Sample.adminSession) (Some 10%N)
      (Some (js "reject")) (Some (js "  photo is blurred ")) 3000 in
  let p := Sample.profileWith RishtaProfile.submitted false in
  let p' :=
    RishtaProfile.mk 10 2 Sample.details [Sample.photoA; Sample.photoB]
      RishtaProfile.rejected false (Some 1%N) (Some 3000%Z)
      (Some (js "photo is blurred")) 0 None 1000 in
  (Admin.reviewSession req = Some Sample.adminSession
   ∧ Session.role Sample.adminSession = User.admin
   ∧ Admin.reviewId req = Some 10%N
   ∧ findById 10%N (profiles Sample.submittedStore) = Some p
   ∧ RishtaProfile.validate p = true
   ∧ Admin.action req = Some (js "reject"))
  ∧ ∃ i, profiles Sample.submittedStore !! i = Some p
         ∧ Admin.reviewProfile req Sample.submittedStore
           = (Json 200 true (js "Profile rejectd successfully")
                (ProfilePayload p'),
              withProfiles (<[i := p']> (profiles Sample.submittedStore))
                Sample.submittedStore).
Proof.
  intros req p p'. split.
  - repeat split; reflexivity.
  - exact (proj2 (reviewProfile_applies req Sample.submittedStore
                    Sample.adminSession 10%N p
                    eq_refl eq_refl eq_refl eq_refl eq_refl) eq_refl).
Defined.

(** C1, counterexample: the reason [" x"] is stored as ["x"]; the schema
    declares [rejectionReason] with [trim: true]. *)
Lemma reviewProfile_reason_not_verbatim :
  let req :=
    Admin.mkReviewRequest (Some Sample.adminSession) (Some 10%N)
      (Some (js "reject")) (Some (js " x")) 3000 in
  RishtaProfile.rejectionReason
    <$> findById 10%N (profiles (Admin.reviewProfile req Sample.submittedStore).2)
  = Some (Some (js "x"))
  ∧ Admin.rejectionReason req = Some (js " x")
  ∧ js "x" ≠ js " x".
Proof. repeat split. discriminate. Qed.

Lemma withProfiles_same st : withProfiles (profiles st) st = st.
Proof. by destruct st. Qed.

Lemma saveProfile_same p st :
  RishtaProfile.validate p = true →
  findById (RishtaProfile._id p) (profiles st) = Some p →
  saveProfile p st = Some st.
Proof.
  intros Hv Hf. unfold saveProfile. rewrite Hv.
  by rewrite updateOne_same, withProfiles_same.
Qed.

(** C10.  A review whose action is neither 'approve' nor 'reject' answers
    with success (the message is built from the action as it came) and
    leaves the profile, and the whole store, as they were. *)
Theorem reviewProfile_other_action req st admin id p :
  Admin.reviewSession req = Some admin →
  Session.role admin = User.admin →
  Admin.reviewId req = Some id →
  findById id (profiles st) = Some p →
  RishtaProfile.validate p = true →
  Admin.action req ≠ Some (js "approve") →
  Admin.action req ≠ Some (js "reject") →
  Admin.reviewProfile req st
  = (Json 200 true
       (js "Profile " ++ toString (Admin.action req) ++ js "d successfully")
       (ProfilePayload p),
     st).
Proof.
  intros Hs Hr Hid Hf Hv Ha Hb.
  pose proof (findById_modelId _ _ _ Hf) as Hm.
  unfold Admin.reviewProfile, isAuthenticated. rewrite Hs.
  rewrite isAdmin_admin by done. rewrite Hid, Hf.
  unfold Admin.review. rewrite !decide_False by done.
  rewrite saveProfile_same; [done..|]. by rewrite <- Hm in Hf.
Qed.

(** C10, witness: the action 'archive' on the submitted sample profile. *)
Lemma reviewProfile_other_action_witness :
  let req :=
    Admin.mkReviewRequest (Some Sample.adminSession) (Some 10%N)
      (Some (js "archive")) None 3000 in
  let p := Sample.profileWith RishtaProfile.submitted false in
  (Admin.reviewSession req = Some Sample.adminSession
   ∧ Session.role Sample.adminSession = User.admin
   ∧ Admin.reviewId req = Some 10%N
   ∧ findById 10%N (profiles Sample.submittedStore) = Some p
   ∧ RishtaProfile.validate p = true
   ∧ Admin.action req ≠ Some (js "approve")
   ∧ Admin.action req ≠ Some (js "reject"))
  ∧ Admin.reviewProfile req Sample.submittedStore
    = (Json 200 true (js "Profile archived successfully") (ProfilePayload p),
       Sample.submittedStore).
Proof.
  intros req p. split.
  - repeat split; try reflexivity; discriminate.
  - apply (reviewProfile_other_action req Sample.submittedStore
             Sample.adminSession 10%N p); try reflexivity; discriminate.
Defined.

(** C3.  For an administrator and a stored profile: when the status is not
    [approved], [togglePublish] answers 400 'Only approved profiles can be
    published' and the store is unchanged; when it is [approved], the
    [published] flag is negated and every other path of the profile, the
    status among them, and every other document stay as they were. *)
Theorem togglePublish_spec req st admin id p :
  Admin.publishSession req = Some admin →
  Session.role admin = User.admin →
  Admin.publishId req = Some id →
  findById id (profiles st) = Some p →
  (RishtaProfile.status p ≠ RishtaProfile.approved →
   Admin.togglePublish req st = (preconditionFailed, st))
  ∧ (RishtaProfile.status p = RishtaProfile.approved →
     RishtaProfile.validate p = true →
     let p' :=
       RishtaProfile.mk (RishtaProfile._id p) (RishtaProfile.userId p)
         (RishtaProfile.details p) (RishtaProfile.photos p)
         (RishtaProfile.status p) (negb (RishtaProfile.published p))
         (RishtaProfile.approvedBy p) (RishtaProfile.approvedAt p)
         (RishtaProfile.rejectionReason p) (RishtaProfile.views p)
         (RishtaProfile.lastViewed p) (RishtaProfile.createdAt p) in
     ∃ i, profiles st !! i = Some p
          ∧ Admin.togglePublish req st
            = (Json 200 true
                 (js "Profile "
                    ++ (if negb (RishtaProfile.published p)
                        then js "published" else js "unpublished")
                    ++ js " successfully")
                 (PublishedPayload (negb (RishtaProfile.published p))),
               withProfiles (<[i := p']> (profiles st)) st)).
Proof.
  intros Hs Hr Hid Hf.
  pose proof (findById_modelId _ _ _ Hf) as Hm.
  split.
  - intros Hne. unfold Admin.togglePublish, isAuthenticated. rewrite Hs.
    rewrite isAdmin_admin by done. rewrite Hid, Hf.
    by rewrite decide_True.
  - intros Heq Hv p'. unfold Admin.togglePublish, isAuthenticated. rewrite Hs.
    rewrite isAdmin_admin by done. rewrite Hid, Hf.
    rewrite decide_False by (intros Hne; by apply Hne).
    fold p'.
    destruct (saveProfile_insert p' p st) as (i & Hi & Hsave); [done| |].
    { simpl. by rewrite <- Hm in Hf. }
    exists i. split; [done|].
    change (RishtaProfile.setPublished (negb (RishtaProfile.published p)) p)
      with p'.
    by rewrite Hsave.
Qed.

(** C3, witness: the approved sample profile is unpublished, and the
    submitted one is refused. *)
Lemma togglePublish_spec_witness :
  let req := Admin.mkPublishRequest (Some Sample.adminSession) (Some 10%N) in
  let p := Sample.profileWith RishtaProfile.approved true in
  let q := Sample.profileWith RishtaProfile.submitted false in
  (Admin.publishSession req = Some Sample.adminSession
   ∧ Session.role Sample.adminSession = User.admin
   ∧ Admin.publishId req = Some 10%N
   ∧ findById 10%N (profiles Sample.approvedStore) = Some p
   ∧ RishtaProfile.status p = RishtaProfile.approved
   ∧ RishtaProfile.validate p = true
   ∧ findById 10%N (profiles Sample.submittedStore) = Some q
   ∧ RishtaProfile.status q ≠ RishtaProfile.approved)
  ∧ (∃ i, profiles Sample.approvedStore !! i = Some p
          ∧ Admin.togglePublish req Sample.approvedStore
            = (Json 200 true (js "Profile unpublished successfully")
                 (PublishedPayload false),
               withProfiles
                 (<[i := Sample.profileWith RishtaProfile.approved false]>
                    (profiles Sample.approvedStore))
                 Sample.approvedStore))
  ∧ Admin.togglePublish req Sample.submittedStore
    = (preconditionFailed, Sample.submittedStore).
Proof.
  intros req p q. split; [|split].
  - repeat split; try reflexivity; discriminate.
  - exact (proj2 (togglePublish_spec req Sample.approvedStore
                    Sample.adminSession 10%N p
                    eq_refl eq_refl eq_refl eq_refl) eq_refl eq_refl).
  - apply (proj1 (togglePublish_spec req Sample.submittedStore
                    Sample.adminSession 10%N q
                    eq_refl eq_refl eq_refl eq_refl)).
    discriminate.
Defined.

(** ** Photos *)

Lemma primaries_nil_iff photos :
  primaries photos = [] ↔ Forall (λ ph, Photo.isPrimary ph = false) photos.
Proof.
  unfold primaries. induction photos as [|ph photos IH]; [done|].
  rewrite filter_cons, Forall_cons. destruct (Photo.isPrimary ph) eqn:E.
  - rewrite decide_True by done. split; [done|]. by intros [? _].
  - rewrite decide_False by done. rewrite IH. split; [done|]. by intros [_ ?].
Qed.

Lemma primaries_app l k : primaries (l ++ k) = primaries l ++ primaries k.
Proof. apply filter_app. Qed.

Lemma resetPrimary_primaries photos : primaries (Profiles.resetPrimary photos) = [].
Proof.
  apply primaries_nil_iff. unfold Profiles.resetPrimary.
  by apply Forall_fmap, Forall_true.
Qed.

(** Marking one slot of an array without a primary photo. *)
Lemma primaries_insert photos i ph :
  primaries photos = [] → i < length photos →
  primaries (<[i := Photo.setPrimary true ph]> photos)
  = [Photo.setPrimary true ph].
Proof.
  unfold primaries. revert i.
  induction photos as [|x photos IH]; intros i Hnil Hi; [simpl in Hi; lia|].
  rewrite filter_cons in Hnil.
  destruct (decide (Photo.isPrimary x = true)) as [|Hx]; [done|].
  destruct i as [|i]; simpl.
  - rewrite filter_cons, decide_True by done. by rewrite Hnil.
  - rewrite filter_cons, decide_False by done. apply IH; [done|simpl in Hi; lia].
Qed.

Lemma primaries_pull id photos :
  primaries (Profiles.pull id photos) `sublist_of` primaries photos.
Proof.
  unfold primaries, Profiles.pull. destruct id as [i|]; [|done].
  induction photos as [|x l IH]; [done|].
  rewrite (filter_cons (λ ph, Photo._id ph ≠ i)).
  destruct (decide (Photo._id x ≠ i)).
  - rewrite !filter_cons. destruct (decide (Photo.isPrimary x = true)).
    + by apply sublist_skip.
    + done.
  - rewrite filter_cons. destruct (decide (Photo.isPrimary x = true)).
    + by apply sublist_cons.
    + done.
Qed.

Lemma atMostOnePrimary_pull id photos :
  atMostOnePrimary photos → atMostOnePrimary (Profiles.pull id photos).
Proof.
  unfold atMostOnePrimary. intros Hle. etrans; [|exact Hle].
  apply sublist_length, primaries_pull.
Qed.

Lemma photoById_reset k photos :
  Profiles.photoById k (Profiles.resetPrimary photos)
  = prod_map id (Photo.setPrimary false) <$> Profiles.photoById k photos.
Proof.
  unfold Profiles.photoById, Profiles.resetPrimary.
  destruct k as [i|]; [|done]. simpl.
  by rewrite list_find_fmap.
Qed.

Lemma atMostOnePrimary_setPrimary id photos :
  atMostOnePrimary (Profiles.markPrimary id (Profiles.resetPrimary photos)).
Proof.
  unfold atMostOnePrimary, Profiles.markPrimary.
  destruct (Profiles.photoById id _) as [[i ph]|] eqn:E.
  - rewrite primaries_insert; [simpl; lia|apply resetPrimary_primaries|].
    unfold Profiles.photoById in E. destruct id as [k|]; [|done]. simpl in E.
    apply list_find_Some in E as (Hi & _). by eapply lookup_lt_Some.
  - rewrite resetPrimary_primaries. simpl. lia.
Qed.

(** Uploads: only the file at index 0 can be flagged. *)
Lemma primaries_imap_none {A} (f : nat → A → Photo.t) (l : list A) :
  (∀ i x, Photo.isPrimary (f i x) = false) → primaries (imap f l) = [].
Proof.
  intros Hf. apply primaries_nil_iff. revert f Hf.
  induction l as [|x l IH]; intros f Hf; [done|].
  simpl. constructor; [done|]. apply IH. intros i y. apply Hf.
Qed.

Lemma atMostOnePrimary_imap {A} (f : nat → A → Photo.t) (l : list A) :
  (∀ i x, i ≠ 0 → Photo.isPrimary (f i x) = false) →
  atMostOnePrimary (imap f l).
Proof.
  intros Hf. unfold atMostOnePrimary. destruct l as [|x l]; [simpl; lia|].
  simpl. unfold primaries at 1. rewrite filter_cons.
  fold (primaries (imap (f ∘ S) l)).
  rewrite primaries_imap_none by (intros i y; by apply Hf).
  case_decide; simpl; lia.
Qed.

Lemma atMostOnePrimary_create req :
  atMostOnePrimary (Profiles.createPhotos req).
Proof.
  apply atMostOnePrimary_imap. intros i x Hi. simpl.
  by rewrite bool_decide_eq_false_2.
Qed.

Lemma atMostOnePrimary_edit req p :
  atMostOnePrimary (RishtaProfile.photos p) →
  atMostOnePrimary (RishtaProfile.photos p ++ Profiles.editPhotos req p).
Proof.
  intros Hp. unfold atMostOnePrimary. rewrite primaries_app, length_app.
  destruct (RishtaProfile.photos p) as [|ph phs] eqn:E.
  - simpl. apply atMostOnePrimary_imap. intros i x Hi. simpl.
    rewrite (bool_decide_eq_false_2 (i = 0)) by done. apply andb_false_r.
  - unfold Profiles.editPhotos. rewrite primaries_imap_none.
    + unfold atMostOnePrimary in Hp. simpl. lia.
    + intros i x. simpl. by rewrite E.
Qed.

(** ** The primary-photo invariant along the routes *)

Lemma photosInvariant_elem st p :
  photosInvariant st → p ∈ profiles st → atMostOnePrimary (RishtaProfile.photos p).
Proof. unfold photosInvariant. rewrite Forall_forall. eauto. Qed.

Lemma photosInvariant_found st (P : RishtaProfile.t → Prop)
    `{∀ p, Decision (P p)} p :
  photosInvariant st → findOne P (profiles st) = Some p →
  atMostOnePrimary (RishtaProfile.photos p).
Proof.
  intros Hinv Hf. apply findOne_elem in Hf as [? _].
  by eapply photosInvariant_elem.
Qed.

Lemma saveProfile_photosInvariant p st st' :
  saveProfile p st = Some st' →
  atMostOnePrimary (RishtaProfile.photos p) →
  photosInvariant st → photosInvariant st'.
Proof.
  unfold saveProfile. case_match; [|done]. intros [= <-] Hp Hinv.
  by apply updateOne_Forall.
Qed.

Lemma saveNewProfile_photosInvariant p st st' :
  Profiles.saveNewProfile p st = Some st' →
  atMostOnePrimary (RishtaProfile.photos p) →
  photosInvariant st → photosInvariant st'.
Proof.
  unfold Profiles.saveNewProfile. repeat case_match; try done.
  intros [= <-] Hp Hinv. unfold photosInvariant, insertOne. simpl.
  apply Forall_app. split; [done|]. by constructor.
Qed.

Lemma markProfileCompleted_profiles id st :
  profiles (Profiles.markProfileCompleted id st) = profiles st.
Proof. unfold Profiles.markProfileCompleted. by case_match. Qed.

Lemma savePayment_profiles p st st' :
  savePayment p st = Some st' → profiles st' = profiles st.
Proof. unfold savePayment. case_match; [|done]. by intros [= <-]. Qed.

(** The guards of a route, and the cases of its body. *)
Ltac route :=
  unfold isAuthenticated, isAdmin, hasPaid;
  repeat case_match; simplify_eq/=; try done.

Section Invariant.
Context `{Runtime}.

Lemma createProfile_photosInvariant req st :
  photosInvariant st → photosInvariant (Profiles.createProfile req st).2.
Proof.
  intros Hinv. unfold Profiles.createProfile. route.
  unfold photosInvariant. rewrite markProfileCompleted_profiles.
  eapply saveNewProfile_photosInvariant; [done| |done].
  apply atMostOnePrimary_create.
Qed.

Lemma editProfile_photosInvariant req st :
  photosInvariant st → photosInvariant (Profiles.editProfile req st).2.
Proof.
  intros Hinv. unfold Profiles.editProfile. route.
  - eapply saveProfile_photosInvariant; [done| |done]. simpl.
    apply atMostOnePrimary_edit. by eapply photosInvariant_found.
  - eapply saveProfile_photosInvariant; [done| |done]. simpl.
    by eapply photosInvariant_found.
Qed.

Lemma deletePhoto_photosInvariant req st :
  photosInvariant st → photosInvariant (Profiles.deletePhoto req st).2.
Proof.
  intros Hinv. unfold Profiles.deletePhoto. route.
  eapply saveProfile_photosInvariant; [done| |done]. simpl.
  apply atMostOnePrimary_pull. by eapply photosInvariant_found.
Qed.

Lemma setPrimaryPhoto_photosInvariant req st :
  photosInvariant st → photosInvariant (Profiles.setPrimaryPhoto req st).2.
Proof.
  intros Hinv. unfold Profiles.setPrimaryPhoto. route.
  eapply saveProfile_photosInvariant; [done| |done]. simpl.
  apply atMostOnePrimary_setPrimary.
Qed.

Lemma reviewProfile_photosInvariant req st :
  photosInvariant st → photosInvariant (Admin.reviewProfile req st).2.
Proof.
  intros Hinv. unfold Admin.reviewProfile. route.
  eapply saveProfile_photosInvariant; [done| |done].
  unfold Admin.review. repeat case_decide; simpl;
    by eapply photosInvariant_found.
Qed.

Lemma togglePublish_photosInvariant req st :
  photosInvariant st → photosInvariant (Admin.togglePublish req st).2.
Proof.
  intros Hinv. unfold Admin.togglePublish.
  route; (eapply saveProfile_photosInvariant; [done| |done]); simpl;
    by eapply photosInvariant_found.
Qed.

Lemma verifyPayment_profiles req st :
  profiles (Payments.verifyPayment req st).2 = profiles st.
Proof.
  unfold Payments.verifyPayment. route;
    try (erewrite savePayment_profiles by done); done.
Qed.

Lemma cancelPayment_profiles req st :
  profiles (Payments.cancelPayment req st).2 = profiles st.
Proof.
  unfold Payments.cancelPayment. route.
  by erewrite savePayment_profiles.
Qed.

Lemma handle_photosInvariant op st :
  photosInvariant st → photosInvariant (handle op st).2.
Proof.
  intros Hinv. destruct op; simpl.
  - by apply createProfile_photosInvariant.
  - by apply editProfile_photosInvariant.
  - by apply deletePhoto_photosInvariant.
  - by apply setPrimaryPhoto_photosInvariant.
  - by apply reviewProfile_photosInvariant.
  - by apply togglePublish_photosInvariant.
  - unfold photosInvariant. by rewrite verifyPayment_profiles.
  - unfold photosInvariant. by rewrite cancelPayment_profiles.
Qed.

(** C2.  From a store in which every profile has at most one primary
    photo (the empty collection is one), every store that a sequence of
    requests goes through keeps the property: after each creation with
    uploads, edit with uploads, photo removal, set-primary request, and
    each request of the other routes. *)
Theorem atMostOnePrimary_always st ops :
  photosInvariant st → Forall photosInvariant (trace st ops).
Proof.
  revert st. induction ops as [|op ops IH]; intros st Hinv; [constructor|].
  simpl. constructor.
  - by apply handle_photosInvariant.
  - by apply IH, handle_photosInvariant.
Qed.
End Invariant.

(** ** The set-primary route *)

(** The validators of a photo do not read [isPrimary]. *)
Lemma validate_resetPrimary b photos :
  forallb Photo.validate (Photo.setPrimary b <$> photos)
  = forallb Photo.validate photos.
Proof.
  induction photos as [|ph l IH]; [done|].
  rewrite fmap_cons. simpl. by rewrite IH.
Qed.

Lemma forallb_insert {A} (f : A → bool) (l : list A) i x :
  forallb f l = true → f x = true → forallb f (<[i := x]> l) = true.
Proof.
  revert i. induction l as [|y l IH]; intros i Hl Hx; [done|].
  simpl in Hl. apply andb_true_iff in Hl as [Hy Hl].
  destruct i as [|i]; simpl; [by rewrite Hx|]. rewrite Hy. simpl. by apply IH.
Qed.

Lemma forallb_lookup {A} (f : A → bool) (l : list A) i x :
  forallb f l = true → l !! i = Some x → f x = true.
Proof.
  revert i. induction l as [|y l IH]; intros i Hl Hi; [done|].
  simpl in Hl. apply andb_true_iff in Hl as [Hy Hl].
  destruct i as [|i]; simpl in Hi; [by injection Hi as <-|]. by eapply IH.
Qed.

Lemma photoById_None_reset k photos :
  Profiles.photoById k photos = None →
  Profiles.markPrimary k (Profiles.resetPrimary photos)
  = Profiles.resetPrimary photos.
Proof.
  intros Hn. unfold Profiles.markPrimary.
  by rewrite photoById_reset, Hn.
Qed.

(** C8, the behaviour the claim misses.  When the identifier names no photo
    of the owner's profile, [setPrimaryPhoto] does not answer 'not found':
    it answers 200 'Primary photo updated successfully', and the profile is
    saved with every photo reset to non-primary. *)
Theorem setPrimaryPhoto_unknown_id req st u user p :
  Profiles.photoSession req = Some u →
  findById (Session._id u) (users st) = Some user →
  User.isPaid user = true →
  findOne (λ q, RishtaProfile.userId q = Session._id u) (profiles st) = Some p →
  RishtaProfile.validate p = true →
  Profiles.photoById (Profiles.photoId req) (RishtaProfile.photos p) = None →
  let p' :=
    RishtaProfile.setPhotos (Photo.setPrimary false <$> RishtaProfile.photos p) p in
  let st' := withProfiles (updateOne p' (profiles st)) st in
  Profiles.setPrimaryPhoto req st = (primaryUpdated, st')
  ∧ findOne (λ q, RishtaProfile.userId q = Session._id u) (profiles st') = Some p'
  ∧ primaries (RishtaProfile.photos p') = [].
Proof.
  intros Hs Hu Hpaid Hf Hv Hn p' st'.
  assert (RishtaProfile.validate p' = true) as Hv'.
  { unfold RishtaProfile.validate in *. simpl.
    by rewrite validate_resetPrimary. }
  split; [|split].
  - unfold Profiles.setPrimaryPhoto, isAuthenticated. rewrite Hs.
    erewrite hasPaid_paid by done. rewrite Hf.
    rewrite photoById_None_reset by done.
    unfold saveProfile. fold (Profiles.resetPrimary (RishtaProfile.photos p)).
    change (RishtaProfile.setPhotos _ p) with p'. by rewrite Hv'.
  - simpl. eapply findOne_updateOne; [exact Hf|done|].
    by apply findOne_elem in Hf as [_ ?].
  - apply resetPrimary_primaries.
Qed.

(** C8, the failing input: the owner of the sample profile, whose photo 100
    is primary, asks for the unknown photo 999. *)
Lemma setPrimaryPhoto_unknown_id_witness :
  let req := Profiles.mkPhotoRequest (Some Sample.ownerSession) (Some 999%N) in
  let p := Sample.profileWith RishtaProfile.submitted false in
  let p' :=
    RishtaProfile.mk 10 2 Sample.details
      [Photo.mk 100 (js "https://img/a.jpg") (js "a") false; Sample.photoB]
      RishtaProfile.submitted false None None None 0 None 1000 in
  (Profiles.photoSession req = Some Sample.ownerSession
   ∧ findById 2%N (users Sample.submittedStore) = Some Sample.owner
   ∧ User.isPaid Sample.owner = true
   ∧ findOne (λ q, RishtaProfile.userId q = 2%N)
             (profiles Sample.submittedStore) = Some p
   ∧ RishtaProfile.validate p = true
   ∧ Profiles.photoById (Some 999%N) (RishtaProfile.photos p) = None)
  ∧ Profiles.setPrimaryPhoto req Sample.submittedStore
    = (primaryUpdated, Sample.storeWith p' [])
  ∧ Profiles.setPrimaryPhoto req Sample.submittedStore ≠
    (photoNotFound, Sample.submittedStore).
Proof.
  intros req p p'. split; [repeat split; reflexivity|].
  split.
  - exact (proj1 (setPrimaryPhoto_unknown_id req Sample.submittedStore
                    Sample.ownerSession Sample.owner p
                    eq_refl eq_refl eq_refl eq_refl eq_refl eq_refl)).
  - rewrite (proj1 (setPrimaryPhoto_unknown_id req Sample.submittedStore
                      Sample.ownerSession Sample.owner p
                      eq_refl eq_refl eq_refl eq_refl eq_refl eq_refl)).
    discriminate.
Defined.

(** X1 (the second half of C8).  When the identifier names a photo of the
    owner's profile, every photo is reset and that photo is marked: it is
    the one primary photo of the saved profile. *)
Lemma setPrimaryPhoto_known_id req st u user p i ph :
  Profiles.photoSession req = Some u →
  findById (Session._id u) (users st) = Some user →
  User.isPaid user = true →
  findOne (λ q, RishtaProfile.userId q = Session._id u) (profiles st) = Some p →
  RishtaProfile.validate p = true →
  Profiles.photoById (Profiles.photoId req) (RishtaProfile.photos p) = Some (i, ph) →
  let photos' :=
    <[i := Photo.setPrimary true ph]>
      (Photo.setPrimary false <$> RishtaProfile.photos p) in
  let p' := RishtaProfile.setPhotos photos' p in
  let st' := withProfiles (updateOne p' (profiles st)) st in
  Profiles.setPrimaryPhoto req st = (primaryUpdated, st')
  ∧ findOne (λ q, RishtaProfile.userId q = Session._id u) (profiles st') = Some p'
  ∧ primaries photos' = [Photo.setPrimary true ph].
Proof.
  intros Hs Hu Hpaid Hf Hv Hn photos' p' st'.
  assert (i < length (RishtaProfile.photos p) ∧ RishtaProfile.photos p !! i = Some ph)
    as [Hlt Hi].
  { unfold Profiles.photoById in Hn.
    destruct (Profiles.photoId req) as [k|]; [|done]. simpl in Hn.
    apply list_find_Some in Hn as (Hi & _). split; [|done].
    by eapply lookup_lt_Some. }
  assert (Profiles.markPrimary (Profiles.photoId req)
            (Profiles.resetPrimary (RishtaProfile.photos p)) = photos') as Hmark.
  { unfold Profiles.markPrimary. rewrite photoById_reset, Hn. simpl.
    unfold photos', Profiles.resetPrimary. by destruct ph. }
  assert (RishtaProfile.validate p' = true) as Hv'.
  { unfold RishtaProfile.validate in *. simpl.
    apply andb_true_iff in Hv as [-> Hph]. simpl.
    apply forallb_insert; [by rewrite validate_resetPrimary|].
    by apply (forallb_lookup _ _ _ _ Hph Hi). }
  split; [|split].
  - unfold Profiles.setPrimaryPhoto, isAuthenticated. rewrite Hs.
    erewrite hasPaid_paid by done. rewrite Hf, Hmark.
    unfold saveProfile. change (RishtaProfile.setPhotos _ p) with p'.
    by rewrite Hv'.
  - simpl. eapply findOne_updateOne; [exact Hf|done|].
    by apply findOne_elem in Hf as [_ ?].
  - unfold photos'. apply primaries_insert.
    + apply (resetPrimary_primaries (RishtaProfile.photos p)).
    + by rewrite length_fmap.
Qed.

(** X1, witness: the owner of the sample profile makes photo 101 the
    primary one; photo 100 loses the flag. *)
Lemma setPrimaryPhoto_known_id_witness :
  let req := Profiles.mkPhotoRequest (Some Sample.ownerSession) (Some 101%N) in
  let p := Sample.profileWith RishtaProfile.submitted false in
  let photos' :=
    [Photo.mk 100 (js "https://img/a.jpg") (js "a") false;
     Photo.mk 101 (js "https://img/b.jpg") (js "b") true] in
  (Profiles.photoSession req = Some Sample.ownerSession
   ∧ findById 2%N (users Sample.submittedStore) = Some Sample.owner
   ∧ User.isPaid Sample.owner = true
   ∧ findOne (λ q, RishtaProfile.userId q = 2%N)
             (profiles Sample.submittedStore) = Some p
   ∧ RishtaProfile.validate p = true
   ∧ Profiles.photoById (Some 101%N) (RishtaProfile.photos p)
     = Some (1, Sample.photoB))
  ∧ Profiles.setPrimaryPhoto req Sample.submittedStore
    = (primaryUpdated,
       Sample.storeWith (RishtaProfile.setPhotos photos' p) [])
  ∧ primaries photos' = [Photo.mk 101 (js "https://img/b.jpg") (js "b") true].
Proof.
  intros req p photos'. split; [repeat split; reflexivity|].
  destruct (setPrimaryPhoto_known_id req Sample.submittedStore
              Sample.ownerSession Sample.owner p 1 Sample.photoB
              eq_refl eq_refl eq_refl eq_refl eq_refl eq_refl)
    as (Hresp & _ & Hprim).
  split; [exact Hresp|exact Hprim].
Defined.

(** ** Creation and edit *)

Section CreateEdit.
Context `{Runtime}.

(** C5 (amended).  For a signed-in user who already has a profile,
    [createProfile] never writes: the store after the request is the store
    before it, so no second document is created and the existing one is
    unchanged.  When the user is paid and the validator chain reported
    nothing, the answer is the conflict: a redirect to the edit form with
    'You already have a profile. You can edit it instead.' *)
Theorem createProfile_existing req st u existing :
  Profiles.formSession req = Some u →
  findOne (λ p, RishtaProfile.userId p = Session._id u) (profiles st)
  = Some existing →
  (Profiles.createProfile req st).2 = st
  ∧ (∀ user,
       findById (Session._id u) (users st) = Some user →
       User.isPaid user = true →
       Profiles.validationErrors req = [] →
       (Profiles.createProfile req st).1 = conflictResponse).
Proof.
  intros Hs Hf. split.
  - unfold Profiles.createProfile. rewrite Hs. route.
  - intros user Hu Hp He.
    unfold Profiles.createProfile, isAuthenticated. rewrite Hs.
    erewrite hasPaid_paid by done. by rewrite He, Hf.
Qed.

(** C4.  For the signed-in owner of a stored profile [p]: every edit that
    answers with success leaves as the owner's profile [edited req d p],
    where [d] are the descriptive paths built from the form: status
    [submitted], [published = false], the old photos followed by the
    uploaded ones, every other path as in [p].  And the edit does succeed
    when the owner is paid, the validator chain reported nothing, the form
    has its nested objects and the profile written passes the schema. *)
Theorem editProfile_resubmits req st u p :
  Profiles.formSession req = Some u →
  findOne (λ q, RishtaProfile.userId q = Session._id u) (profiles st) = Some p →
  (∀ st',
     Profiles.editProfile req st = (editedResponse, st') →
     ∃ details,
       Profiles.detailsOf (Profiles.body req) = Some details
       ∧ st' = withProfiles (updateOne (edited req details p) (profiles st)) st
       ∧ findOne (λ q, RishtaProfile.userId q = Session._id u) (profiles st')
         = Some (edited req details p))
  ∧ (∀ user details,
       findById (Session._id u) (users st) = Some user →
       User.isPaid user = true →
       Profiles.validationErrors req = [] →
       Profiles.detailsOf (Profiles.body req) = Some details →
       RishtaProfile.validate (edited req details p) = true →
       Profiles.editProfile req st
       = (editedResponse,
          withProfiles (updateOne (edited req details p) (profiles st)) st)).
Proof.
  intros Hs Hf.
  split.
  - intros st'. unfold Profiles.editProfile, isAuthenticated, hasPaid.
    rewrite Hs, Hf.
    destruct (findById _ (users st)) as [user|]; [|done].
    destruct (User.isPaid user); [|done].
    destruct (negb _); [done|].
    destruct (Profiles.detailsOf _) as [details|]; [|done].
    cbv zeta.
    match goal with
    | |- context [saveProfile ?x st] =>
        replace x with (edited req details p)
          by (unfold edited; case_bool_decide as Hlen; simpl; [done|];
              destruct (Profiles.editPhotos req p); [|simpl in Hlen; lia];
              by rewrite app_nil_r)
    end.
    unfold saveProfile.
    destruct (RishtaProfile.validate _); [|done].
    intros [= <-]. exists details. split; [done|]. split; [done|]. simpl.
    eapply findOne_updateOne; [exact Hf|done|].
    simpl. by apply findOne_elem in Hf as [_ ?].
  - intros user details Hu Hp He Hd Hv.
    unfold Profiles.editProfile, isAuthenticated. rewrite Hs.
    erewrite hasPaid_paid by done. rewrite He, Hf, Hd. simpl.
    cbv zeta.
    match goal with
    | |- context [saveProfile ?x st] =>
        replace x with (edited req details p)
          by (unfold edited; case_bool_decide as Hlen; simpl; [done|];
              destruct (Profiles.editPhotos req p); [|simpl in Hlen; lia];
              by rewrite app_nil_r)
    end.
    unfold saveProfile. by rewrite Hv.
Qed.
End CreateEdit.

(** C4, witness: the owner edits the approved and published sample profile
    and uploads one photo. *)
Lemma editProfile_resubmits_witness :
  let req := Sample.formRequest Sample.ownerSession [] Sample.form in
  let p := Sample.profileWith RishtaProfile.approved true in
  let p' :=
    RishtaProfile.mk 10 2 Sample.formDetails
      [Sample.photoA; Sample.photoB;
       Photo.mk 200 (js "https://img/c.jpg") (js "c") false]
      RishtaProfile.submitted false None None None 0 None 1000 in
  (Profiles.formSession req = Some Sample.ownerSession
   ∧ findOne (λ q, RishtaProfile.userId q = 2%N) (profiles Sample.approvedStore)
     = Some p)
  ∧ @Profiles.editProfile Sample.runtime req Sample.approvedStore
    = (editedResponse, Sample.storeWith p' []).
Proof.
  intros req p p'. split; [split; reflexivity|].
  exact (proj2 (editProfile_resubmits (H:=Sample.runtime) req
                  Sample.approvedStore Sample.ownerSession p eq_refl eq_refl)
               Sample.owner Sample.formDetails
               eq_refl eq_refl eq_refl eq_refl eq_refl).
Defined.

(** C5, witness: the owner of the sample profile posts a valid form. *)
Lemma createProfile_existing_witness :
  let req := Sample.formRequest Sample.ownerSession [] Sample.form in
  let p := Sample.profileWith RishtaProfile.submitted false in
  (Profiles.formSession req = Some Sample.ownerSession
   ∧ findOne (λ q, RishtaProfile.userId q = 2%N)
             (profiles Sample.submittedStore) = Some p)
  ∧ @Profiles.createProfile Sample.runtime req Sample.submittedStore
    = (conflictResponse, Sample.submittedStore).
Proof.
  intros req p. split; [split; reflexivity|].
  destruct (createProfile_existing (H:=Sample.runtime) req
              Sample.submittedStore Sample.ownerSession p eq_refl eq_refl)
    as [Hst Hresp].
  specialize (Hresp Sample.owner eq_refl eq_refl eq_refl).
  destruct (Profiles.createProfile req Sample.submittedStore) as [resp st'].
  simpl in Hst, Hresp. by rewrite Hst, Hresp.
Defined.

(** C5, counterexample: the owner of the sample profile posts a form with
    the gender 'unknown'.  The validator chain reports it and the route
    renders the form with the errors before it looks for a profile: the
    answer is not the conflict, on any platform. *)
Lemma createProfile_validation_first :
  ¬ ∃ RT : Runtime,
      (@Profiles.createProfile RT
         (Sample.formRequest Sample.ownerSession
            [js "Please select a valid gender"] Sample.badForm)
         Sample.submittedStore).1
      = conflictResponse.
Proof. intros [RT Heq]. discriminate Heq. Qed.

(** ** Payments *)

Lemma savePayment_insert p' p st :
  Payment.validate p' = true →
  findById (Payment._id p') (payments st) = Some p →
  ∃ i, payments st !! i = Some p
       ∧ savePayment p' st = Some (withPayments (<[i := p']> (payments st)) st).
Proof.
  intros Hv Hf. unfold savePayment. rewrite Hv.
  apply (updateOne_insert p') in Hf as (i & Hi & ->). eauto.
Qed.

Lemma saveUser_insert u' u st :
  findById (User._id u') (users st) = Some u →
  ∃ j, users st !! j = Some u
       ∧ saveUser u' st = withUsers (<[j := u']> (users st)) st.
Proof.
  intros Hf. unfold saveUser.
  apply (updateOne_insert u') in Hf as (j & Hj & ->). eauto.
Qed.

Lemma includes_false (arr : list string) (v : jsvalue) :
  Forall (λ s, v ≠ Some (js s)) arr → includes arr v = false.
Proof.
  intros Hall. unfold includes. destruct v as [s|]; [|done].
  apply bool_decide_eq_false_2. intros Hin.
  apply list_elem_of_fmap in Hin as (x & -> & Hx).
  rewrite Forall_forall in Hall. by apply (Hall x).
Qed.

Section Verify.
Context (req : Payments.VerifyRequest) (st : Store) (admin : Session.t)
  (id : ObjectId) (p : Payment.t).
Hypothesis Hsession : Payments.verifySession req = Some admin.
Hypothesis Hrole : Session.role admin = User.admin.
Hypothesis Hid : Payments.verifyId req = Some id.
Hypothesis Hfound : findById id (payments st) = Some p.
Hypothesis Hvalid : Payment.validate p = true.

Lemma verifyPayment_save s users' :
  ∃ i, payments st !! i = Some p
    ∧ savePayment (verified req admin s p)
        (mkStore users' (profiles st) (payments st))
      = Some (mkStore users' (profiles st)
                (<[i := verified req admin s p]> (payments st))).
Proof.
  pose proof (findById_modelId _ _ _ Hfound) as Hm.
  destruct (savePayment_insert (verified req admin s p) p
              (mkStore users' (profiles st) (payments st)))
    as (i & Hi & ->); [exact Hvalid|simpl; by rewrite <- Hm in Hfound|eauto].
Qed.

(** A verification with a status other than 'completed' writes the payment
    only. *)
Lemma verifyPayment_other name s :
  (name, s) ∈ [("failed", Payment.failed); ("cancelled", Payment.cancelled)] →
  Payments.status req = Some (js name) →
  ∃ i, payments st !! i = Some p
    ∧ Payments.verifyPayment req st
      = (Json 200 true (js "Payment " ++ js name ++ js " successfully")
           (PaymentPayload (verified req admin s p)),
         mkStore (users st) (profiles st)
           (<[i := verified req admin s p]> (payments st))).
Proof.
  intros Hin Hn.
  destruct (verifyPayment_save s (users st)) as (i & Hi & Hip).
  exists i. split; [done|].
  unfold Payments.verifyPayment, isAuthenticated. rewrite Hsession.
  rewrite isAdmin_admin by done. rewrite Hid, Hfound, Hn.
  assert (includes ["completed"; "failed"; "cancelled"] (Some (js name)) = true
          ∧ Some (js name) ≫= Payment.statusOfString = Some s
          ∧ Some (js name) ≠ Some (js "completed")) as (-> & -> & Hne).
  { apply elem_of_cons in Hin as [[= -> ->]|Hin]; [done|].
    apply elem_of_cons in Hin as [[= -> ->]|Hin]; [done|].
    by apply not_elem_of_nil in Hin. }
  cbv iota beta zeta. unfold negb.
  rewrite decide_False by done.
  change (Payment.setVerificationNotes _ _) with (verified req admin s p).
  destruct st as [us ps pays]. simpl in Hip |- *. by rewrite Hip.
Qed.

(** C7.  For an administrator and a stored payment [p] that passes its
    schema: a status other than 'completed', 'failed' and 'cancelled' is
    answered with 400 'Invalid status' and nothing changes; 'completed'
    writes [verified req admin completed p] (that status, the administrator,
    the time of the request, the notes through the trimming String path)
    and sets [isPaid] of the owning user; 'failed' and 'cancelled' write the
    payment with that status and leave the users as they were. *)
Theorem verifyPayment_spec :
  (Payments.status req ≠ Some (js "completed") →
   Payments.status req ≠ Some (js "failed") →
   Payments.status req ≠ Some (js "cancelled") →
   Payments.verifyPayment req st = (invalidStatus, st))
  ∧ (Payments.status req = Some (js "completed") →
     ∀ owner, findById (Payment.userId p) (users st) = Some owner →
     ∃ i j, payments st !! i = Some p ∧ users st !! j = Some owner
       ∧ Payments.verifyPayment req st
         = (Json 200 true (js "Payment completed successfully")
              (PaymentPayload (verified req admin Payment.completed p)),
            mkStore (<[j := User.setIsPaid true owner]> (users st))
              (profiles st)
              (<[i := verified req admin Payment.completed p]> (payments st))))
  ∧ (Payments.status req = Some (js "failed") →
     ∃ i, payments st !! i = Some p
       ∧ Payments.verifyPayment req st
         = (Json 200 true (js "Payment failed successfully")
              (PaymentPayload (verified req admin Payment.failed p)),
            mkStore (users st) (profiles st)
              (<[i := verified req admin Payment.failed p]> (payments st))))
  ∧ (Payments.status req = Some (js "cancelled") →
     ∃ i, payments st !! i = Some p
       ∧ Payments.verifyPayment req st
         = (Json 200 true (js "Payment cancelled successfully")
              (PaymentPayload (verified req admin Payment.cancelled p)),
            mkStore (users st) (profiles st)
              (<[i := verified req admin Payment.cancelled p]> (payments st)))).
Proof.
  split; [|split; [|split]].
  - intros H1 H2 H3.
    unfold Payments.verifyPayment, isAuthenticated. rewrite Hsession.
    rewrite isAdmin_admin by done. rewrite Hid, Hfound.
    rewrite includes_false; [done|]. by repeat constructor.
  - intros Hc owner Ho.
    destruct (saveUser_insert (User.setIsPaid true owner) owner st)
      as (j & Hj & Hju).
    { pose proof (findById_modelId _ _ _ Ho) as Hmo. simpl.
      change (User._id owner) with (modelId owner). by rewrite Hmo. }
    destruct (verifyPayment_save Payment.completed
                (<[j := User.setIsPaid true owner]> (users st)))
      as (i & Hi & Hip).
    exists i, j. split; [done|]. split; [done|].
    unfold Payments.verifyPayment, isAuthenticated. rewrite Hsession.
    rewrite isAdmin_admin by done. rewrite Hid, Hfound, Hc.
    change (includes _ (Some (js "completed"))) with true.
    change (Some (js "completed") ≫= Payment.statusOfString)
      with (Some Payment.completed).
    cbv iota beta zeta. unfold negb.
    rewrite decide_True by done.
    change (Payment.userId (Payment.setVerificationNotes _ _))
      with (Payment.userId p). rewrite Ho, Hju.
    change (Payment.setVerificationNotes _ _)
      with (verified req admin Payment.completed p).
    unfold withUsers. by rewrite Hip.
  - intros Hn. apply (verifyPayment_other "failed"); [|done].
    apply list_elem_of_here.
  - intros Hn. apply (verifyPayment_other "cancelled"); [|done].
    apply list_elem_of_further, list_elem_of_here.
Qed.
End Verify.

(** C7, witness: the pending payment of an unpaid owner is verified as
    completed, as failed, and with the status 'refunded'. *)
Lemma verifyPayment_spec_witness :
  let st := Sample.storeWith (Sample.profileWith RishtaProfile.submitted false)
              [Sample.paymentWith Payment.pending] in
  let unpaid := User.mk 2 true false User.user true in
  let st0 := withUsers [Sample.adminUser; unpaid; Sample.newcomer] st in
  let req s := Payments.mkVerifyRequest (Some Sample.adminSession) (Some 50%N)
                 (Some (js s)) (Some (js " receipt checked ")) 4000 in
  let p := Sample.paymentWith Payment.pending in
  let p' s :=
    Payment.mk 50 2 (Int 5000) (Some (js "PKR")) (Some (js "easypaisa"))
      (Some (js "registration")) s (Some (js "TXN1")) None None None None
      None (Some 1%N) (Some 4000%Z) (Some (js "receipt checked")) 500 in
  (Payments.verifySession (req "completed") = Some Sample.adminSession
   ∧ Session.role Sample.adminSession = User.admin
   ∧ Payments.verifyId (req "completed") = Some 50%N
   ∧ findById 50%N (payments st0) = Some p
   ∧ Payment.validate p = true
   ∧ findById (Payment.userId p) (users st0) = Some unpaid)
  ∧ (∃ i j, payments st0 !! i = Some p ∧ users st0 !! j = Some unpaid
       ∧ Payments.verifyPayment (req "completed") st0
         = (Json 200 true (js "Payment completed successfully")
              (PaymentPayload (p' Payment.completed)),
            mkStore (<[j := Sample.owner]> (users st0)) (profiles st0)
              (<[i := p' Payment.completed]> (payments st0))))
  ∧ (∃ i, payments st0 !! i = Some p
       ∧ Payments.verifyPayment (req "failed") st0
         = (Json 200 true (js "Payment failed successfully")
              (PaymentPayload (p' Payment.failed)),
            mkStore (users st0) (profiles st0)
              (<[i := p' Payment.failed]> (payments st0))))
  ∧ Payments.verifyPayment (req "refunded") st0 = (invalidStatus, st0).
Proof.
  intros st unpaid st0 req p p'. split; [repeat split; reflexivity|].
  split; [|split].
  - exact (proj1 (proj2 (verifyPayment_spec (req "completed") st0
                           Sample.adminSession 50%N p
                           eq_refl eq_refl eq_refl eq_refl eq_refl))
             eq_refl unpaid eq_refl).
  - exact (proj1 (proj2 (proj2 (verifyPayment_spec (req "failed") st0
                                  Sample.adminSession 50%N p
                                  eq_refl eq_refl eq_refl eq_refl eq_refl)))
             eq_refl).
  - apply (proj1 (verifyPayment_spec (req "refunded") st0
                    Sample.adminSession 50%N p
                    eq_refl eq_refl eq_refl eq_refl eq_refl)); discriminate.
Defined.

(** *** Terminal statuses *)

(** The statuses a verification accepts. *)
Lemma includes_statusOfString v s :
  includes ["completed"; "failed"; "cancelled"] v = true →
  v ≫= Payment.statusOfString = Some s →
  s ≠ Payment.pending.
Proof.
  unfold includes. destruct v as [str|]; [|done].
  intros Hin%bool_decide_eq_true_1. simpl.
  apply elem_of_cons in Hin as [->|Hin]; [by intros [= <-]|].
  apply elem_of_cons in Hin as [->|Hin]; [by intros [= <-]|].
  apply elem_of_cons in Hin as [->|Hin]; [by intros [= <-]|].
  by apply not_elem_of_nil in Hin.
Qed.

Lemma savePayment_payments p st st' :
  savePayment p st = Some st' → payments st' = updateOne p (payments st).
Proof. unfold savePayment. case_match; [|done]. by intros [= <-]. Qed.

Lemma verifyPayment_payments req st :
  payments (Payments.verifyPayment req st).2 = payments st
  ∨ ∃ p s, Payment.status p = s ∧ s ≠ Payment.pending
      ∧ payments (Payments.verifyPayment req st).2 = updateOne p (payments st).
Proof.
  unfold Payments.verifyPayment. route; try (by left).
  all: right; eexists _, _; split; [reflexivity|]; split;
    [|erewrite savePayment_payments by done; done].
  all: simpl; eapply includes_statusOfString; [|done];
    by apply negb_false_iff.
Qed.

Lemma cancelPayment_payments req st :
  payments (Payments.cancelPayment req st).2 = payments st
  ∨ ∃ u id q,
      findOne (λ p, Payment._id p = id ∧ Payment.userId p = Session._id u
                    ∧ Payment.status p = Payment.pending) (payments st) = Some q
      ∧ payments (Payments.cancelPayment req st).2
        = updateOne (Payment.setStatus Payment.cancelled q) (payments st).
Proof.
  unfold Payments.cancelPayment. route; try (by left).
  right. eexists _, _, _. split; [done|].
  by erewrite savePayment_payments.
Qed.

Lemma saveProfile_payments p st st' :
  saveProfile p st = Some st' → payments st' = payments st.
Proof. unfold saveProfile. case_match; [|done]. by intros [= <-]. Qed.

Lemma handle_payments `{Runtime} op st :
  payments (handle op st).2 = payments st
  ∨ ∃ p, Payment.status p ≠ Payment.pending
      ∧ payments (handle op st).2 = updateOne p (payments st).
Proof.
  destruct op as [req|req|req|req|req|req|req|req]; simpl.
  - left. unfold Profiles.createProfile. route.
    unfold Profiles.markProfileCompleted, Profiles.saveNewProfile in *.
    repeat case_match; by simplify_eq/=.
  - left. unfold Profiles.editProfile.
    route; by erewrite saveProfile_payments.
  - left. unfold Profiles.deletePhoto.
    route; by erewrite saveProfile_payments.
  - left. unfold Profiles.setPrimaryPhoto.
    route; by erewrite saveProfile_payments.
  - left. unfold Admin.reviewProfile.
    route; by erewrite saveProfile_payments.
  - left. unfold Admin.togglePublish.
    route; by erewrite saveProfile_payments.
  - destruct (verifyPayment_payments req st) as [?|(p & s & <- & ? & ?)];
      [by left|right; eauto].
  - destruct (cancelPayment_payments req st) as [?|(u & id & q & _ & ?)];
      [by left|right].
    exists (Payment.setStatus Payment.cancelled q). by split.
Qed.

Section Terminal.
Context `{Runtime}.

Lemma handle_notPendingAt op st i :
  notPendingAt i st → notPendingAt i (handle op st).2.
Proof.
  intros (p & Hi & Hp). unfold notPendingAt.
  destruct (handle_payments op st) as [->|(d & Hd & ->)]; [by exists p|].
  destruct (updateOne_lookup_total d (payments st) i p Hi)
    as (y & Hy & [Hyd|Hyp]); exists y; by subst.
Qed.

(** C6 (amended).  A payment that is not pending never becomes pending
    again, under any sequence of requests; and [cancelPayment] leaves it as
    it is (the [_id]s of the collection being distinct).  [verifyPayment]
    is not bound by the status it finds: see the counterexample. *)
Theorem terminal_payments st i p :
  payments st !! i = Some p →
  Payment.status p ≠ Payment.pending →
  (∀ ops, Forall (notPendingAt i) (trace st ops))
  ∧ (uniqueIds (payments st) →
     ∀ req, payments (Payments.cancelPayment req st).2 !! i = Some p).
Proof.
  intros Hi Hp. split.
  - assert (notPendingAt i st) as Hst by (by exists p).
    intros ops. clear Hi. revert st Hst.
    induction ops as [|op ops IH]; intros st Hst; [constructor|].
    simpl. constructor.
    + by apply handle_notPendingAt.
    + by apply IH, handle_notPendingAt.
  - intros Hu req.
    destruct (cancelPayment_payments req st) as [->|(u & id & q & Hq & ->)];
      [done|].
    apply findOne_Some in Hq as (k & Hk & (_ & _ & Hpend) & _).
    apply updateOne_lookup_ne; [done|]. simpl. intros Heq.
    assert (i = k) as -> by (by eapply (uniqueIds_lookup (payments st))).
    congruence.
Qed.
End Terminal.

(** C6, witness: a completed payment under a cancel, a verification and a
    second cancel. *)
Lemma terminal_payments_witness :
  let st :=
    Sample.storeWith (Sample.profileWith RishtaProfile.submitted false)
      [Sample.paymentWith Payment.completed] in
  let p := Sample.paymentWith Payment.completed in
  let verify :=
    VerifyPayment (Payments.mkVerifyRequest (Some Sample.adminSession)
                     (Some 50%N) (Some (js "failed")) None 4000) in
  let cancel :=
    Payments.mkCancelRequest (Some Sample.ownerSession) (Some 50%N) in
  (payments st !! 0 = Some p
   ∧ Payment.status p ≠ Payment.pending
   ∧ uniqueIds (payments st))
  ∧ Forall (notPendingAt 0)
      (@trace Sample.runtime st [CancelPayment cancel; verify; CancelPayment cancel])
  ∧ payments (Payments.cancelPayment cancel st).2 !! 0 = Some p.
Proof.
  intros st p verify cancel.
  assert (uniqueIds (payments st)) as Hu.
  { unfold uniqueIds. simpl. apply NoDup_singleton. }
  split; [split; [reflexivity|split; [discriminate|exact Hu]]|].
  destruct (terminal_payments (H:=Sample.runtime) st 0 p eq_refl)
    as [Hall Hcancel]; [discriminate|].
  split; [apply Hall|by apply Hcancel].
Defined.

(** C6, counterexample: an administrator verifies a completed payment as
    'failed', and its status goes from [completed] to [failed]. *)
Lemma verifyPayment_leaves_completed :
  let st :=
    Sample.storeWith (Sample.profileWith RishtaProfile.submitted false)
      [Sample.paymentWith Payment.completed] in
  let req :=
    Payments.mkVerifyRequest (Some Sample.adminSession) (Some 50%N)
      (Some (js "failed")) None 4000 in
  Payment.status <$> findById 50%N (payments st) = Some Payment.completed
  ∧ Payment.status <$> findById 50%N (payments (Payments.verifyPayment req st).2)
    = Some Payment.failed.
Proof. split; reflexivity. Qed.

(** ** The browse page *)

#[local] Instance newerFirst_trans : Transitive Main.newerFirst.
Proof. unfold Main.newerFirst. intros p q r. lia. Qed.

#[local] Instance newerFirst_total : Total Main.newerFirst.
Proof. unfold Main.newerFirst. intros p q. lia. Qed.

Lemma sortNewestFirst_sorted ps :
  StronglySorted Main.newerFirst (Main.sortNewestFirst ps).
Proof. apply StronglySorted_merge_sort; apply _. Qed.

Lemma sortNewestFirst_perm ps : Main.sortNewestFirst ps ≡ₚ ps.
Proof. apply merge_sort_Permutation. Qed.

Lemma supplied_truthy v s : supplied v = Some s → truthy v = true ∧ v = Some s.
Proof. unfold supplied. by destruct (truthy v). Qed.

Lemma supplied_None v : supplied v = None → truthy v = false.
Proof. unfold supplied. destruct (truthy v) eqn:E; [|done]. by destruct v. Qed.

Section Browse.
Context `{Runtime}.

(** The filter of the route and the two casts agree with [wanted]. *)
Lemma buildFilter_wanted q :
  answerable q →
  ∃ f lo hi,
    Main.buildFilter q = Some f
    ∧ Main.castBound (Main.ageGte f) = Some lo
    ∧ Main.castBound (Main.ageLte f) = Some hi
    ∧ ∀ p, Main.matches f lo hi p = wanted q p.
Proof.
  intros (Hcity & Hmin & Hmax & _).
  unfold Main.buildFilter, wanted, Main.matches.
  destruct (supplied (Main.city q)) as [source|] eqn:Ec.
  - apply supplied_truthy in Ec as [Etc Ec0].
    destruct (Hcity source eq_refl) as [pattern Hp].
    rewrite Etc, Ec0. simpl. rewrite Hp. simpl.
    destruct (supplied (Main.minAge q)) as [lo|] eqn:Elo;
      destruct (supplied (Main.maxAge q)) as [hi|] eqn:Ehi.
    all: try (apply supplied_truthy in Elo as [Etlo Elo0]);
         try (apply supplied_truthy in Ehi as [Ethi Ehi0]);
         try (apply supplied_None in Elo); try (apply supplied_None in Ehi).
    all: try (specialize (Hmin lo eq_refl)); try (specialize (Hmax hi eq_refl)).
    all: rewrite ?Etlo, ?Ethi, ?Elo, ?Ehi, ?Elo0, ?Ehi0; simpl.
    all: unfold parseIntOf; simpl.
    all: try (destruct (parseInt lo) as [|zlo] eqn:Ezlo; [done|]).
    all: try (destruct (parseInt hi) as [|zhi] eqn:Ezhi; [done|]).
    all: eexists _, _, _; repeat split; intros p; simpl; rewrite ?Hp;
         destruct (truthy (Main.gender q)) eqn:Eg; unfold supplied;
         rewrite Eg; simpl; try done.
    all: destruct (Main.gender q); done.
  - apply supplied_None in Ec. rewrite Ec. simpl.
    destruct (supplied (Main.minAge q)) as [lo|] eqn:Elo;
      destruct (supplied (Main.maxAge q)) as [hi|] eqn:Ehi.
    all: try (apply supplied_truthy in Elo as [Etlo Elo0]);
         try (apply supplied_truthy in Ehi as [Ethi Ehi0]);
         try (apply supplied_None in Elo); try (apply supplied_None in Ehi).
    all: try (specialize (Hmin lo eq_refl)); try (specialize (Hmax hi eq_refl)).
    all: rewrite ?Etlo, ?Ethi, ?Elo, ?Ehi, ?Elo0, ?Ehi0; simpl.
    all: unfold parseIntOf; simpl.
    all: try (destruct (parseInt lo) as [|zlo] eqn:Ezlo; [done|]).
    all: try (destruct (parseInt hi) as [|zhi] eqn:Ezhi; [done|]).
    all: eexists _, _, _; repeat split; intros p; simpl;
         destruct (truthy (Main.gender q)) eqn:Eg; unfold supplied;
         rewrite Eg; simpl; try done.
    all: destruct (Main.gender q); done.
Qed.

Lemma wanted_visible q p : wanted q p = true → visible p.
Proof.
  unfold wanted, visible. intros Hw.
  do 4 (apply andb_true_iff in Hw as [Hw _]).
  apply andb_true_iff in Hw as [Hpub Hst].
  split; [done|]. by eapply bool_decide_eq_true_1.
Qed.

Lemma browse_unanswerable q st :
  unanswerable q → Main.browse q st = RenderBrowse Main.emptyPage.
Proof.
  unfold Main.browse, Main.buildFilter, Main.findPage.
  intros [(source & Hs & Hn)|[(bound & Hs & Hn)|[(bound & Hs & Hn)|Hpage]]].
  - apply supplied_truthy in Hs as [-> ->]. simpl. by rewrite Hn.
  - apply supplied_truthy in Hs as [Ht Hv].
    destruct (if truthy (Main.city q) then _ else _) as [c|]; [|done].
    simpl. rewrite Ht, Hv. simpl. unfold parseIntOf. simpl. by rewrite Hn.
  - apply supplied_truthy in Hs as [Ht Hv].
    destruct (if truthy (Main.city q) then _ else _) as [c|]; [|done].
    simpl. rewrite Ht, Hv, orb_true_r. simpl. unfold parseIntOf at 2. simpl.
    rewrite Hn. by destruct (Main.castBound _).
  - destruct (if truthy (Main.city q) then _ else _) as [c|]; [|done].
    simpl.
    destruct (decide ((Main.pageOf q - 1) * Main.limit < 0)%Z) as [|Hn].
    + by repeat (destruct (Main.castBound _); simpl).
    + exfalso. apply Hn. unfold Main.limit. lia.
Qed.

(** C9 (amended).  A query whose city text is a pattern, whose age bounds
    are integers and whose page is positive is answered with one page of
    twelve out of the list [all] of the profiles [wanted]: exactly the
    published and approved profiles that pass every supplied filter (gender
    by equality, city by the case-insensitive pattern built from the query
    text, age within the inclusive bounds), sorted newest-created-first.
    Any other query is answered with the empty page of the [catch] block. *)
Theorem browse_page q st :
  (answerable q →
   let all :=
     Main.sortNewestFirst (filter (λ p, wanted q p = true) (profiles st)) in
   Main.browse q st = RenderBrowse (pageOfList q all)
   ∧ all ≡ₚ filter (λ p, wanted q p = true) (profiles st)
   ∧ StronglySorted Main.newerFirst all
   ∧ Forall visible all)
  ∧ (unanswerable q → Main.browse q st = RenderBrowse Main.emptyPage).
Proof.
  split; [|apply browse_unanswerable].
  intros Hq all.
  assert (all ≡ₚ filter (λ p, wanted q p = true) (profiles st)) as Hperm
    by apply sortNewestFirst_perm.
  split; [|split; [done|split; [apply sortNewestFirst_sorted|]]].
  - destruct (buildFilter_wanted q Hq) as (f & lo & hi & Hf & Hlo & Hhi & Hm).
    destruct Hq as (_ & _ & _ & Hpage).
    unfold Main.browse, Main.findPage. rewrite Hf. simpl. rewrite Hlo, Hhi. simpl.
    rewrite decide_False by (unfold Main.limit; lia).
    assert (filter (λ p, Main.matches f lo hi p = true) (profiles st)
            = filter (λ p, wanted q p = true) (profiles st)) as ->.
    { apply list_filter_iff. intros p. by rewrite Hm. }
    fold all. unfold pageOfList, Main.limit.
    rewrite <- (Permutation_length Hperm).
    replace (Z.to_nat ((Main.pageOf q - 1) * 12))
      with (12 * (Z.to_nat (Main.pageOf q) - 1)) by lia.
    replace (Z.of_nat (length all) + 12 - 1)%Z
      with (Z.of_nat (length all) + 11)%Z by lia.
    done.
  - rewrite Hperm. apply Forall_forall. intros p Hp.
    apply list_elem_of_filter in Hp as [Hw _]. by eapply wanted_visible.
Qed.
End Browse.

(** C9, witness: women in Lahore between 18 and 40, on five listings. *)
Lemma browse_page_witness :
  @answerable Sample.runtime Sample.lahoreWomen
  ∧ @Main.browse Sample.runtime Sample.lahoreWomen Sample.listings
    = RenderBrowse
        (mkBrowsePage
           [Sample.listing 24 "LAHORE Cantt" RishtaProfile.approved true 400;
            Sample.listing 21 "Lahore" RishtaProfile.approved true 100]
           1 1 false false).
Proof.
  assert (@answerable Sample.runtime Sample.lahoreWomen) as Hq.
  { repeat split.
    - intros source [= <-]. by eexists.
    - by intros bound [= <-].
    - by intros bound [= <-]. }
  split; [exact Hq|].
  exact (proj1 (proj1 (browse_page (H:=Sample.runtime) Sample.lahoreWomen
                         Sample.listings) Hq)).
Defined.

(** C9, counterexample: thirteen published and approved profiles and a query
    without filters.  The route returns twelve of them, on any platform. *)
Lemma browse_is_paged :
  ¬ ∃ RT : Runtime, ∃ pg,
      @Main.browse RT Sample.noFilter Sample.thirteen = RenderBrowse pg
      ∧ pageProfiles pg
        ≡ₚ filter (λ p, @wanted RT Sample.noFilter p = true)
                  (profiles Sample.thirteen).
Proof.
  intros (RT & pg & Hb & Hperm). apply Permutation_length in Hperm.
  injection Hb as <-. vm_compute in Hperm. discriminate.
Qed.

(** ** Stored profiles pass their schema *)

Lemma saveProfile_profilesValid p st st' :
  saveProfile p st = Some st' → profilesValid st → profilesValid st'.
Proof.
  unfold saveProfile. destruct (RishtaProfile.validate p) eqn:Hv; [|done].
  intros [= <-] Hst. by apply updateOne_Forall.
Qed.

Lemma saveNewProfile_profilesValid p st st' :
  Profiles.saveNewProfile p st = Some st' → profilesValid st → profilesValid st'.
Proof.
  unfold Profiles.saveNewProfile.
  destruct (RishtaProfile.validate p) eqn:Hv; [|done].
  destruct (findById _ _); [done|]. intros [= <-] Hst.
  unfold profilesValid, insertOne. simpl.
  apply Forall_app. split; [done|]. by constructor.
Qed.

Section Valid.
Context `{Runtime}.

Lemma handle_profilesValid op st :
  profilesValid st → profilesValid (handle op st).2.
Proof.
  intros Hst. destruct op as [req|req|req|req|req|req|req|req]; simpl.
  - unfold Profiles.createProfile. route.
    unfold profilesValid. rewrite markProfileCompleted_profiles.
    by eapply saveNewProfile_profilesValid.
  - unfold Profiles.editProfile. route; by eapply saveProfile_profilesValid.
  - unfold Profiles.deletePhoto. route; by eapply saveProfile_profilesValid.
  - unfold Profiles.setPrimaryPhoto. route; by eapply saveProfile_profilesValid.
  - unfold Admin.reviewProfile. route; by eapply saveProfile_profilesValid.
  - unfold Admin.togglePublish. route; by eapply saveProfile_profilesValid.
  - unfold profilesValid. by rewrite verifyPayment_profiles.
  - unfold profilesValid. by rewrite cancelPayment_profiles.
Qed.

(** X2.  Every write of the routes validates the document it writes: from
    a store whose profiles pass their schema, every store a sequence of
    requests goes through has only profiles that pass it.  This is the
    standing of the hypothesis [RishtaProfile.validate p = true] of the
    theorems on stored profiles. *)
Theorem profilesValid_always st ops :
  profilesValid st → Forall profilesValid (trace st ops).
Proof.
  revert st. induction ops as [|op ops IH]; intros st Hst; [constructor|].
  simpl. constructor.
  - by apply handle_profilesValid.
  - by apply IH, handle_profilesValid.
Qed.
End Valid.

(** X2, witness: an edit, an approval and a creation on the sample store. *)
Lemma profilesValid_always_witness :
  let ops :=
    [EditProfile (Sample.formRequest Sample.ownerSession [] Sample.form);
     ReviewProfile (Admin.mkReviewRequest (Some Sample.adminSession) (Some 10%N)
                      (Some (js "approve")) None 3000);
     CreateProfile (Sample.formRequest Sample.newcomerSession [] Sample.form)] in
  profilesValid Sample.submittedStore
  ∧ Forall profilesValid (@trace Sample.runtime Sample.submittedStore ops).
Proof.
  intros ops.
  assert (profilesValid Sample.submittedStore) as Hst by (by repeat constructor).
  split; [exact Hst|].
  exact (profilesValid_always (H:=Sample.runtime) Sample.submittedStore ops Hst).
Defined.

(** ** Worked runs *)

(** C2, witness: on the sample store the owner makes the second photo the
    primary one, edits with an upload, removes a photo, asks for an unknown
    photo as primary; then a newcomer creates a profile with an upload. *)
Lemma atMostOnePrimary_always_witness :
  let ops :=
    [SetPrimaryPhoto (Profiles.mkPhotoRequest (Some Sample.ownerSession) (Some 101%N));
     EditProfile (Sample.formRequest Sample.ownerSession [] Sample.form);
     DeletePhoto (Profiles.mkPhotoRequest (Some Sample.ownerSession) (Some 100%N));
     SetPrimaryPhoto (Profiles.mkPhotoRequest (Some Sample.ownerSession) (Some 999%N));
     CreateProfile (Sample.formRequest Sample.newcomerSession [] Sample.form)] in
  photosInvariant Sample.submittedStore
  ∧ Forall photosInvariant (@trace Sample.runtime Sample.submittedStore ops).
Proof.
  intros ops.
  assert (photosInvariant Sample.submittedStore) as Hinv.
  { repeat constructor. }
  split; [exact Hinv|].
  exact (atMostOnePrimary_always (H:=Sample.runtime) Sample.submittedStore ops Hinv).
Defined.

(** The run of the witness, state by state: the primary photo of the
    owner's profile, and the number of profiles. *)
Example worked_run :
  (λ st, (Photo._id <$> primaries (RishtaProfile.photos
                                     (default (Sample.profileWith
                                                 RishtaProfile.draft false)
                                        (findById 10%N (profiles st)))),
          length (profiles st)))
  <$> @trace Sample.runtime Sample.submittedStore
        [SetPrimaryPhoto (Profiles.mkPhotoRequest (Some Sample.ownerSession) (Some 101%N));
         EditProfile (Sample.formRequest Sample.ownerSession [] Sample.form);
         DeletePhoto (Profiles.mkPhotoRequest (Some Sample.ownerSession) (Some 101%N));
         SetPrimaryPhoto (Profiles.mkPhotoRequest (Some Sample.ownerSession) (Some 999%N));
         CreateProfile (Sample.formRequest Sample.newcomerSession [] Sample.form)]
  = [([101%N], 1); ([101%N], 1); ([], 1); ([], 1); ([], 2)].
Proof. reflexivity. Qed.

(** * Further properties *)

(** ** Who may write *)

Section Access.
Context `{Runtime}.

(** X3. Every route of the lifecycle stands behind [isAuthenticated]: a
    request without a session is sent to the login page and changes
    nothing. *)
Theorem unauthenticated_refused op st :
  sessionOf op = None → handle op st = (loginRedirect, st).
Proof.
  destruct op; simpl; intros Hs;
    unfold Profiles.createProfile, Profiles.editProfile, Profiles.deletePhoto,
      Profiles.setPrimaryPhoto, Admin.reviewProfile, Admin.togglePublish,
      Payments.verifyPayment, Payments.cancelPayment, isAuthenticated;
    by rewrite Hs.
Qed.

(** X4. The review, the publish toggle and the payment verification stand
    behind [isAdmin]: for a session whose role is not [admin] they answer
    with the access-denied redirect and change nothing. *)
Theorem non_admin_refused op st u :
  behindIsAdmin op = true →
  sessionOf op = Some u →
  Session.role u ≠ User.admin →
  handle op st = (accessDenied, st).
Proof.
  destruct op; simpl; try done; intros _ Hs Hrole;
    unfold Admin.reviewProfile, Admin.togglePublish, Payments.verifyPayment,
      isAuthenticated, isAdmin; rewrite Hs;
    by destruct (decide (Session.role u = User.admin)).
Qed.

(** X5. The four profile routes stand behind [hasPaid], which reads the
    account from the store: while the stored account is unpaid they answer
    with the redirect to the payment page and change nothing, whatever the
    session says about the payment. *)
Theorem unpaid_refused op st u user :
  behindHasPaid op = true →
  sessionOf op = Some u →
  findById (Session._id u) (users st) = Some user →
  User.isPaid user = false →
  handle op st = (paymentRequired, st).
Proof.
  destruct op; simpl; try done; intros _ Hs Hu Hpaid;
    unfold Profiles.createProfile, Profiles.editProfile, Profiles.deletePhoto,
      Profiles.setPrimaryPhoto, isAuthenticated, hasPaid;
    by rewrite Hs, Hu, Hpaid.
Qed.

End Access.

(** X3, witness: a photo deletion without a session. *)
Lemma unauthenticated_refused_witness :
  sessionOf (DeletePhoto (Profiles.mkPhotoRequest None (Some 100%N))) = None
  ∧ @handle Sample.runtime
      (DeletePhoto (Profiles.mkPhotoRequest None (Some 100%N)))
      Sample.submittedStore
    = (loginRedirect, Sample.submittedStore).
Proof.
  split; [reflexivity|].
  by apply (@unauthenticated_refused Sample.runtime).
Defined.

(** X4, witness: the owner of a profile tries to approve it. *)
Lemma non_admin_refused_witness :
  let op :=
    ReviewProfile (Admin.mkReviewRequest (Some Sample.ownerSession) (Some 10%N)
                     (Some (js "approve")) None 3000) in
  (behindIsAdmin op = true
   ∧ sessionOf op = Some Sample.ownerSession
   ∧ Session.role Sample.ownerSession ≠ User.admin)
  ∧ @handle Sample.runtime op Sample.submittedStore
    = (accessDenied, Sample.submittedStore).
Proof.
  assert (Session.role Sample.ownerSession ≠ User.admin) by done.
  split; [done|].
  by apply (@non_admin_refused Sample.runtime _ _ Sample.ownerSession).
Defined.

(** X5, witness: a session that says paid, of an account the store holds
    as unpaid, tries to create a profile. *)
Lemma unpaid_refused_witness :
  let paidSession := Session.mk 4 User.user true false in
  let op := CreateProfile (Sample.formRequest paidSession [] Sample.form) in
  let st := Cases.members [] in
  (behindHasPaid op = true
   ∧ sessionOf op = Some paidSession
   ∧ findById 4%N (users st) = Some Cases.unpaid
   ∧ User.isPaid Cases.unpaid = false
   ∧ Session.isPaid paidSession = true)
  ∧ @handle Sample.runtime op st = (paymentRequired, st).
Proof.
  split; [done|].
  by apply (@unpaid_refused Sample.runtime _ _ (Session.mk 4 User.user true false)
              Cases.unpaid).
Defined.

(** ** Deleting a photo *)

Lemma photoById_pull i photos :
  Profiles.photoById (Some i) (filter (λ ph, Photo._id ph ≠ i) photos) = None.
Proof.
  simpl. apply list_find_None, Forall_forall.
  intros ph [Hne _]%list_elem_of_filter. by intros ?.
Qed.

Lemma photoById_Some id photos i ph :
  Profiles.photoById id photos = Some (i, ph) →
  id = Some (Photo._id ph) ∧ photos !! i = Some ph.
Proof.
  destruct id as [k|]; [|done]. simpl.
  intros (? & <- & _)%list_find_Some. done.
Qed.

Lemma forallb_filter {A} (f : A → bool) (P : A → Prop) `{∀ x, Decision (P x)} l :
  forallb f l = true → forallb f (filter P l) = true.
Proof.
  induction l as [|x l IH]; [done|]. simpl.
  intros [Hx Hl]%andb_true_iff. rewrite filter_cons.
  destruct (decide (P x)); simpl; [rewrite Hx|]; auto.
Qed.

Lemma primaries_filter (P : Photo.t → Prop) `{∀ x, Decision (P x)} photos :
  primaries (filter P photos) = filter P (primaries photos).
Proof.
  unfold primaries. induction photos as [|x l IH]; [done|].
  rewrite !filter_cons.
  destruct (decide (P x)), (decide (Photo.isPrimary x = true));
    rewrite ?filter_cons; repeat case_decide; try done; by rewrite IH.
Qed.

Lemma primaries_single photos ph :
  atMostOnePrimary photos → ph ∈ photos → Photo.isPrimary ph = true →
  primaries photos = [ph].
Proof.
  unfold atMostOnePrimary. intros Hlen Hin Hp.
  assert (ph ∈ primaries photos) as Hin'
    by (by apply list_elem_of_filter).
  destruct (primaries photos) as [|x [|y l]]; simpl in *.
  - by apply elem_of_nil in Hin'.
  - by apply list_elem_of_singleton in Hin' as ->.
  - lia.
Qed.

Section DeletePhoto.
Context (req : Profiles.PhotoRequest) (st : Store) (u : Session.t)
  (user : User.t) (p : RishtaProfile.t).
Hypothesis Hsession : Profiles.photoSession req = Some u.
Hypothesis Huser : findById (Session._id u) (users st) = Some user.
Hypothesis Hpaid : User.isPaid user = true.
Hypothesis Hprofile :
  findOne (λ q, RishtaProfile.userId q = Session._id u) (profiles st) = Some p.

Lemma deletePhoto_missing :
  Profiles.photoById (Profiles.photoId req) (RishtaProfile.photos p) = None →
  Profiles.deletePhoto req st = (photoNotFound, st).
Proof.
  intros Hph. unfold Profiles.deletePhoto, isAuthenticated. rewrite Hsession.
  erewrite hasPaid_paid by done. by rewrite Hprofile, Hph.
Qed.

Lemma deletePhoto_found i ph :
  Profiles.photoById (Profiles.photoId req) (RishtaProfile.photos p) = Some (i, ph) →
  RishtaProfile.validate p = true →
  let p' :=
    RishtaProfile.setPhotos
      (filter (λ x, Photo._id x ≠ Photo._id ph) (RishtaProfile.photos p)) p in
  let st' := withProfiles (updateOne p' (profiles st)) st in
  Profiles.deletePhoto req st = (photoDeleted, st')
  ∧ findOne (λ q, RishtaProfile.userId q = Session._id u) (profiles st') = Some p'.
Proof.
  intros Hph Hv p' st'.
  destruct (photoById_Some _ _ _ _ Hph) as [Hid _].
  assert (RishtaProfile.validate p' = true) as Hv'.
  { unfold RishtaProfile.validate in *.
    apply andb_true_iff in Hv as [Hd Hphotos].
    apply andb_true_iff. split; [exact Hd|by apply forallb_filter]. }
  split.
  - unfold Profiles.deletePhoto, isAuthenticated. rewrite Hsession.
    erewrite hasPaid_paid by done. rewrite Hprofile, Hph. cbv zeta.
    rewrite Hid. unfold Profiles.pull. fold p'.
    unfold saveProfile. by rewrite Hv'.
  - unfold st', withProfiles. cbn [profiles].
    eapply findOne_updateOne; [exact Hprofile|done|].
    by apply findOne_elem in Hprofile as [_ ?].
Qed.

(** X6. DELETE /profiles/photo/:photoId by the paid owner of a profile.
    An identifier that names no photo of the profile is answered 404
    'Photo not found' and nothing changes.  One that names a photo is
    answered 200, and the profile is saved with exactly the photos that
    carry another identifier, in their order; that identifier then names
    no photo; and no other photo is promoted: when the deleted photo was
    the primary one, the profile is left without a primary photo. *)
Theorem deletePhoto_spec :
  (Profiles.photoById (Profiles.photoId req) (RishtaProfile.photos p) = None →
   Profiles.deletePhoto req st = (photoNotFound, st))
  ∧ (∀ i ph,
       Profiles.photoById (Profiles.photoId req) (RishtaProfile.photos p)
       = Some (i, ph) →
       RishtaProfile.validate p = true →
       let p' :=
         RishtaProfile.setPhotos
           (filter (λ x, Photo._id x ≠ Photo._id ph) (RishtaProfile.photos p)) p in
       let st' := withProfiles (updateOne p' (profiles st)) st in
       Profiles.deletePhoto req st = (photoDeleted, st')
       ∧ findOne (λ q, RishtaProfile.userId q = Session._id u) (profiles st')
         = Some p'
       ∧ Profiles.photoById (Profiles.photoId req) (RishtaProfile.photos p') = None
       ∧ (Photo.isPrimary ph = true →
          atMostOnePrimary (RishtaProfile.photos p) →
          primaries (RishtaProfile.photos p') = [])).
Proof.
  split; [apply deletePhoto_missing|].
  intros i ph Hph Hv p' st'.
  destruct (deletePhoto_found i ph Hph Hv) as [Hd Hf].
  destruct (photoById_Some _ _ _ _ Hph) as [Hid Hi].
  split; [done|]. split; [done|]. split.
  - rewrite Hid. apply photoById_pull.
  - intros Hprim Hone. simpl. rewrite primaries_filter.
    rewrite (primaries_single _ ph Hone); [|by eapply list_elem_of_lookup_2|done].
    rewrite filter_cons. by case_decide.
Qed.

(** X7. Deleting the same photo a second time is refused: after a
    successful deletion the same request is answered 404 'Photo not found'
    and leaves the store as the first deletion left it. *)
Theorem deletePhoto_twice i ph :
  Profiles.photoById (Profiles.photoId req) (RishtaProfile.photos p) = Some (i, ph) →
  RishtaProfile.validate p = true →
  ∃ st', Profiles.deletePhoto req st = (photoDeleted, st')
         ∧ Profiles.deletePhoto req st' = (photoNotFound, st').
Proof.
  intros Hph Hv.
  destruct (deletePhoto_found i ph Hph Hv) as [Hd Hf].
  destruct (photoById_Some _ _ _ _ Hph) as [Hid _].
  eexists. split; [exact Hd|].
  unfold Profiles.deletePhoto at 1, isAuthenticated. rewrite Hsession.
  erewrite hasPaid_paid by done.
  rewrite Hf. cbv zeta. simpl RishtaProfile.photos.
  rewrite Hid. by rewrite photoById_pull.
Qed.

End DeletePhoto.

(** X6, witness: the owner deletes the primary photo of two, and asks for a
    photo that is not there. *)
Lemma deletePhoto_spec_witness :
  let req := Profiles.mkPhotoRequest (Some Sample.ownerSession) (Some 100%N) in
  let other := Profiles.mkPhotoRequest (Some Sample.ownerSession) (Some 999%N) in
  let p := Sample.profileWith RishtaProfile.submitted false in
  let p' := RishtaProfile.setPhotos [Sample.photoB] p in
  (Profiles.photoSession req = Some Sample.ownerSession
   ∧ findById 2%N (users Sample.submittedStore) = Some Sample.owner
   ∧ User.isPaid Sample.owner = true
   ∧ findOne (λ q, RishtaProfile.userId q = 2%N)
             (profiles Sample.submittedStore) = Some p
   ∧ Profiles.photoById (Some 100%N) (RishtaProfile.photos p)
     = Some (0, Sample.photoA)
   ∧ RishtaProfile.validate p = true
   ∧ Photo.isPrimary Sample.photoA = true
   ∧ atMostOnePrimary (RishtaProfile.photos p)
   ∧ Profiles.photoById (Some 999%N) (RishtaProfile.photos p) = None)
  ∧ Profiles.deletePhoto req Sample.submittedStore
    = (photoDeleted, Sample.storeWith p' [])
  ∧ primaries (RishtaProfile.photos p') = []
  ∧ Profiles.deletePhoto other Sample.submittedStore
    = (photoNotFound, Sample.submittedStore).
Proof.
  intros req other p p'.
  assert (atMostOnePrimary (RishtaProfile.photos p)) as Hone
    by (vm_compute; lia).
  split; [done|].
  destruct (deletePhoto_spec req Sample.submittedStore Sample.ownerSession
              Sample.owner p eq_refl eq_refl eq_refl eq_refl) as [_ Hk].
  destruct (Hk 0 Sample.photoA eq_refl eq_refl) as (Hd & _ & _ & Hprim).
  split; [exact Hd|]. split; [exact (Hprim eq_refl Hone)|].
  by destruct (deletePhoto_spec other Sample.submittedStore Sample.ownerSession
                 Sample.owner p eq_refl eq_refl eq_refl eq_refl) as [Hm _];
    apply Hm.
Defined.

(** X7, witness: the owner deletes photo 100 twice. *)
Lemma deletePhoto_twice_witness :
  let req := Profiles.mkPhotoRequest (Some Sample.ownerSession) (Some 100%N) in
  let p := Sample.profileWith RishtaProfile.submitted false in
  (Profiles.photoSession req = Some Sample.ownerSession
   ∧ findById 2%N (users Sample.submittedStore) = Some Sample.owner
   ∧ User.isPaid Sample.owner = true
   ∧ findOne (λ q, RishtaProfile.userId q = 2%N)
             (profiles Sample.submittedStore) = Some p
   ∧ Profiles.photoById (Some 100%N) (RishtaProfile.photos p)
     = Some (0, Sample.photoA)
   ∧ RishtaProfile.validate p = true)
  ∧ ∃ st', Profiles.deletePhoto req Sample.submittedStore = (photoDeleted, st')
           ∧ Profiles.deletePhoto req st' = (photoNotFound, st').
Proof.
  intros req p. split; [done|].
  exact (deletePhoto_twice req Sample.submittedStore Sample.ownerSession
           Sample.owner p eq_refl eq_refl eq_refl eq_refl 0 Sample.photoA
           eq_refl eq_refl).
Defined.

(** ** Documents found by a unique key *)

Lemma findOne_unique {A} `{Model A} (P : A → Prop) `{∀ d, Decision (P d)}
    (c : list A) i x :
  uniqueIds c → c !! i = Some x → P x →
  (∀ y, P y → modelId y = modelId x) →
  findOne P c = Some x.
Proof.
  intros Hu Hi HP Hid.
  destruct (findOne P c) as [y|] eqn:Hf.
  - apply findOne_Some in Hf as (j & Hj & HPy & _).
    rewrite (uniqueIds_lookup c i j x y Hu Hi Hj) in Hi by (symmetry; auto).
    congruence.
  - apply findOne_None in Hf.
    apply list_elem_of_lookup_2 in Hi.
    by destruct (proj1 (Forall_forall _ _) Hf x Hi).
Qed.

Lemma updateOne_unique {A} `{Model A} (c : list A) i x d :
  uniqueIds c → c !! i = Some x → modelId d = modelId x →
  updateOne d c = <[i := d]> c.
Proof.
  intros Hu Hi Hid.
  assert (findById (modelId d) c = Some x) as Hf.
  { unfold findById. eapply findOne_unique; [done|done|done|].
    intros y Hy. by rewrite Hy. }
  destruct (updateOne_insert d c x Hf) as (j & Hj & ->).
  by rewrite (uniqueIds_lookup c i j x x Hu Hi Hj).
Qed.

(** ** Cancelling a payment *)

(** X8. POST /payments/cancel/:id by a signed-in member.  The pending
    payment of the caller with that identifier gets the status
    'cancelled', nothing else of it or of the store changes, and the
    answer is 200.  When no payment with that identifier is both the
    caller's and pending (it does not exist, belongs to another member, or
    was already completed, failed or cancelled) the answer is the same 404
    in every case and the store is unchanged. *)
Theorem cancelPayment_spec req st u id :
  Payments.cancelSession req = Some u →
  Payments.cancelId req = Some id →
  (∀ i p,
     uniqueIds (payments st) →
     payments st !! i = Some p →
     Payment._id p = id →
     Payment.userId p = Session._id u →
     Payment.status p = Payment.pending →
     Payment.validate p = true →
     Payments.cancelPayment req st
     = (paymentCancelled,
        withPayments (<[i := Payment.setStatus Payment.cancelled p]> (payments st))
          st))
  ∧ (Forall (λ p, Payment._id p = id → Payment.userId p = Session._id u →
                  Payment.status p ≠ Payment.pending) (payments st) →
     Payments.cancelPayment req st = (paymentNotCancellable, st)).
Proof.
  intros Hs Hid. split.
  - intros i p Hu Hi Hp Ho Hpend Hv.
    unfold Payments.cancelPayment, isAuthenticated. rewrite Hs, Hid.
    erewrite (findOne_unique _ (payments st) i p); [|done|done|done|].
    2:{ intros y (Hy & _). change (Payment._id y = Payment._id p). congruence. }
    cbv zeta. unfold savePayment.
    change (Payment.validate (Payment.setStatus Payment.cancelled p))
      with (Payment.validate p). rewrite Hv.
    by rewrite (updateOne_unique (payments st) i p).
  - intros Hall.
    unfold Payments.cancelPayment, isAuthenticated. rewrite Hs, Hid.
    destruct (findOne _ (payments st)) as [p|] eqn:Hf; [|done].
    apply findOne_elem in Hf as (Hin & Hp & Ho & Hpend).
    by destruct (proj1 (Forall_forall _ _) Hall p Hin Hp Ho).
Qed.

(** X8, witness: the owner cancels her pending payment, and tries to
    cancel the pending payment of another member. *)
Lemma cancelPayment_spec_witness :
  let st := Cases.members [Sample.paymentWith Payment.pending;
                           Cases.submittedPayment] in
  let mine := Payments.mkCancelRequest (Some Sample.ownerSession) (Some 50%N) in
  let theirs := Payments.mkCancelRequest (Some Sample.ownerSession) (Some 51%N) in
  (uniqueIds (payments st)
   ∧ payments st !! 0 = Some (Sample.paymentWith Payment.pending)
   ∧ Payment.validate (Sample.paymentWith Payment.pending) = true
   ∧ Forall (λ p, Payment._id p = 51%N → Payment.userId p = 2%N →
                  Payment.status p ≠ Payment.pending) (payments st))
  ∧ Payments.cancelPayment mine st
    = (paymentCancelled,
       Cases.members [Sample.paymentWith Payment.cancelled;
                      Cases.submittedPayment])
  ∧ Payments.cancelPayment theirs st = (paymentNotCancellable, st).
Proof.
  intros st mine theirs.
  assert (uniqueIds (payments st)) as Hu.
  { unfold uniqueIds. apply (bool_decide_unpack _). by vm_compute. }
  assert (Forall (λ p, Payment._id p = 51%N → Payment.userId p = 2%N →
                       Payment.status p ≠ Payment.pending) (payments st)) as Hall.
  { repeat constructor; simpl; intros; done. }
  split; [done|]. split.
  - destruct (cancelPayment_spec mine st Sample.ownerSession 50 eq_refl eq_refl)
      as [Hk _].
    exact (Hk 0 (Sample.paymentWith Payment.pending) Hu eq_refl eq_refl eq_refl
             eq_refl eq_refl).
  - destruct (cancelPayment_spec theirs st Sample.ownerSession 51 eq_refl eq_refl)
      as [_ Hk].
    exact (Hk Hall).
Defined.

(** ** The public profile page *)

(** X9. GET /profile/:id.  For a published and approved profile the page
    is rendered and the view is counted: [views] grows by one,
    [lastViewed] is the time of the request, and no other path of the
    document and no other document changes.  When the identifier names no
    profile that is both published and approved (there is none, or it is
    a draft, submitted, rejected or unpublished one) the visitor is sent
    back to /browse with 'Profile not found' and nothing is counted. *)
Theorem viewProfile_spec req st id :
  Public.viewId req = Some id →
  (∀ i p,
     uniqueIds (profiles st) →
     profiles st !! i = Some p →
     RishtaProfile._id p = id →
     visible p →
     RishtaProfile.validate p = true →
     let p' :=
       RishtaProfile.mk (RishtaProfile._id p) (RishtaProfile.userId p)
         (RishtaProfile.details p) (RishtaProfile.photos p)
         (RishtaProfile.status p) (RishtaProfile.published p)
         (RishtaProfile.approvedBy p) (RishtaProfile.approvedAt p)
         (RishtaProfile.rejectionReason p) (RishtaProfile.views p + 1)
         (Some (Public.viewNow req)) (RishtaProfile.createdAt p) in
     Public.viewProfile req st
     = (RenderProfileDetail p', withProfiles (<[i := p']> (profiles st)) st))
  ∧ (Forall (λ p, RishtaProfile._id p = id → ¬ visible p) (profiles st) →
     Public.viewProfile req st = (Public.profileNotFound, st)).
Proof.
  intros Hid. split.
  - intros i p Hu Hi Hp [Hpub Happ] Hv p'.
    unfold Public.viewProfile. rewrite Hid.
    erewrite (findOne_unique _ (profiles st) i p); [|done|done|done|].
    2:{ intros y (Hy & _). change (RishtaProfile._id y = RishtaProfile._id p).
        congruence. }
    cbv zeta. change (Public.countView (Public.viewNow req) p) with p'.
    unfold saveProfile.
    change (RishtaProfile.validate p') with (RishtaProfile.validate p).
    rewrite Hv.
    by rewrite (updateOne_unique (profiles st) i p).
  - intros Hall. unfold Public.viewProfile. rewrite Hid.
    destruct (findOne _ (profiles st)) as [p|] eqn:Hf; [|done].
    apply findOne_elem in Hf as (Hin & Hp & Hpub & Happ).
    by destruct (proj1 (Forall_forall _ _) Hall p Hin Hp).
Qed.

(** X9, witness: a visitor opens a listed profile, and an approved one that
    is not published. *)
Lemma viewProfile_spec_witness :
  let shown := Public.mkViewRequest (Some 24%N) 7000 in
  let hidden := Public.mkViewRequest (Some 25%N) 7000 in
  let p := Sample.listing 24 "LAHORE Cantt" RishtaProfile.approved true 400 in
  let p' :=
    RishtaProfile.mk 24 24 (RishtaProfile.details p) [] RishtaProfile.approved
      true None None None 1 (Some 7000%Z) 400 in
  (uniqueIds (profiles Sample.listings)
   ∧ profiles Sample.listings !! 3 = Some p
   ∧ visible p
   ∧ RishtaProfile.validate p = true
   ∧ Forall (λ p, RishtaProfile._id p = 25%N → ¬ visible p)
       (profiles Sample.listings))
  ∧ Public.viewProfile shown Sample.listings
    = (RenderProfileDetail p',
       withProfiles (<[3 := p']> (profiles Sample.listings)) Sample.listings)
  ∧ Public.viewProfile hidden Sample.listings
    = (Public.profileNotFound, Sample.listings).
Proof.
  intros shown hidden p p'.
  assert (uniqueIds (profiles Sample.listings)) as Hu.
  { unfold uniqueIds. apply (bool_decide_unpack _). by vm_compute. }
  assert (visible p) as Hvis by done.
  assert (Forall (λ p, RishtaProfile._id p = 25%N → ¬ visible p)
            (profiles Sample.listings)) as Hall.
  { repeat constructor; simpl; try done. by intros _ [? _]. }
  split; [done|]. split.
  - destruct (viewProfile_spec shown Sample.listings 24 eq_refl) as [Hk _].
    exact (Hk 3 p Hu eq_refl eq_refl Hvis eq_refl).
  - destruct (viewProfile_spec hidden Sample.listings 25 eq_refl) as [_ Hk].
    exact (Hk Hall).
Defined.

(** ** Creating a profile *)

Lemma findOne_app_None {A} (P : A → Prop) `{∀ d, Decision (P d)} (c : list A) d :
  findOne P c = None → P d → findOne P (c ++ [d]) = Some d.
Proof.
  intros Hn HP. apply findOne_None in Hn.
  unfold findOne.
  induction c as [|x c IH]; simpl.
  - by rewrite decide_True.
  - apply Forall_cons in Hn as [Hx Hc]. rewrite decide_False by done.
    specialize (IH Hc). destruct (list_find P (c ++ [d])) as [[? ?]|]; simpl in *;
      by simplify_eq.
Qed.

Lemma updateOne_app_None {A} `{Model A} (c : list A) old d :
  findById (modelId d) c = None → modelId old = modelId d →
  updateOne d (c ++ [old]) = c ++ [d].
Proof.
  intros Hn Hid. apply findOne_None in Hn. unfold updateOne.
  induction c as [|x c IH]; simpl.
  - by rewrite decide_True.
  - apply Forall_cons in Hn as [Hx Hc]. rewrite decide_False by done.
    specialize (IH Hc).
    destruct (list_find _ (c ++ [old])) as [[i y]|]; simpl in *; by rewrite IH.
Qed.

Section Create.
Context `{Runtime}.

(** X10. POST /profiles/create by a paid member who has no profile, with
    a form that passes the validator chain and the schema: one document is
    appended — owned by the caller, built from the form, with status
    'submitted', unpublished, unreviewed, with no views, the first uploaded
    photo flagged primary — and the account is marked profile-completed.
    The new profile is not publicly visible, it is the profile the
    caller's later requests find, and [hasProfile] lets the caller through
    from then on. *)
Theorem createProfile_creates req st u user details :
  Profiles.formSession req = Some u →
  findById (Session._id u) (users st) = Some user →
  User.isPaid user = true →
  Profiles.validationErrors req = [] →
  findOne (λ p, RishtaProfile.userId p = Session._id u) (profiles st) = None →
  Profiles.detailsOf (Profiles.body req) = Some details →
  RishtaProfile.validate (created req u details) = true →
  findById (Profiles.newProfileId req) (profiles st) = None →
  let st' :=
    mkStore (updateOne (User.setProfileCompleted true user) (users st))
      (profiles st ++ [created req u details]) (payments st) in
  Profiles.createProfile req st = (createdResponse, st')
  ∧ findOne (λ p, RishtaProfile.userId p = Session._id u) (profiles st')
    = Some (created req u details)
  ∧ ¬ visible (created req u details)
  ∧ ∀ next, Guards.hasProfile (Some u) st' next = next u.
Proof.
  intros Hs Hu Hp He Hf Hd Hv Hnew st'. split; [|split; [|split]].
  - unfold Profiles.createProfile, isAuthenticated. rewrite Hs.
    erewrite hasPaid_paid by done. rewrite He, Hf, Hd.
    change (negb (bool_decide ([] = []))) with false. cbv iota zeta.
    change (RishtaProfile.mk _ _ _ _ _ _ _ _ _ _ _ _) with (created req u details).
    unfold Profiles.saveNewProfile. rewrite Hv.
    change (RishtaProfile._id (created req u details))
      with (Profiles.newProfileId req). rewrite Hnew.
    unfold Profiles.markProfileCompleted, withProfiles, insertOne.
    cbn [users profiles payments]. by rewrite Hu.
  - unfold st'. cbn [profiles]. by apply findOne_app_None.
  - by intros [? _].
  - intros next. unfold Guards.hasProfile, st'. cbn [users].
    unfold findById.
    erewrite (findOne_updateOne _ (users st) user
                (User.setProfileCompleted true user)); [done|exact Hu|done|].
    by apply findById_modelId in Hu.
Qed.

End Create.

(** X10, witness: the paid member without a profile creates one. *)
Lemma createProfile_creates_witness :
  let req := Sample.formRequest Sample.newcomerSession [] Sample.form in
  let st := Sample.submittedStore in
  let p :=
    RishtaProfile.mk 11 3 Sample.formDetails
      [Photo.mk 200 (js "https://img/c.jpg") (js "c") true]
      RishtaProfile.submitted false None None None 0 None 2000 in
  (Profiles.formSession req = Some Sample.newcomerSession
   ∧ findById 3%N (users st) = Some Sample.newcomer
   ∧ User.isPaid Sample.newcomer = true
   ∧ Profiles.validationErrors req = []
   ∧ findOne (λ p, RishtaProfile.userId p = 3%N) (profiles st) = None
   ∧ @Profiles.detailsOf Sample.runtime (Profiles.body req) = Some Sample.formDetails
   ∧ RishtaProfile.validate p = true
   ∧ findById 11%N (profiles st) = None)
  ∧ @Profiles.createProfile Sample.runtime req st
    = (createdResponse,
       mkStore [Sample.adminUser; Sample.owner; User.mk 3 true true User.user true]
         [Sample.profileWith RishtaProfile.submitted false; p] []).
Proof.
  intros req st p.
  assert (@Profiles.detailsOf Sample.runtime (Profiles.body req)
          = Some Sample.formDetails) as Hd by (by vm_compute).
  assert (RishtaProfile.validate p = true) as Hv by (by vm_compute).
  split; [done|].
  exact (proj1 (@createProfile_creates Sample.runtime req st
                  Sample.newcomerSession Sample.newcomer Sample.formDetails
                  eq_refl eq_refl eq_refl eq_refl eq_refl Hd Hv eq_refl)).
Defined.

(** ** An edit takes the profile off the public pages *)

Section EditHides.
Context `{Runtime}.

Lemma editProfile_success req st u p st' :
  Profiles.formSession req = Some u →
  findOne (λ q, RishtaProfile.userId q = Session._id u) (profiles st) = Some p →
  Profiles.editProfile req st = (editedResponse, st') →
  ∃ p', RishtaProfile._id p' = RishtaProfile._id p
        ∧ RishtaProfile.published p' = false
        ∧ st' = withProfiles (updateOne p' (profiles st)) st.
Proof.
  intros Hs Hf.
  unfold Profiles.editProfile, isAuthenticated, hasPaid. rewrite Hs.
  destruct (findById _ (users st)) as [user|]; [|done].
  destruct (User.isPaid user); [|done].
  destruct (negb _); [done|]. rewrite Hf.
  destruct (Profiles.detailsOf _) as [details|]; [|done].
  cbv zeta. unfold saveProfile.
  destruct (RishtaProfile.validate _); [|done].
  intros [= <-]. eexists. split; [|split; [|reflexivity]].
  - by case_bool_decide.
  - done.
Qed.

(** X11. After an edit that succeeded, the public page of the edited
    profile answers 'Profile not found', whatever its state was before:
    the edit unpublishes, and the page shows published profiles only. *)
Theorem editProfile_hides req st u p st' now :
  Profiles.formSession req = Some u →
  findOne (λ q, RishtaProfile.userId q = Session._id u) (profiles st) = Some p →
  uniqueIds (profiles st) →
  Profiles.editProfile req st = (editedResponse, st') →
  Public.viewProfile (Public.mkViewRequest (Some (RishtaProfile._id p)) now) st'
  = (Public.profileNotFound, st').
Proof.
  intros Hs Hf Hu He.
  destruct (editProfile_success req st u p st' Hs Hf He) as (p' & Hid & Hpub & ->).
  unfold Public.viewProfile. cbn [Public.viewId].
  destruct (findOne _ (profiles (withProfiles _ _))) as [q|] eqn:Hq; [|done].
  apply findOne_Some in Hq as (j & Hj & HP & _).
  cbv beta in HP. destruct HP as (Hqid & Hqpub & _).
  unfold withProfiles in Hj. cbn [profiles] in Hj.
  apply findOne_Some in Hf as (i & Hi & _ & _).
  rewrite (updateOne_unique (profiles st) i p p' Hu Hi) in Hj by done.
  destruct (decide (i = j)) as [<-|Hne].
  - rewrite list_lookup_insert_eq in Hj by (by eapply lookup_lt_Some).
    simplify_eq. congruence.
  - rewrite list_lookup_insert_ne in Hj by done.
    by destruct Hne; eapply (uniqueIds_lookup (profiles st) i j p q).
Qed.

End EditHides.

(** X11, witness: the owner edits her published profile; its public page
    is gone. *)
Lemma editProfile_hides_witness :
  let req := Sample.formRequest Sample.ownerSession [] Sample.form in
  let p := Sample.profileWith RishtaProfile.approved true in
  let st' :=
    Sample.storeWith
      (RishtaProfile.mk 10 2 Sample.formDetails
         [Sample.photoA; Sample.photoB;
          Photo.mk 200 (js "https://img/c.jpg") (js "c") false]
         RishtaProfile.submitted false None None None 0 None 1000) [] in
  (Profiles.formSession req = Some Sample.ownerSession
   ∧ findOne (λ q, RishtaProfile.userId q = 2%N) (profiles Sample.approvedStore)
     = Some p
   ∧ uniqueIds (profiles Sample.approvedStore)
   ∧ @Profiles.editProfile Sample.runtime req Sample.approvedStore
     = (editedResponse, st'))
  ∧ Public.viewProfile (Public.mkViewRequest (Some 10%N) 9000) st'
    = (Public.profileNotFound, st').
Proof.
  intros req p st'.
  assert (uniqueIds (profiles Sample.approvedStore)) as Hu.
  { unfold uniqueIds. apply (bool_decide_unpack _). by vm_compute. }
  assert (@Profiles.editProfile Sample.runtime req Sample.approvedStore
          = (editedResponse, st')) as He by (by vm_compute).
  split; [done|].
  exact (@editProfile_hides Sample.runtime req Sample.approvedStore
           Sample.ownerSession p st' 9000 eq_refl eq_refl Hu He).
Defined.

(** ** A verified payment opens the paid routes *)

(** X12. When an administrator verifies a payment as 'completed', the
    account that owns it is paid from the next request on: [hasPaid] lets
    every session of that account through, also one that was opened
    before the payment and still says unpaid. *)
Theorem verifyPayment_unlocks req st admin id p owner u :
  Payments.verifySession req = Some admin →
  Session.role admin = User.admin →
  Payments.verifyId req = Some id →
  findById id (payments st) = Some p →
  Payments.status req = Some (js "completed") →
  findById (Payment.userId p) (users st) = Some owner →
  Session._id u = Payment.userId p →
  ∀ next, hasPaid (Some u) (Payments.verifyPayment req st).2 next = next u.
Proof.
  intros Hs Hrole Hid Hfound Hc Ho Hu next.
  assert (users (Payments.verifyPayment req st).2
          = updateOne (User.setIsPaid true owner) (users st)) as Husers.
  { unfold Payments.verifyPayment, isAuthenticated. rewrite Hs.
    rewrite isAdmin_admin by done. rewrite Hid, Hfound, Hc.
    change (includes _ (Some (js "completed"))) with true.
    change (Some (js "completed") ≫= Payment.statusOfString)
      with (Some Payment.completed).
    cbv iota beta zeta. unfold negb.
    rewrite decide_True by done.
    change (Payment.userId (Payment.setVerificationNotes _ _))
      with (Payment.userId p). rewrite Ho.
    unfold savePayment. by destruct (Payment.validate _). }
  unfold hasPaid. rewrite Husers, Hu. unfold findById.
  erewrite (findOne_updateOne _ (users st) owner (User.setIsPaid true owner));
    [done|exact Ho|done|].
  by apply findById_modelId in Ho.
Qed.

(** X12, witness: a session opened before the payment is refused by
    [hasPaid] before the verification and let through after it. *)
Lemma verifyPayment_unlocks_witness :
  let unpaid := User.mk 2 true false User.user true in
  let st :=
    mkStore [Sample.adminUser; unpaid] [] [Sample.paymentWith Payment.pending] in
  let req :=
    Payments.mkVerifyRequest (Some Sample.adminSession) (Some 50%N)
      (Some (js "completed")) None 4000 in
  let next := λ _ : Session.t, (photoDeleted, st) in
  (Payments.verifySession req = Some Sample.adminSession
   ∧ Session.role Sample.adminSession = User.admin
   ∧ Payments.verifyId req = Some 50%N
   ∧ findById 50%N (payments st) = Some (Sample.paymentWith Payment.pending)
   ∧ Payments.status req = Some (js "completed")
   ∧ findById 2%N (users st) = Some unpaid
   ∧ Session.isPaid Cases.staleSession = false)
  ∧ hasPaid (Some Cases.staleSession) st next = (paymentRequired, st)
  ∧ hasPaid (Some Cases.staleSession) (Payments.verifyPayment req st).2 next
    = next Cases.staleSession.
Proof.
  intros unpaid st req next. split; [done|]. split; [done|].
  exact (verifyPayment_unlocks req st Sample.adminSession 50
           (Sample.paymentWith Payment.pending) unpaid Cases.staleSession
           eq_refl eq_refl eq_refl eq_refl eq_refl eq_refl eq_refl next).
Defined.

(** ** Submitting a payment *)

Section Submit.
Context `{Runtime}.

Lemma submitPayment_writes req st :
  (PaymentPages.submitPayment req st).2 = st
  ∨ ∃ u, PaymentPages.submitSession req = Some u
         ∧ Session.isPaid u = false
         ∧ PaymentPages.validationErrors req = []
         ∧ Payment.validate (PaymentPages.paymentOf req u) = true
         ∧ findById (PaymentPages.newPaymentId req) (payments st) = None
         ∧ PaymentPages.submitPayment req st
           = (Answer PaymentPages.submitted,
              withPayments (payments st ++ [PaymentPages.paymentOf req u]) st).
Proof.
  unfold PaymentPages.submitPayment.
  destruct (PaymentPages.submitSession req) as [u|]; [|by left].
  case_bool_decide as He; simpl; [|by left].
  destruct (Session.isPaid u) eqn:Hpaid; [by left|].
  unfold PaymentPages.saveNewPayment.
  destruct (Payment.validate _) eqn:Hv; [|by left].
  destruct (findOne _ (payments st)) as [q|] eqn:Hq; [by left|].
  right. exists u. repeat (split; [done|]). split; [|done].
  apply findOne_None. apply findOne_None in Hq.
  eapply Forall_impl; [exact Hq|]. intros q Hn Hid. apply Hn. by left.
Qed.

(** X13. POST /payments/submit.  A submission that succeeds appends one
    payment and changes nothing else: the payment belongs to the caller,
    is pending and unverified, carries the generated transaction
    identifier and the fields of the form (the Strings trimmed).  A
    session that says paid, a form with validation errors, a payment the
    schema refuses and a transaction identifier that is already stored
    leave the store unchanged; no submission ever changes an account, a
    profile or a stored payment. *)
Theorem submitPayment_spec req st :
  let st' := (PaymentPages.submitPayment req st).2 in
  users st' = users st
  ∧ profiles st' = profiles st
  ∧ (payments st' = payments st
     ∨ ∃ u p, PaymentPages.submitSession req = Some u
              ∧ payments st' = payments st ++ [p]
              ∧ Payment.userId p = Session._id u
              ∧ Payment.status p = Payment.pending
              ∧ Payment.verifiedBy p = None
              ∧ Payment.transactionId p = Some (PaymentPages.transactionId req))
  ∧ (∀ u, PaymentPages.submitSession req = Some u →
          Session.isPaid u = true ∨ PaymentPages.validationErrors req ≠ []
          ∨ Payment.validate (PaymentPages.paymentOf req u) = false
          ∨ (∃ q, q ∈ payments st
                  ∧ Payment.transactionId q
                    = Some (PaymentPages.transactionId req)) →
          st' = st).
Proof.
  intros st'. unfold st'. split; [|split; [|split]].
  - by destruct (submitPayment_writes req st) as [->|(u & _ & _ & _ & _ & _ & ->)].
  - by destruct (submitPayment_writes req st) as [->|(u & _ & _ & _ & _ & _ & ->)].
  - destruct (submitPayment_writes req st) as [->|(u & Hs & _ & _ & _ & _ & ->)];
      [by left|].
    right. by exists u, (PaymentPages.paymentOf req u).
  - intros u Hs Hno. unfold PaymentPages.submitPayment. rewrite Hs.
    case_bool_decide as He; simpl; [|done].
    destruct (Session.isPaid u) eqn:Hpaid; [done|].
    unfold PaymentPages.saveNewPayment.
    destruct (Payment.validate _) eqn:Hv; [|done].
    destruct (findOne _ (payments st)) as [?|] eqn:Hf; [done|].
    exfalso. destruct Hno as [Hno|[Hno|[Hno|(q & Hq & Ht)]]]; [done..|].
    apply findOne_None in Hf.
    destruct (proj1 (Forall_forall _ _) Hf q Hq).
    right. split; [by eexists|done].
Qed.

Lemma submitPayment_accepted req st u :
  PaymentPages.submitSession req = Some u →
  Session.isPaid u = false →
  PaymentPages.validationErrors req = [] →
  Payment.validate (PaymentPages.paymentOf req u) = true →
  Forall (λ q, Payment._id q ≠ PaymentPages.newPaymentId req
               ∧ Payment.transactionId q
                 ≠ Some (PaymentPages.transactionId req)) (payments st) →
  PaymentPages.submitPayment req st
  = (Answer PaymentPages.submitted,
     withPayments (payments st ++ [PaymentPages.paymentOf req u]) st).
Proof.
  intros Hs Hpaid He Hv Hfresh.
  unfold PaymentPages.submitPayment. rewrite Hs, He, Hpaid.
  change (negb (bool_decide ([] = []))) with false. cbv iota.
  unfold PaymentPages.saveNewPayment. rewrite Hv.
  destruct (findOne _ (payments st)) as [q|] eqn:Hq; [|done].
  apply findOne_elem in Hq as [Hin Hq].
  destruct (proj1 (Forall_forall _ _) Hfresh q Hin) as [Hid Ht].
  by destruct Hq as [?|[_ ?]].
Qed.

(** X14. A payment that was just submitted can be cancelled by the member
    who submitted it: the submission followed by the cancellation of the
    new payment leaves the earlier payments as they were, followed by the
    submitted payment with the status 'cancelled'. *)
Theorem submit_then_cancel req st u :
  PaymentPages.submitSession req = Some u →
  Session.isPaid u = false →
  PaymentPages.validationErrors req = [] →
  Payment.validate (PaymentPages.paymentOf req u) = true →
  Forall (λ q, Payment._id q ≠ PaymentPages.newPaymentId req
               ∧ Payment.transactionId q
                 ≠ Some (PaymentPages.transactionId req)) (payments st) →
  ∃ st1,
    PaymentPages.submitPayment req st = (Answer PaymentPages.submitted, st1)
    ∧ Payments.cancelPayment
        (Payments.mkCancelRequest (Some u) (Some (PaymentPages.newPaymentId req)))
        st1
      = (paymentCancelled,
         withPayments
           (payments st
              ++ [Payment.setStatus Payment.cancelled
                    (PaymentPages.paymentOf req u)]) st).
Proof.
  intros Hs Hpaid He Hv Hfresh.
  eexists. split; [by apply submitPayment_accepted|].
  unfold Payments.cancelPayment, isAuthenticated. cbn [Payments.cancelSession
    Payments.cancelId withPayments payments].
  assert (findById (PaymentPages.newPaymentId req) (payments st) = None) as Hnew.
  { apply findOne_None. eapply Forall_impl; [exact Hfresh|]. by intros q [? _]. }
  rewrite (findOne_app_None _ (payments st) (PaymentPages.paymentOf req u)).
  2:{ apply findOne_None. eapply Forall_impl; [exact Hfresh|].
      by intros q [? _] [? _]. }
  2:{ done. }
  cbv zeta. unfold savePayment.
  change (Payment.validate (Payment.setStatus _ _))
    with (Payment.validate (PaymentPages.paymentOf req u)). rewrite Hv.
  cbn [withPayments payments users profiles].
  by rewrite updateOne_app_None.
Qed.

End Submit.

(** X13, witness: an unpaid member submits a payment; a session that says
    paid submits the same form. *)
Lemma submitPayment_spec_witness :
  let req := Cases.submission Cases.unpaidSession in
  let st := Cases.members [Sample.paymentWith Payment.pending] in
  @PaymentPages.submitPayment Sample.runtime req st
  = (Answer PaymentPages.submitted,
     Cases.members [Sample.paymentWith Payment.pending; Cases.submittedPayment])
  ∧ (@PaymentPages.submitPayment Sample.runtime
       (Cases.submission Sample.ownerSession) st).2 = st.
Proof.
  intros req st. split; [by vm_compute|].
  apply (@submitPayment_spec Sample.runtime (Cases.submission Sample.ownerSession) st
           ) with (u := Sample.ownerSession); [done|by left].
Defined.

(** X14, witness: the unpaid member submits a payment and cancels it. *)
Lemma submit_then_cancel_witness :
  let req := Cases.submission Cases.unpaidSession in
  let st := Cases.members [Sample.paymentWith Payment.pending] in
  (PaymentPages.submitSession req = Some Cases.unpaidSession
   ∧ Session.isPaid Cases.unpaidSession = false
   ∧ PaymentPages.validationErrors req = []
   ∧ Payment.validate (@PaymentPages.paymentOf Sample.runtime req Cases.unpaidSession)
     = true
   ∧ Forall (λ q, Payment._id q ≠ 51%N
                  ∧ Payment.transactionId q ≠ Some (js "TXN2ABCDE")) (payments st))
  ∧ ∃ st1,
      @PaymentPages.submitPayment Sample.runtime req st
      = (Answer PaymentPages.submitted, st1)
      ∧ Payments.cancelPayment
          (Payments.mkCancelRequest (Some Cases.unpaidSession) (Some 51%N)) st1
        = (paymentCancelled,
           Cases.members [Sample.paymentWith Payment.pending;
                          Payment.setStatus Payment.cancelled
                            Cases.submittedPayment]).
Proof.
  intros req st.
  assert (Forall (λ q, Payment._id q ≠ 51%N
                       ∧ Payment.transactionId q ≠ Some (js "TXN2ABCDE"))
            (payments st)) as Hfresh.
  { repeat constructor; done. }
  assert (Payment.validate
            (@PaymentPages.paymentOf Sample.runtime req Cases.unpaidSession)
          = true) as Hv by (by vm_compute).
  split; [done|].
  exact (@submit_then_cancel Sample.runtime req st Cases.unpaidSession
           eq_refl eq_refl eq_refl Hv Hfresh).
Defined.

(** ** The payment pages show the caller's payments *)

#[local] Instance paymentNewerFirst_trans : Transitive PaymentPages.newerFirst.
Proof. unfold PaymentPages.newerFirst. intros x y z ??. lia. Qed.

#[local] Instance paymentNewerFirst_total : Total PaymentPages.newerFirst.
Proof. unfold PaymentPages.newerFirst. intros x y. lia. Qed.

(** X15. The payment pages of a member list that member's payments and no
    one else's: the history page shows every stored payment of the caller,
    each once, newest first; the payment page of an unpaid session shows
    those of them that are pending; a session that says paid is sent to
    the dashboard instead. *)
Theorem payment_pages_own u st :
  (∃ l, PaymentPages.history (Some u) st = RenderHistory l
        ∧ l ≡ₚ filter (λ p, Payment.userId p = Session._id u) (payments st)
        ∧ StronglySorted PaymentPages.newerFirst l
        ∧ ∀ p, p ∈ l ↔ p ∈ payments st ∧ Payment.userId p = Session._id u)
  ∧ (Session.isPaid u = false →
     ∃ l, PaymentPages.paymentPage (Some u) st = RenderPayments l []
          ∧ StronglySorted PaymentPages.newerFirst l
          ∧ ∀ p, p ∈ l ↔ p ∈ payments st ∧ Payment.userId p = Session._id u
                         ∧ Payment.status p = Payment.pending)
  ∧ (Session.isPaid u = true →
     PaymentPages.paymentPage (Some u) st = Answer PaymentPages.alreadyPaid).
Proof.
  split; [|split].
  - eexists. split; [reflexivity|].
    split; [apply merge_sort_Permutation|].
    split; [apply (StronglySorted_merge_sort _)|].
    intros p. rewrite merge_sort_Permutation, list_elem_of_filter. tauto.
  - intros Hpaid. eexists. split.
    { unfold PaymentPages.paymentPage, pageIsAuthenticated. by rewrite Hpaid. }
    split; [apply (StronglySorted_merge_sort _)|].
    intros p. unfold PaymentPages.pendingPayments.
    rewrite merge_sort_Permutation, list_elem_of_filter. tauto.
  - intros Hpaid. unfold PaymentPages.paymentPage, pageIsAuthenticated.
    by rewrite Hpaid.
Qed.

(** ** What every request keeps *)

Lemma saveProfile_profiles p st st' :
  saveProfile p st = Some st' → profiles st' = updateOne p (profiles st).
Proof. unfold saveProfile. by intros ?; case_match; simplify_eq. Qed.

Lemma profileStep_save (P : RishtaProfile.t → Prop) `{∀ d, Decision (P d)}
    p p' st st' :
  findOne P (profiles st) = Some p →
  saveProfile p' st = Some st' →
  RishtaProfile._id p' = RishtaProfile._id p →
  RishtaProfile.userId p' = RishtaProfile.userId p →
  (RishtaProfile.published p' = RishtaProfile.published p
   ∧ RishtaProfile.status p' = RishtaProfile.status p)
  ∨ RishtaProfile.published p' = false
  ∨ RishtaProfile.status p' = RishtaProfile.approved →
  profileStep (profiles st) (profiles st').
Proof.
  intros Hf Hs ???. right. left. exists p, p'.
  apply findOne_elem in Hf as [? _].
  by rewrite (saveProfile_profiles _ _ _ Hs).
Qed.

Section Steps.
Context `{Runtime}.

Lemma createProfile_profileStep req st :
  profileStep (profiles st) (profiles (Profiles.createProfile req st).2).
Proof.
  unfold Profiles.createProfile. route; try by left.
  rewrite markProfileCompleted_profiles.
  unfold Profiles.saveNewProfile in *. repeat case_match; simplify_eq/=.
  right. right.
  match goal with |- context [insertOne ?p _] => by exists p end.
Qed.

Lemma editProfile_profileStep req st :
  profileStep (profiles st) (profiles (Profiles.editProfile req st).2).
Proof.
  unfold Profiles.editProfile. route; try by left.
  all: eapply profileStep_save; [eassumption..| | |]; try done; by right; left.
Qed.

Lemma deletePhoto_profileStep req st :
  profileStep (profiles st) (profiles (Profiles.deletePhoto req st).2).
Proof.
  unfold Profiles.deletePhoto. route; try by left.
  all: eapply profileStep_save; [eassumption..| | |]; try done; by left.
Qed.

Lemma setPrimaryPhoto_profileStep req st :
  profileStep (profiles st) (profiles (Profiles.setPrimaryPhoto req st).2).
Proof.
  unfold Profiles.setPrimaryPhoto. route; try by left.
  all: eapply profileStep_save; [eassumption..| | |]; try done; by left.
Qed.

Lemma reviewProfile_profileStep req st :
  profileStep (profiles st) (profiles (Admin.reviewProfile req st).2).
Proof.
  unfold Admin.reviewProfile. route; try by left.
  all: eapply profileStep_save; [eassumption..| | |];
    unfold Admin.review; repeat case_decide; try done;
    first [by left | by right; left | by right; right].
Qed.

Lemma togglePublish_profileStep req st :
  profileStep (profiles st) (profiles (Admin.togglePublish req st).2).
Proof.
  unfold Admin.togglePublish. route; try by left.
  all: eapply profileStep_save; [eassumption..| | |]; try done;
    right; right; simpl;
    match goal with |- ?a = ?b => by destruct (decide (a = b)) end.
Qed.

Lemma viewProfile_profileStep req st :
  profileStep (profiles st) (profiles (Public.viewProfile req st).2).
Proof.
  unfold Public.viewProfile. repeat case_match; simplify_eq/=; try by left.
  eapply profileStep_save; [eassumption..| | |]; try done; by left.
Qed.

Lemma serve_profileStep r st :
  profileStep (profiles st) (profiles (serve r st)).
Proof.
  destruct r as [[req|req|req|req|req|req|req|req]|req|req]; simpl.
  - apply createProfile_profileStep.
  - apply editProfile_profileStep.
  - apply deletePhoto_profileStep.
  - apply setPrimaryPhoto_profileStep.
  - apply reviewProfile_profileStep.
  - apply togglePublish_profileStep.
  - left. apply verifyPayment_profiles.
  - left. apply cancelPayment_profiles.
  - apply viewProfile_profileStep.
  - left.
    by destruct (submitPayment_writes req st) as [->|(? & _ & _ & _ & _ & _ & ->)].
Qed.

End Steps.

Lemma profileStep_publishedApproved st st' :
  profileStep (profiles st) (profiles st') →
  publishedApproved st → publishedApproved st'.
Proof.
  unfold publishedApproved.
  intros [->|[(p & p' & Hin & _ & _ & Hkeep & ->)|(p' & _ & _ & Hpub & ->)]] Hst.
  - done.
  - apply updateOne_Forall; [|done].
    pose proof (proj1 (Forall_forall _ _) Hst p Hin) as Hp.
    destruct Hkeep as [[Hpub Hs]|[Hpub|Hs]]; intros; try congruence.
    rewrite Hs. apply Hp. congruence.
  - apply Forall_app. split; [done|]. constructor; [congruence|constructor].
Qed.

Lemma updateOne_userIds (c : list RishtaProfile.t) p p' :
  uniqueIds c → p ∈ c →
  RishtaProfile._id p' = RishtaProfile._id p →
  RishtaProfile.userId p' = RishtaProfile.userId p →
  RishtaProfile.userId <$> updateOne p' c = RishtaProfile.userId <$> c.
Proof.
  intros Hu [i Hi]%list_elem_of_lookup_1 Hid Huser.
  rewrite (updateOne_unique c i p p' Hu Hi Hid).
  rewrite list_fmap_insert, Huser.
  apply list_insert_id. by rewrite list_lookup_fmap, Hi.
Qed.

Lemma profileStep_oneProfilePerUser st st' :
  profileStep (profiles st) (profiles st') →
  oneProfilePerUser st → oneProfilePerUser st'.
Proof.
  unfold oneProfilePerUser, uniqueIds.
  intros [->|[(p & p' & Hin & Hid & Huser & _ & ->)|(p' & Hnew & Hnone & _ & ->)]]
    [Hids Husers].
  - done.
  - split; [by rewrite updateOne_ids|by rewrite (updateOne_userIds _ p)].
  - rewrite !fmap_app. simpl. split.
    + apply NoDup_app. split; [done|]. split; [|apply NoDup_singleton].
      intros k Hk ->%list_elem_of_singleton.
      apply list_elem_of_fmap in Hk as (q & Hq & Hqin).
      apply findOne_None in Hnew.
      by destruct (proj1 (Forall_forall _ _) Hnew q Hqin).
    + apply NoDup_app. split; [done|]. split; [|apply NoDup_singleton].
      intros k Hk ->%list_elem_of_singleton.
      apply list_elem_of_fmap in Hk as (q & Hq & Hqin).
      apply findOne_None in Hnone.
      by destruct (proj1 (Forall_forall _ _) Hnone q Hqin).
Qed.

Section Always.
Context `{Runtime}.

(** X16. A published profile is an approved one, always: from a store in
    which every published profile is approved, every store that any
    sequence of requests (the lifecycle routes, the public profile page,
    the payment submission) goes through has the property.  Publication
    is switched on by an approval or by the toggle on an approved profile
    only, and every write that leaves the approved status (an edit, a
    rejection) switches it off. *)
Theorem publishedApproved_always st rs :
  publishedApproved st → Forall publishedApproved (run st rs).
Proof.
  revert st. induction rs as [|r rs IH]; intros st Hst; [constructor|].
  assert (publishedApproved (serve r st))
    by (eapply profileStep_publishedApproved; [apply serve_profileStep|done]).
  simpl. constructor; [done|by apply IH].
Qed.

(** X17. No member ever has two profiles: from a store in which the
    profiles have distinct identifiers and distinct owners, every store
    that any sequence of requests goes through has the property.  The
    create route inserts only when the caller owns no profile, and no
    route changes the owner of a profile. *)
Theorem oneProfilePerUser_always st rs :
  oneProfilePerUser st → Forall oneProfilePerUser (run st rs).
Proof.
  revert st. induction rs as [|r rs IH]; intros st Hst; [constructor|].
  assert (oneProfilePerUser (serve r st))
    by (eapply profileStep_oneProfilePerUser; [apply serve_profileStep|done]).
  simpl. constructor; [done|by apply IH].
Qed.

End Always.

(** X16, witness: an approval, a view, an unpublication, an edit and a
    refused publication. *)
Lemma publishedApproved_always_witness :
  let rs :=
    [Lifecycle (ReviewProfile
       (Admin.mkReviewRequest (Some Sample.adminSession) (Some 10%N)
          (Some (js "approve")) None 3000));
     ViewProfile (Public.mkViewRequest (Some 10%N) 3500);
     Lifecycle (TogglePublish
       (Admin.mkPublishRequest (Some Sample.adminSession) (Some 10%N)));
     Lifecycle (EditProfile (Sample.formRequest Sample.ownerSession [] Sample.form));
     Lifecycle (TogglePublish
       (Admin.mkPublishRequest (Some Sample.adminSession) (Some 10%N)))] in
  publishedApproved Sample.submittedStore
  ∧ Forall publishedApproved (@run Sample.runtime Sample.submittedStore rs).
Proof.
  intros rs.
  assert (publishedApproved Sample.submittedStore) as Hst
    by (by repeat constructor).
  split; [done|].
  exact (@publishedApproved_always Sample.runtime Sample.submittedStore rs Hst).
Defined.

(** X17, witness: the owner tries to create a second profile, the
    newcomer creates one and tries again, the owner edits hers. *)
Lemma oneProfilePerUser_always_witness :
  let rs :=
    [Lifecycle (CreateProfile (Sample.formRequest Sample.ownerSession [] Sample.form));
     Lifecycle (CreateProfile (Sample.formRequest Sample.newcomerSession [] Sample.form));
     Lifecycle (CreateProfile (Sample.formRequest Sample.newcomerSession [] Sample.form));
     Lifecycle (EditProfile (Sample.formRequest Sample.ownerSession [] Sample.form))] in
  oneProfilePerUser Sample.submittedStore
  ∧ Forall oneProfilePerUser (@run Sample.runtime Sample.submittedStore rs).
Proof.
  intros rs.
  assert (oneProfilePerUser Sample.submittedStore) as Hst.
  { split; apply (bool_decide_unpack _); by vm_compute. }
  split; [done|].
  exact (@oneProfilePerUser_always Sample.runtime Sample.submittedStore rs Hst).
Defined.

(** ** The home page and the pages of the listing *)

Lemma concat_pages {A} (l : list A) n m :
  length l ≤ n * m →
  concat ((λ k, take n (drop (n * k) l)) <$> seq 0 m) = l.
Proof.
  intros Hl. transitivity (take (n * m) l); [|by apply take_ge]. clear Hl.
  induction m as [|m IH].
  - by rewrite Nat.mul_0_r, take_0.
  - rewrite seq_S, fmap_app, concat_app, IH. simpl. rewrite app_nil_r.
    rewrite take_take_drop. f_equal. lia.
Qed.

Lemma fmap_by_index {A B} (f : A → B) (g : nat → B) (l : list A) :
  (∀ k v, l !! k = Some v → f v = g k) →
  f <$> l = g <$> seq 0 (length l).
Proof.
  intros Hfg. apply list_eq. intros k. rewrite !list_lookup_fmap.
  destruct (l !! k) as [v|] eqn:Hk; simpl.
  - rewrite lookup_seq_lt by (by eapply lookup_lt_Some). simpl.
    f_equal. by apply Hfg.
  - rewrite lookup_seq_ge; [done|]. by apply lookup_ge_None.
Qed.

Section Listing.
Context `{Runtime}.

Lemma browse_answerable q st :
  answerable q →
  Main.browse q st
  = RenderBrowse
      (pageOfList q
         (Main.sortNewestFirst (filter (λ p, wanted q p = true) (profiles st)))).
Proof.
  intros Hq.
  destruct (buildFilter_wanted q Hq) as (f & lo & hi & Hf & Hlo & Hhi & Hm).
  destruct Hq as (_ & _ & _ & Hpage).
  unfold Main.browse, Main.findPage. rewrite Hf. simpl. rewrite Hlo, Hhi. simpl.
  rewrite decide_False by (unfold Main.limit; lia).
  assert (filter (λ p, Main.matches f lo hi p = true) (profiles st)
          = filter (λ p, wanted q p = true) (profiles st)) as ->.
  { apply list_filter_iff. intros p. by rewrite Hm. }
  unfold pageOfList, Main.limit.
  rewrite (Permutation_length (sortNewestFirst_perm _)).
  replace (Z.to_nat ((Main.pageOf q - 1) * 12))
    with (12 * (Z.to_nat (Main.pageOf q) - 1)) by lia.
  replace (Z.of_nat (length (filter (λ p, wanted q p = true) (profiles st)))
           + 12 - 1)%Z
    with (Z.of_nat (length (filter (λ p, wanted q p = true) (profiles st)))
          + 11)%Z by lia.
  done.
Qed.

Lemma wanted_unfiltered q p :
  supplied (Main.gender q) = None → supplied (Main.city q) = None →
  supplied (Main.minAge q) = None → supplied (Main.maxAge q) = None →
  wanted q p = true ↔ visible p.
Proof.
  intros Hg Hc Hlo Hhi. unfold wanted, visible. rewrite Hg, Hc, Hlo, Hhi. simpl.
  rewrite !andb_true_r, andb_true_iff, bool_decide_eq_true. done.
Qed.

(** X18. The home page features the head of the public listing: its
    featured profiles are the first six of the first page that GET /browse
    renders when no filter is supplied — at most six, all of them
    published and approved, the newest first. *)
Theorem home_heads_browse q st :
  supplied (Main.gender q) = None → supplied (Main.city q) = None →
  supplied (Main.minAge q) = None → supplied (Main.maxAge q) = None →
  Main.pageOf q = 1%Z →
  ∃ page featured,
    Main.browse q st = RenderBrowse page
    ∧ Public.home st = RenderHome featured
    ∧ featured = take 6 (pageProfiles page)
    ∧ length featured ≤ 6
    ∧ Forall visible featured
    ∧ StronglySorted Main.newerFirst featured.
Proof.
  intros Hg Hc Hlo Hhi Hpage.
  assert (answerable q) as Hq.
  { unfold answerable. rewrite Hc, Hlo, Hhi, Hpage. by repeat split. }
  assert (filter (λ p, RishtaProfile.published p = true
                       ∧ RishtaProfile.status p = RishtaProfile.approved)
                 (profiles st)
          = filter (λ p, wanted q p = true) (profiles st)) as Hfilter.
  { apply list_filter_iff. intros p. by rewrite wanted_unfiltered. }
  eexists _, _. split; [by apply browse_answerable|].
  split; [reflexivity|].
  unfold pageOfList. cbn [pageProfiles]. rewrite Hpage, Hfilter.
  change (12 * (Z.to_nat 1 - 1)) with 0. rewrite drop_0, take_take.
  change (6 `min` 12) with 6.
  split; [done|]. split; [rewrite length_take; lia|]. split.
  - apply Forall_take. rewrite sortNewestFirst_perm.
    apply Forall_forall. intros p [Hw _]%list_elem_of_filter.
    by eapply wanted_visible.
  - pose proof (sortNewestFirst_sorted
                  (filter (λ p, wanted q p = true) (profiles st))) as Hs.
    rewrite <- (take_drop 6 (Main.sortNewestFirst _)) in Hs.
    by apply StronglySorted_app_1_l in Hs.
Qed.

(** X19. The pages of the public listing cover it: for a query whose
    filters the route can answer, the pages 1, 2, .., n rendered one
    after the other — n pages being enough for what the filters accept —
    show every accepted profile exactly once, newest first, twelve to a
    page. *)
Theorem listing_pages_cover q st (pages : list jsvalue) :
  answerable q →
  (∀ k v, pages !! k = Some v →
          Main.pageOf (withPage v q) = (Z.of_nat k + 1)%Z) →
  length (filter (λ p, wanted q p = true) (profiles st)) ≤ 12 * length pages →
  concat ((λ v, profilesOf (Main.browse (withPage v q) st)) <$> pages)
  = Main.sortNewestFirst (filter (λ p, wanted q p = true) (profiles st))
  ∧ Forall (λ v, length (profilesOf (Main.browse (withPage v q) st)) ≤ 12) pages.
Proof.
  intros (Hc & Hlo & Hhi & _) Hpages Hlen.
  set (all := Main.sortNewestFirst (filter (λ p, wanted q p = true) (profiles st))).
  assert (∀ k v, pages !! k = Some v →
            profilesOf (Main.browse (withPage v q) st)
            = take 12 (drop (12 * k) all)) as Hpage.
  { intros k v Hk. rewrite browse_answerable.
    - unfold profilesOf, pageOfList. cbn [pageProfiles].
      rewrite (Hpages k v Hk).
      replace (Z.to_nat (Z.of_nat k + 1) - 1) with k by lia. done.
    - unfold answerable. rewrite (Hpages k v Hk). repeat split; [done..|lia]. }
  split.
  - rewrite (fmap_by_index _ (λ k, take 12 (drop (12 * k) all)) pages Hpage).
    apply concat_pages. unfold all.
    by rewrite (Permutation_length (sortNewestFirst_perm _)).
  - apply Forall_lookup. intros k v Hk. rewrite (Hpage k v Hk).
    rewrite length_take. lia.
Qed.

End Listing.

(** X18, witness: thirteen visible profiles; the home page features the six
    newest. *)
Lemma home_heads_browse_witness :
  (@Main.pageOf Sample.runtime Sample.noFilter = 1%Z)
  ∧ ∃ page featured,
      @Main.browse Sample.runtime Sample.noFilter Sample.thirteen
      = RenderBrowse page
      ∧ Public.home Sample.thirteen = RenderHome featured
      ∧ featured = take 6 (pageProfiles page)
      ∧ featured = Sample.visibleProfile <$> [13; 12; 11; 10; 9; 8].
Proof.
  split; [done|].
  destruct (@home_heads_browse Sample.runtime Sample.noFilter Sample.thirteen
              eq_refl eq_refl eq_refl eq_refl eq_refl)
    as (page & featured & Hb & Hh & Hf & _).
  exists page, featured. repeat (split; [done|]).
  assert (Public.home Sample.thirteen
          = RenderHome (Sample.visibleProfile <$> [13; 12; 11; 10; 9; 8])) as Hh'
    by (by vm_compute).
  rewrite Hh in Hh'. by injection Hh'.
Defined.

(** X19, witness: the two pages of thirteen visible profiles. *)
Lemma listing_pages_cover_witness :
  let pages := [Some (js "1"); Some (js "2")] in
  (@answerable Sample.runtime Sample.noFilter
   ∧ (∀ k v, pages !! k = Some v →
        @Main.pageOf Sample.runtime (withPage v Sample.noFilter)
        = (Z.of_nat k + 1)%Z)
   ∧ length (filter (λ p, @wanted Sample.runtime Sample.noFilter p = true)
               (profiles Sample.thirteen)) ≤ 12 * length pages)
  ∧ concat ((λ v, profilesOf (@Main.browse Sample.runtime
                                (withPage v Sample.noFilter) Sample.thirteen))
              <$> pages)
    = Sample.visibleProfile <$> [13; 12; 11; 10; 9; 8; 7; 6; 5; 4; 3; 2; 1].
Proof.
  intros pages.
  assert (@answerable Sample.runtime Sample.noFilter) as Hq.
  { by repeat split. }
  assert (∀ k v, pages !! k = Some v →
            @Main.pageOf Sample.runtime (withPage v Sample.noFilter)
            = (Z.of_nat k + 1)%Z) as Hpages.
  { intros [|[|k]] v Hk; simplify_eq/=; done. }
  assert (length (filter (λ p, @wanted Sample.runtime Sample.noFilter p = true)
                    (profiles Sample.thirteen)) ≤ 12 * length pages) as Hlen.
  { vm_compute. lia. }
  split; [done|].
  destruct (@listing_pages_cover Sample.runtime Sample.noFilter Sample.thirteen
              pages Hq Hpages Hlen) as [-> _].
  by vm_compute.
Defined.

(** ** The age a profile shows *)

Section Age.
Context `{Calendar}.

(** X20. [calculatedAge] of a profile with a date of birth counts the
    birthdays that have come: it is the difference of the calendar years,
    less one while this year's birthday is still ahead; on the birthday
    itself it is the full difference.  It is never negative from the day
    of birth on, it never goes down from one day to a later one, and it
    does not read the stored [age]. *)
Theorem calculatedAge_spec p birth :
  RishtaProfile.dateOfBirth (RishtaProfile.personalInfo (RishtaProfile.details p))
  = Some birth →
  (∀ today,
     getMonth today = getMonth birth → getDate today = getDate birth →
     calculatedAge today p = Int (getFullYear today - getFullYear birth))
  ∧ (∀ today, notAfter birth today →
       ∃ a, calculatedAge today p = Int a ∧ (0 ≤ a)%Z)
  ∧ (∀ earlier later, notAfter earlier later →
       ∃ a b, calculatedAge earlier p = Int a ∧ calculatedAge later p = Int b
              ∧ (a ≤ b)%Z)
  ∧ (∀ today q,
       RishtaProfile.dateOfBirth
         (RishtaProfile.personalInfo (RishtaProfile.details q)) = Some birth →
       calculatedAge today q = calculatedAge today p).
Proof.
  intros Hb. unfold calculatedAge, notAfter. rewrite Hb. cbv zeta.
  split; [|split; [|split]].
  - intros today Hm Hd. rewrite decide_False by lia. done.
  - intros today Hle. case_decide; eexists; (split; [reflexivity|lia]).
  - intros earlier later Hle.
    repeat case_decide; eexists _, _; (split; [reflexivity|split; [reflexivity|lia]]).
  - intros today q Hq. by rewrite Hq.
Qed.

End Age.

(** X20, witness: born on 1998-01-01, seen on the eve of the birthday in
    2026 and on the birthday, by a server in UTC; the stored age is 27. *)
Lemma calculatedAge_spec_witness :
  let p := Sample.profileWith RishtaProfile.approved true in
  let birth := 883612800000%Z in       (* 1998-01-01 *)
  let eve := 1767139200000%Z in         (* 2025-12-31 *)
  let birthday := 1767225600000%Z in    (* 2026-01-01 *)
  (RishtaProfile.dateOfBirth (RishtaProfile.personalInfo (RishtaProfile.details p))
   = Some birth
   ∧ @getMonth Cases.utc birthday = @getMonth Cases.utc birth
   ∧ @getDate Cases.utc birthday = @getDate Cases.utc birth
   ∧ @notAfter Cases.utc eve birthday)
  ∧ @calculatedAge Cases.utc birthday p = Int 28
  ∧ @calculatedAge Cases.utc eve p = Int 27
  ∧ RishtaProfile.age (RishtaProfile.personalInfo (RishtaProfile.details p))
    = Int 27.
Proof.
  intros p birth eve birthday.
  assert (@notAfter Cases.utc eve birthday) as Hle by (left; by vm_compute).
  split; [done|].
  destruct (@calculatedAge_spec Cases.utc p birth eq_refl) as (Hday & _).
  split; [exact (Hday birthday eq_refl eq_refl)|done].
Defined.

(** ** The owner-or-administrator guard *)

(** X21. [isOwnerOrAdmin] runs the handler for an administrator, whatever
    the identifier in the route is, and for the member who owns the profile
    the identifier names.  Every other signed-in caller — the profile
    belongs to someone else, does not exist, or the identifier is not an
    ObjectId or is missing from the route — is sent to the dashboard, the
    handler does not run and the store is unchanged. *)
Theorem isOwnerOrAdmin_spec req st u next :
  Guards.resourceSession req = Some u →
  (Session.role u = User.admin → is_Some (Guards.resourceId req) →
   Guards.isOwnerOrAdmin req st next = next u)
  ∧ (∀ id p,
       Guards.resourceId req = Some (Some id) →
       findById id (profiles st) = Some p →
       RishtaProfile.userId p = Session._id u →
       Guards.isOwnerOrAdmin req st next = next u)
  ∧ (Session.role u ≠ User.admin →
     (∀ id p, Guards.resourceId req = Some (Some id) →
              findById id (profiles st) = Some p →
              RishtaProfile.userId p ≠ Session._id u) →
     ∃ message,
       Guards.isOwnerOrAdmin req st next = (Guards.toDashboard message, st)).
Proof.
  intros Hs. unfold Guards.isOwnerOrAdmin. rewrite Hs.
  split; [|split].
  - intros Hrole [id ->]. by rewrite decide_True.
  - intros id p -> Hp Ho. rewrite Hp.
    case_decide; [done|]. by rewrite decide_False by (by intros ?).
  - intros Hrole Hother.
    destruct (Guards.resourceId req) as [[id|]|]; [| |by eexists].
    + rewrite decide_False by done.
      destruct (findById id (profiles st)) as [p|] eqn:Hp; [|by eexists].
      rewrite decide_True by (by eapply Hother). by eexists.
    + rewrite decide_False by done. by eexists.
Qed.

(** X21, witness: the owner passes for her profile, another member does
    not. *)
Lemma isOwnerOrAdmin_spec_witness :
  let own := Guards.mkResourceRequest (Some Sample.ownerSession) (Some (Some 10%N)) None in
  let other :=
    Guards.mkResourceRequest (Some Sample.newcomerSession) None (Some (Some 10%N)) in
  let next := λ _ : Session.t, (photoDeleted, Sample.approvedStore) in
  (Guards.resourceSession own = Some Sample.ownerSession
   ∧ Guards.resourceId own = Some (Some 10%N)
   ∧ findById 10%N (profiles Sample.approvedStore)
     = Some (Sample.profileWith RishtaProfile.approved true)
   ∧ Guards.resourceSession other = Some Sample.newcomerSession
   ∧ Session.role Sample.newcomerSession ≠ User.admin)
  ∧ Guards.isOwnerOrAdmin own Sample.approvedStore next = next Sample.ownerSession
  ∧ Guards.isOwnerOrAdmin other Sample.approvedStore next
    = (Guards.toDashboard "Access denied. You can only access your own profile.",
       Sample.approvedStore).
Proof.
  intros own other next. split; [done|]. split.
  - destruct (isOwnerOrAdmin_spec own Sample.approvedStore Sample.ownerSession next
                eq_refl) as (_ & Hk & _).
    exact (Hk 10%N (Sample.profileWith RishtaProfile.approved true)
             eq_refl eq_refl eq_refl).
  - done.
Defined.

(** ** The administrator's listing *)

Lemma statusName_approved s :
  AdminPages.statusName s = js "approved" ↔ s = RishtaProfile.approved.
Proof. split; [by destruct s|by intros ->]. Qed.

Section AdminListing.
Context `{Runtime}.

Lemma listProfiles_rendered u q st page :
  Session.role u = User.admin →
  AdminPages.listProfiles (Some u) q st = RenderAdminProfiles page →
  ∃ f, AdminPages.buildFilter q = Some f
       ∧ pageProfiles page
         = take 20 (drop (Z.to_nat ((pageNumber (AdminPages.page q) - 1) * 20))
                      (Main.sortNewestFirst
                         (filter (λ p, AdminPages.matches f p = true)
                                 (profiles st)))).
Proof.
  intros Hrole. unfold AdminPages.listProfiles, pageIsAuthenticated, pageIsAdmin.
  rewrite decide_True by done.
  destruct (AdminPages.buildFilter q) as [f|]; [|done].
  case_decide; [done|]. intros [= <-]. by exists f.
Qed.

(** X22. GET /admin/profiles compares the [published] parameter with the
    text 'true' whenever the query carries it: with [published=true] the
    page lists published profiles only, and with any other value — 'false',
    but also '1', 'yes' or the empty text of a form that leaves the choice
    open — unpublished profiles only. *)
Theorem listProfiles_published u q st v page :
  Session.role u = User.admin →
  AdminPages.published q = Some v →
  AdminPages.listProfiles (Some u) q st = RenderAdminProfiles page →
  Forall (λ p, RishtaProfile.published p = bool_decide (v = js "true"))
         (pageProfiles page).
Proof.
  intros Hrole Hv Hpage.
  destruct (listProfiles_rendered u q st page Hrole Hpage) as (f & Hf & ->).
  apply Forall_take, Forall_drop. rewrite sortNewestFirst_perm.
  apply Forall_forall. intros p [Hm _]%list_elem_of_filter.
  unfold AdminPages.buildFilter in Hf. rewrite Hv in Hf.
  destruct (if truthy (AdminPages.city q) then _ else _) as [c|]; simplify_eq/=.
  unfold AdminPages.matches in Hm. cbn [AdminPages.publishedIs from_option] in Hm.
  apply andb_true_iff in Hm as [Hm _]. apply andb_true_iff in Hm as [Hm _].
  apply andb_true_iff in Hm as [_ Hm]. by apply bool_decide_eq_true in Hm.
Qed.

(** X23. What the public sees is what the administrator lists as approved
    and published: for the same gender and city, and no bounds on the age,
    the first public page shows the first twelve profiles of the first
    page of GET /admin/profiles?status=approved&published=true, in the
    same order. *)
Theorem listProfiles_shows_public u q st :
  Session.role u = User.admin →
  answerable q →
  supplied (Main.minAge q) = None →
  supplied (Main.maxAge q) = None →
  Main.pageOf q = 1%Z →
  ∃ public listed,
    Main.browse q st = RenderBrowse public
    ∧ AdminPages.listProfiles (Some u)
        (AdminPages.mkListQuery (Main.page q) (Some (js "approved"))
           (Some (js "true")) (Main.gender q) (Main.city q)) st
      = RenderAdminProfiles listed
    ∧ pageProfiles public = take 12 (pageProfiles listed).
Proof.
  intros Hrole Hq Hlo Hhi Hpage.
  assert (∃ c, (if truthy (Main.city q)
                then Some <$> newRegExp_i (default [] (Main.city q))
                else Some None) = Some c
               ∧ ∀ p, AdminPages.matches
                        (AdminPages.mkFilter (Some (js "approved")) (Some true)
                           (supplied (Main.gender q)) c) p
                      = wanted q p) as (c & Hc & Hm).
  { destruct Hq as (Hcity & _).
    unfold wanted. rewrite Hlo, Hhi. unfold supplied in Hcity |- *.
    destruct (truthy (Main.city q)) eqn:Ht.
    - destruct (Main.city q) as [source|] eqn:Hs; [|done].
      destruct (Hcity source eq_refl) as [pattern Hp]. simpl. rewrite Hp.
      eexists. split; [done|]. intros p. unfold AdminPages.matches. simpl.
      rewrite !andb_true_r.
      rewrite (bool_decide_ext _ _ (statusName_approved _)).
      rewrite (andb_comm (bool_decide (RishtaProfile.status p = _))).
      by destruct (RishtaProfile.published p).
    - eexists. split; [done|]. intros p. unfold AdminPages.matches. simpl.
      rewrite !andb_true_r.
      rewrite (bool_decide_ext _ _ (statusName_approved _)).
      rewrite (andb_comm (bool_decide (RishtaProfile.status p = _))).
      by destruct (RishtaProfile.published p). }
  eexists _, _. split; [by apply browse_answerable|].
  unfold AdminPages.listProfiles, pageIsAuthenticated, pageIsAdmin.
  rewrite decide_True by done. cbn [AdminPages.page].
  change (pageNumber (Main.page q)) with (Main.pageOf q). rewrite Hpage.
  unfold AdminPages.buildFilter.
  cbn [AdminPages.status AdminPages.published AdminPages.gender AdminPages.city].
  rewrite Hc. simpl.
  split; [reflexivity|]. cbn [pageProfiles]. unfold pageOfList.
  cbn [pageProfiles]. rewrite Hpage.
  change (Z.to_nat ((1 - 1) * AdminPages.limit)) with 0.
  change (12 * (Z.to_nat 1 - 1)) with 0.
  change (Z.to_nat AdminPages.limit) with 20.
  rewrite !drop_0, take_take. change (12 `min` 20) with 12.
  do 2 f_equal. apply list_filter_iff. intros p.
  change (if truthy (Main.gender q) then Main.gender q else None)
    with (supplied (Main.gender q)).
  by rewrite Hm.
Qed.

End AdminListing.

(** X22, witness: [published=] with an empty value lists the unpublished
    profiles. *)
Lemma listProfiles_published_witness :
  let q := AdminPages.mkListQuery None None (Some []) None None in
  let page :=
    mkBrowsePage
      [Sample.listing 25 "Lahore" RishtaProfile.approved false 500;
       Sample.listing 23 "Lahore" RishtaProfile.submitted false 300]
      1 1 false false in
  (Session.role Sample.adminSession = User.admin
   ∧ AdminPages.published q = Some []
   ∧ @AdminPages.listProfiles Sample.runtime (Some Sample.adminSession) q
       Sample.listings
     = RenderAdminProfiles page)
  ∧ Forall (λ p, RishtaProfile.published p = false) (pageProfiles page).
Proof.
  intros q page.
  assert (@AdminPages.listProfiles Sample.runtime (Some Sample.adminSession) q
            Sample.listings = RenderAdminProfiles page) as Hp by (by vm_compute).
  split; [done|].
  exact (@listProfiles_published Sample.runtime Sample.adminSession q
           Sample.listings [] page eq_refl eq_refl Hp).
Defined.

(** X23, witness: women in Lahore, as the public and as the administrator
    see them. *)
Lemma listProfiles_shows_public_witness :
  let q := Main.mkQuery None (Some (js "female")) (Some (js "lahore")) None None in
  let shown :=
    [Sample.listing 24 "LAHORE Cantt" RishtaProfile.approved true 400;
     Sample.listing 21 "Lahore" RishtaProfile.approved true 100] in
  (Session.role Sample.adminSession = User.admin
   ∧ @answerable Sample.runtime q
   ∧ @Main.pageOf Sample.runtime q = 1%Z)
  ∧ ∃ public listed,
      @Main.browse Sample.runtime q Sample.listings = RenderBrowse public
      ∧ @AdminPages.listProfiles Sample.runtime (Some Sample.adminSession)
          (AdminPages.mkListQuery None (Some (js "approved")) (Some (js "true"))
             (Some (js "female")) (Some (js "lahore"))) Sample.listings
        = RenderAdminProfiles listed
      ∧ pageProfiles public = take 12 (pageProfiles listed)
      ∧ pageProfiles public = shown.
Proof.
  intros q shown.
  assert (@answerable Sample.runtime q) as Hq.
  { repeat split; try done. intros source [= <-]. by eexists. }
  split; [done|].
  destruct (@listProfiles_shows_public Sample.runtime Sample.adminSession q
              Sample.listings eq_refl Hq eq_refl eq_refl eq_refl)
    as (public & listed & Hb & Hl & Heq).
  exists public, listed. repeat (split; [done|]).
  assert (@Main.browse Sample.runtime q Sample.listings
          = RenderBrowse (mkBrowsePage shown 1 1 false false)) as Hb'
    by (by vm_compute).
  rewrite Hb in Hb'. by injection Hb' as ->.
Defined.

(** ** The dashboard counts what the listing shows *)

Lemma filter_ext_in {A} (P Q : A → Prop) `{∀ x, Decision (P x)}
    `{∀ x, Decision (Q x)} (l : list A) :
  (∀ x, x ∈ l → P x ↔ Q x) → filter P l = filter Q l.
Proof.
  induction l as [|x l IH]; intros Hl; [done|].
  rewrite !filter_cons.
  pose proof (Hl x (list_elem_of_here _ _)).
  rewrite IH by (intros y Hy; apply Hl; by apply list_elem_of_further).
  destruct (decide (P x)), (decide (Q x)); tauto.
Qed.

Lemma filter_length_mono {A} (P Q : A → Prop) `{∀ x, Decision (P x)}
    `{∀ x, Decision (Q x)} (l : list A) :
  (∀ x, P x → Q x) → length (filter P l) ≤ length (filter Q l).
Proof.
  intros HPQ. induction l as [|x l IH]; [done|].
  rewrite !filter_cons.
  destruct (decide (P x)), (decide (Q x)); simpl; try lia.
  by destruct n; apply HPQ.
Qed.

Section Statistics.
Context `{Runtime}.

(** X24. In a store in which every published profile is approved (as the
    routes keep it), the administrator's dashboard and the public listing
    agree: the count of published profiles is the number of profiles the
    public pages can show, it is at most the count of approved profiles,
    and the unfiltered listing has just the pages that count needs at
    twelve to a page. *)
Theorem statistics_agree q st :
  publishedApproved st →
  supplied (Main.gender q) = None → supplied (Main.city q) = None →
  supplied (Main.minAge q) = None → supplied (Main.maxAge q) = None →
  (0 < Main.pageOf q)%Z →
  let stats := AdminPages.statistics st in
  AdminPages.profilesPublished stats
  = length (filter visible (profiles st))
  ∧ AdminPages.profilesPublished stats ≤ AdminPages.profilesApproved stats
  ∧ ∃ page, Main.browse q st = RenderBrowse page
            ∧ totalPages page
              = ((Z.of_nat (AdminPages.profilesPublished stats) + 11) / 12)%Z.
Proof.
  intros Hinv Hg Hc Hlo Hhi Hpage stats.
  assert (filter (λ p, RishtaProfile.published p = true) (profiles st)
          = filter visible (profiles st)) as Hpub.
  { apply filter_ext_in. intros p Hp. unfold visible.
    pose proof (proj1 (Forall_forall _ _) Hinv p Hp) as Hp'. cbv beta in Hp'.
    tauto. }
  split; [by unfold stats; simpl; rewrite Hpub|]. split.
  - unfold stats. simpl. rewrite Hpub.
    apply filter_length_mono. by intros p [_ ?].
  - assert (answerable q) as Hq.
    { unfold answerable. rewrite Hc, Hlo, Hhi. by repeat split. }
    eexists. split; [by apply browse_answerable|].
    unfold pageOfList. cbn [totalPages].
    rewrite (Permutation_length (sortNewestFirst_perm _)).
    unfold stats. simpl. rewrite Hpub. do 4 f_equal.
    apply list_filter_iff. intros p. by apply wanted_unfiltered.
Qed.

End Statistics.

(** X24, witness: five listings, of which four are approved and three
    published. *)
Lemma statistics_agree_witness :
  (publishedApproved Sample.listings
   ∧ (0 < @Main.pageOf Sample.runtime Sample.noFilter)%Z)
  ∧ AdminPages.profilesPublished (AdminPages.statistics Sample.listings) = 3
  ∧ AdminPages.profilesApproved (AdminPages.statistics Sample.listings) = 4
  ∧ ∃ page, @Main.browse Sample.runtime Sample.noFilter Sample.listings
            = RenderBrowse page
            ∧ totalPages page = 1%Z.
Proof.
  assert (publishedApproved Sample.listings) as Hinv.
  { repeat constructor; done. }
  split; [done|]. split; [done|]. split; [done|].
  destruct (@statistics_agree Sample.runtime Sample.noFilter Sample.listings
              Hinv eq_refl eq_refl eq_refl eq_refl eq_refl)
    as (_ & _ & page & Hb & Ht).
  exists page. split; [done|]. by rewrite Ht.
Defined.

(** ** Publication, switched on and off *)

Lemma uniqueIds_insert {A} `{Model A} (c : list A) i x d :
  uniqueIds c → c !! i = Some x → modelId d = modelId x →
  uniqueIds (<[i := d]> c).
Proof.
  unfold uniqueIds. intros Hu Hi Hid.
  rewrite list_fmap_insert, Hid, list_insert_id; [done|].
  by rewrite list_lookup_fmap, Hi.
Qed.

Lemma togglePublish_at req st admin i p :
  Admin.publishSession req = Some admin →
  Session.role admin = User.admin →
  Admin.publishId req = Some (RishtaProfile._id p) →
  uniqueIds (profiles st) →
  profiles st !! i = Some p →
  RishtaProfile.status p = RishtaProfile.approved →
  RishtaProfile.validate p = true →
  (Admin.togglePublish req st).2
  = withProfiles
      (<[i := RishtaProfile.setPublished (negb (RishtaProfile.published p)) p]>
         (profiles st)) st.
Proof.
  intros Hs Hrole Hid Hu Hi Happ Hv.
  unfold Admin.togglePublish, isAuthenticated. rewrite Hs.
  rewrite isAdmin_admin by done. rewrite Hid.
  unfold findById.
  erewrite (findOne_unique _ (profiles st) i p); [|done|done|done|].
  2:{ intros y Hy. by rewrite Hy. }
  rewrite decide_False by (by intros ?). cbv zeta.
  unfold saveProfile.
  change (RishtaProfile.validate (RishtaProfile.setPublished _ p))
    with (RishtaProfile.validate p). rewrite Hv.
  by rewrite (updateOne_unique (profiles st) i p).
Qed.

(** X25. The publish toggle is its own inverse: on an approved profile,
    two toggles in a row by an administrator leave the store exactly as
    it was, the first having negated [published]. *)
Theorem togglePublish_twice req st admin i p :
  Admin.publishSession req = Some admin →
  Session.role admin = User.admin →
  Admin.publishId req = Some (RishtaProfile._id p) →
  uniqueIds (profiles st) →
  profiles st !! i = Some p →
  RishtaProfile.status p = RishtaProfile.approved →
  RishtaProfile.validate p = true →
  let st1 := (Admin.togglePublish req st).2 in
  (RishtaProfile.published <$> profiles st1 !! i)
  = Some (negb (RishtaProfile.published p))
  ∧ (Admin.togglePublish req st1).2 = st.
Proof.
  intros Hs Hrole Hid Hu Hi Happ Hv st1.
  assert (i < length (profiles st)) as Hlt by (by eapply lookup_lt_Some).
  unfold st1. rewrite (togglePublish_at req st admin i p) by done.
  cbn [withProfiles profiles]. split.
  - by rewrite list_lookup_insert_eq.
  - rewrite (togglePublish_at req _ admin i
               (RishtaProfile.setPublished (negb (RishtaProfile.published p)) p));
      try done.
    + cbn [withProfiles profiles users payments].
      rewrite list_insert_insert_eq.
      replace (RishtaProfile.setPublished _ (RishtaProfile.setPublished _ p))
        with p by (destruct p as [? ? ? ? ? []]; done).
      rewrite list_insert_id by done. by destruct st.
    + by eapply uniqueIds_insert.
    + cbn [withProfiles profiles]. by rewrite list_lookup_insert_eq.
Qed.

(** X25, witness: the published profile of the owner is unpublished and
    published again. *)
Lemma togglePublish_twice_witness :
  let req := Admin.mkPublishRequest (Some Sample.adminSession) (Some 10%N) in
  let p := Sample.profileWith RishtaProfile.approved true in
  let st1 := Sample.storeWith (Sample.profileWith RishtaProfile.approved false) [] in
  (Admin.publishSession req = Some Sample.adminSession
   ∧ Session.role Sample.adminSession = User.admin
   ∧ uniqueIds (profiles Sample.approvedStore)
   ∧ profiles Sample.approvedStore !! 0 = Some p
   ∧ RishtaProfile.status p = RishtaProfile.approved
   ∧ RishtaProfile.validate p = true)
  ∧ (Admin.togglePublish req Sample.approvedStore).2 = st1
  ∧ (Admin.togglePublish req st1).2 = Sample.approvedStore.
Proof.
  intros req p st1.
  assert (uniqueIds (profiles Sample.approvedStore)) as Hu.
  { unfold uniqueIds. apply (bool_decide_unpack _). by vm_compute. }
  assert ((Admin.togglePublish req Sample.approvedStore).2 = st1) as H1
    by (by vm_compute).
  split; [done|]. split; [done|]. rewrite <- H1.
  exact (proj2 (togglePublish_twice req Sample.approvedStore Sample.adminSession
                  0 p eq_refl eq_refl eq_refl Hu eq_refl eq_refl eq_refl)).
Defined.

(** X26. An approval puts the profile on the public pages at once: after
    an administrator approves a stored profile, the public page of that
    profile renders it — approved, published, with the view counted. *)
Theorem approval_shows req st admin i p now :
  Admin.reviewSession req = Some admin →
  Session.role admin = User.admin →
  Admin.reviewId req = Some (RishtaProfile._id p) →
  Admin.action req = Some (js "approve") →
  uniqueIds (profiles st) →
  profiles st !! i = Some p →
  RishtaProfile.validate p = true →
  ∃ shown,
    (Public.viewProfile
       (Public.mkViewRequest (Some (RishtaProfile._id p)) now)
       (Admin.reviewProfile req st).2).1
    = RenderProfileDetail shown
    ∧ visible shown
    ∧ RishtaProfile.userId shown = RishtaProfile.userId p
    ∧ RishtaProfile.details shown = RishtaProfile.details p
    ∧ RishtaProfile.views shown = (RishtaProfile.views p + 1)%Z.
Proof.
  intros Hs Hrole Hid Ha Hu Hi Hv.
  set (p' := Admin.review req admin p).
  assert (RishtaProfile.published p' = true
          ∧ RishtaProfile.status p' = RishtaProfile.approved) as [Hpub Happ].
  { unfold p', Admin.review. by rewrite decide_True. }
  assert (RishtaProfile.validate p' = true) as Hv'
    by (unfold p'; by rewrite validate_review).
  assert ((Admin.reviewProfile req st).2
          = withProfiles (<[i := p']> (profiles st)) st) as ->.
  { unfold Admin.reviewProfile, isAuthenticated. rewrite Hs.
    rewrite isAdmin_admin by done. rewrite Hid. unfold findById.
    erewrite (findOne_unique _ (profiles st) i p); [|done|done|done|].
    2:{ intros y Hy. by rewrite Hy. }
    cbv zeta. fold p'. unfold saveProfile. rewrite Hv'.
    rewrite (updateOne_unique (profiles st) i p); [done..|].
    unfold p', Admin.review. by repeat case_decide. }
  assert (RishtaProfile._id p' = RishtaProfile._id p) as Hid'
    by (unfold p', Admin.review; by repeat case_decide).
  assert (i < length (profiles st)) as Hlt by (by eapply lookup_lt_Some).
  unfold Public.viewProfile. cbn [Public.viewId Public.viewNow withProfiles profiles].
  erewrite (findOne_unique _ (<[i := p']> (profiles st)) i p').
  - cbv zeta. unfold saveProfile.
    change (RishtaProfile.validate (Public.countView now p'))
      with (RishtaProfile.validate p').
    rewrite Hv'. cbn [fst].
    eexists. split; [reflexivity|]. split; [done|].
    unfold p', Admin.review. by rewrite decide_True.
  - by eapply uniqueIds_insert.
  - by rewrite list_lookup_insert_eq.
  - done.
  - intros y (Hy & _). change (RishtaProfile._id y = RishtaProfile._id p').
    congruence.
Qed.

(** X26, witness: the submitted profile of the owner is approved and
    opened by a visitor. *)
Lemma approval_shows_witness :
  let req :=
    Admin.mkReviewRequest (Some Sample.adminSession) (Some 10%N)
      (Some (js "approve")) None 3000 in
  let p := Sample.profileWith RishtaProfile.submitted false in
  (Admin.reviewSession req = Some Sample.adminSession
   ∧ Session.role Sample.adminSession = User.admin
   ∧ uniqueIds (profiles Sample.submittedStore)
   ∧ profiles Sample.submittedStore !! 0 = Some p
   ∧ RishtaProfile.validate p = true
   ∧ (Public.viewProfile (Public.mkViewRequest (Some 10%N) 3500)
        Sample.submittedStore).1 = Public.profileNotFound)
  ∧ ∃ shown,
      (Public.viewProfile (Public.mkViewRequest (Some 10%N) 3500)
         (Admin.reviewProfile req Sample.submittedStore).2).1
      = RenderProfileDetail shown
      ∧ visible shown
      ∧ RishtaProfile.views shown = 1%Z.
Proof.
  intros req p.
  assert (uniqueIds (profiles Sample.submittedStore)) as Hu.
  { unfold uniqueIds. apply (bool_decide_unpack _). by vm_compute. }
  split; [done|].
  destruct (approval_shows req Sample.submittedStore Sample.adminSession 0 p 3500
              eq_refl eq_refl eq_refl eq_refl Hu eq_refl eq_refl)
    as (shown & Hr & Hvis & _ & _ & Hviews).
  by exists shown.
Defined.

(** ** Choosing the primary photo again *)






(** ** What the session says and what the store says *)

Section Stale.
Context `{Runtime}.

(** X28. POST /payments/submit does not read the stored accounts or
    profiles: on two stores with the same payments it gives the same
    answer and writes the same payments.  It takes [isPaid] from the
    session, so a session that still says unpaid may submit again after
    its account was marked paid, and one that says paid is refused while
    its account is unpaid. *)
Theorem submitPayment_reads_session req st us ps :
  let other := mkStore us ps (payments st) in
  (PaymentPages.submitPayment req other).1 = (PaymentPages.submitPayment req st).1
  ∧ payments (PaymentPages.submitPayment req other).2
    = payments (PaymentPages.submitPayment req st).2.
Proof.
  cbv zeta. unfold PaymentPages.submitPayment, PaymentPages.pendingPayments,
    PaymentPages.saveNewPayment.
  cbn [payments].
  destruct (PaymentPages.submitSession req) as [u|]; [|done].
  destruct (negb _); [done|].
  destruct (Session.isPaid u); [done|].
  destruct (Payment.validate _); [|done].
  by destruct (findOne _ (payments st)).
Qed.

End Stale.

(** X28, example: the owner's account is paid, her session still says
    unpaid; the submission is accepted. *)
Lemma submitPayment_reads_session_witness :
  let req := Cases.submission Cases.staleSession in
  let st := Cases.members [] in
  (User.isPaid <$> findById 2%N (users st)) = Some true
  ∧ (@PaymentPages.submitPayment Sample.runtime req st).1
    = Answer PaymentPages.submitted
  ∧ (@PaymentPages.submitPayment Sample.runtime req (mkStore [] [] (payments st))).1
    = Answer PaymentPages.submitted.
Proof.
  intros req st. split; [done|]. split; [by vm_compute|].
  rewrite (proj1 (@submitPayment_reads_session Sample.runtime req st [] [])).
  by vm_compute.
Defined.

(** X29. For a paid member, exactly one of the two form pages renders and
    the other redirects to it: without a profile GET /profiles/create
    renders and GET /profiles/edit redirects to /profiles/create; with a
    profile GET /profiles/edit renders that profile and GET
    /profiles/create redirects to /profiles/edit. *)
Theorem form_pages_agree st u user :
  findById (Session._id u) (users st) = Some user →
  User.isPaid user = true →
  (ProfilePages.createPage (Some u) st = RenderCreateForm
   ∧ redirectsTo (ProfilePages.editPage (Some u) st) = Some "/profiles/create"
   ∧ Forall (λ p, RishtaProfile.userId p ≠ Session._id u) (profiles st))
  ∨ (∃ p, ProfilePages.editPage (Some u) st = RenderEditForm p
          ∧ p ∈ profiles st
          ∧ RishtaProfile.userId p = Session._id u
          ∧ redirectsTo (ProfilePages.createPage (Some u) st)
            = Some "/profiles/edit").
Proof.
  intros Hu Hp.
  unfold ProfilePages.createPage, ProfilePages.editPage, pageIsAuthenticated,
    pageHasPaid. rewrite Hu, Hp.
  destruct (findOne _ (profiles st)) as [p|] eqn:Hf.
  - right. exists p. apply findOne_elem in Hf as [? ?]. done.
  - left. apply findOne_None in Hf. done.
Qed.

(** X29, witness: the owner has a profile, the newcomer has none. *)
Lemma form_pages_agree_witness :
  let st := Sample.submittedStore in
  (findById 2%N (users st) = Some Sample.owner
   ∧ User.isPaid Sample.owner = true
   ∧ findById 3%N (users st) = Some Sample.newcomer
   ∧ User.isPaid Sample.newcomer = true)
  ∧ ProfilePages.editPage (Some Sample.ownerSession) st
    = RenderEditForm (Sample.profileWith RishtaProfile.submitted false)
  ∧ ProfilePages.createPage (Some Sample.newcomerSession) st = RenderCreateForm
  ∧ ((ProfilePages.createPage (Some Sample.ownerSession) st = RenderCreateForm
      ∧ redirectsTo (ProfilePages.editPage (Some Sample.ownerSession) st)
        = Some "/profiles/create"
      ∧ Forall (λ p, RishtaProfile.userId p ≠ 2%N) (profiles st))
     ∨ (∃ p, ProfilePages.editPage (Some Sample.ownerSession) st = RenderEditForm p
             ∧ p ∈ profiles st
             ∧ RishtaProfile.userId p = 2%N
             ∧ redirectsTo (ProfilePages.createPage (Some Sample.ownerSession) st)
               = Some "/profiles/edit")).
Proof.
  intros st. split; [done|]. split; [done|]. split; [done|].
  exact (form_pages_agree st Sample.ownerSession Sample.owner eq_refl eq_refl).
Defined.

(** X30. A session that says paid, of an account the store holds as
    unpaid and that has not completed a profile, is sent in a circle: GET
    /dashboard redirects to /profiles/create, GET /profiles/create (behind
    [hasPaid], which reads the store) redirects to /payments, and GET
    /payments (which reads the session) redirects to /dashboard.  None of
    the three renders a page. *)
Theorem stale_session_cycle st u user :
  Session.isPaid u = true →
  Session.profileCompleted u = false →
  findById (Session._id u) (users st) = Some user →
  User.isPaid user = false →
  Public.dashboard (Some u) = Redirect None "/profiles/create"
  ∧ ProfilePages.createPage (Some u) st = Answer paymentRequired
  ∧ PaymentPages.paymentPage (Some u) st = Answer PaymentPages.alreadyPaid
  ∧ redirectsTo (ProfilePages.createPage (Some u) st) = Some "/payments"
  ∧ redirectsTo (PaymentPages.paymentPage (Some u) st) = Some "/dashboard".
Proof.
  intros Hs Hc Hu Hp.
  unfold Public.dashboard, ProfilePages.createPage, PaymentPages.paymentPage,
    pageIsAuthenticated, pageHasPaid.
  by rewrite Hs, Hc, Hu, Hp.
Qed.

(** X30, witness: the session says paid, the stored account does not. *)
Lemma stale_session_cycle_witness :
  let u := Session.mk 4 User.user true false in
  let st := Cases.members [] in
  (Session.isPaid u = true
   ∧ Session.profileCompleted u = false
   ∧ findById 4%N (users st) = Some Cases.unpaid
   ∧ User.isPaid Cases.unpaid = false)
  ∧ Public.dashboard (Some u) = Redirect None "/profiles/create"
  ∧ redirectsTo (ProfilePages.createPage (Some u) st) = Some "/payments"
  ∧ redirectsTo (PaymentPages.paymentPage (Some u) st) = Some "/dashboard".
Proof.
  intros u st. split; [done|].
  destruct (stale_session_cycle st u Cases.unpaid eq_refl eq_refl eq_refl eq_refl)
    as (Hd & _ & _ & Hc & Hp).
  done.
Defined.
